(** * Gomoku engine (class GomokuGame): embedding and properties

    The game logic of the class is embedded function by function.  The
    canvas, the DOM text and the pointer-to-cell translation are left out:
    [handleClick] takes the board coordinates that [getPositionFromEvent]
    computed.  JavaScript numbers are integers here ([Z]); the clock
    ([Date.now()]) is an argument of the operations that read it. *)

From Stdlib Require Import ZArith Lia Bool List.
From stdpp Require Import base tactics option list strings.
Import ListNotations.

Local Open Scope Z_scope.
Set Warnings "-register-all".
Set Default Proof Using "Type".

(** ** Outcomes of a JavaScript computation *)

Inductive Fault : Type :=
| TypeError      (* a property of [undefined] or [null] is read or written *)
| SyntaxError    (* [JSON.parse] rejects its argument *)
| ArrayGrowth    (* an indexed write outside an array: JavaScript grows the
                    array (or adds a property); boards of that shape are
                    not represented, the write is reported instead *)
| Divergence.    (* a [while] loop that never exits *)

Inductive Res (A : Type) : Type :=
| Ok (a : A)
| Err (f : Fault).
Arguments Ok {A} a.
Arguments Err {A} f.

Definition bindRes {A B : Type} (m : Res A) (k : A -> Res B) : Res B :=
  match m with
  | Ok a => k a
  | Err f => Err f
  end.

Notation "'let*' x ':=' m 'in' k" := (bindRes m (fun x => k))
  (at level 10, x pattern, m at level 100, k at level 200).

(** ** Data *)

Definition BOARD_SIZE : Z := 15.

Inductive Player : Type := NONE | BLACK | WHITE.

Inductive GameMode : Type := PVP | PVE.

#[global] Instance Player_eq_dec : EqDecision Player.
Proof. solve_decision. Defined.

#[global] Instance GameMode_eq_dec : EqDecision GameMode.
Proof. solve_decision. Defined.

(** [Player[][]]: an array of rows. *)
Abbreviation Board := (list (list Player)).

Record Move : Type := mkMove {
  row : Z;
  col : Z;
  player : Player;
  timestamp : Z;
  moveNumber : Z
}.

(** A JavaScript array read [a[i]]: [None] is [undefined] (index negative
    or past the end). *)
Definition jsIndex {A : Type} (a : list A) (i : Z) : option A :=
  if 0 <=? i then a !! Z.to_nat i else None.

(** [this.board[row][col]] as an expression: reading [col] of an
    [undefined] row throws. *)
Definition boardGet (b : Board) (r c : Z) : Res (option Player) :=
  match jsIndex b r with
  | None => Err TypeError
  | Some cells => Ok (jsIndex cells c)
  end.

(** [this.board[row][col] = v]. *)
Definition boardSet (b : Board) (r c : Z) (v : Player) : Res Board :=
  match jsIndex b r with
  | None => Err TypeError
  | Some cells =>
      if (0 <=? c) && (c <? Z.of_nat (length cells))
      then Ok (<[Z.to_nat r := <[Z.to_nat c := v]> cells]> b)
      else Err ArrayGrowth
  end.

(** [x === y] on cell values. *)
Definition cellEq (x y : option Player) : bool := bool_decide (x = y).

(** [createEmptyBoard] *)
Definition createEmptyBoard : Board :=
  replicate (Z.to_nat BOARD_SIZE) (replicate (Z.to_nat BOARD_SIZE) NONE).

(** ** Win detection *)

(** The [while] loop of [countDirection]; [fuel] bounds the number of
    times the condition is tested. *)
Fixpoint countLoop (fuel : nat) (b : Board) (dx dy : Z) (p : option Player)
    (count currentRow currentCol : Z) : Res Z :=
  match fuel with
  | O => Err Divergence
  | S fuel' =>
      if (0 <=? currentRow) && (currentRow <? BOARD_SIZE) &&
         (0 <=? currentCol) && (currentCol <? BOARD_SIZE)
      then
        let* v := boardGet b currentRow currentCol in
        if cellEq v p
        then countLoop fuel' b dx dy p (count + 1) (currentRow + dx) (currentCol + dy)
        else Ok count
      else Ok count
  end.

(** Every pass of the loop that continues has its cell on the 15x15 grid
    and then moves by [(dx, dy)]; with a non-zero step the condition is
    tested at most 16 times (lemma [countLoop_fuel]); with a zero step the
    loop exits at its first test or never. *)
Definition loopFuel : nat := S (Z.to_nat BOARD_SIZE).

Definition countDirection (b : Board) (r c dx dy : Z) (p : option Player) : Res Z :=
  countLoop loopFuel b dx dy p 0 (r + dx) (c + dy).

Definition directions : list (Z * Z) := [(0, 1); (1, 0); (1, 1); (1, -1)].

(** The [for (const [dx, dy] of directions)] loop of [checkWin]. *)
Fixpoint checkWinLoop (b : Board) (r c : Z) (p : option Player)
    (dirs : list (Z * Z)) : Res bool :=
  match dirs with
  | [] => Ok false
  | (dx, dy) :: rest =>
      let count := 1 in
      let* n1 := countDirection b r c dx dy p in
      let count := count + n1 in
      let* n2 := countDirection b r c (- dx) (- dy) p in
      let count := count + n2 in
      if 5 <=? count then Ok true else checkWinLoop b r c p rest
  end.

Definition checkWin (b : Board) (r c : Z) : Res bool :=
  let* p := boardGet b r c in
  checkWinLoop b r c p directions.

(** [isBoardFull]: the two nested loops, row-major. *)
Definition range (n : Z) : list Z := map Z.of_nat (seq 0 (Z.to_nat n)).

Fixpoint fullCols (b : Board) (r : Z) (cols : list Z) : Res bool :=
  match cols with
  | [] => Ok true
  | c :: rest =>
      let* v := boardGet b r c in
      if cellEq v (Some NONE) then Ok false else fullCols b r rest
  end.

Fixpoint fullRows (b : Board) (rows : list Z) : Res bool :=
  match rows with
  | [] => Ok true
  | r :: rest =>
      let* f := fullCols b r (range BOARD_SIZE) in
      if f then fullRows b rest else Ok false
  end.

Definition isBoardFull (b : Board) : Res bool := fullRows b (range BOARD_SIZE).

(** ** Stored snapshots *)

(** JSON values, as [JSON.parse] builds them.  A string is the sequence
    of its UTF-16 code units, which is what JavaScript indexes and counts;
    an object is the list of its own properties. *)
Inductive JValue : Type :=
| JNull
| JBool (b : bool)
| JNum (z : Z)
| JStr (units : list Z)
| JArr (items : list JValue)
| JObj (props : list (string * JValue)).

(** A JavaScript value held in a field or variable; [None] is
    [undefined]. *)
Definition JS : Type := option JValue.

(** The string kept under the key ['gomoku-game-state'], by what the
    code can observe of it: whether it is empty (falsy), whether
    [JSON.parse] rejects it, and otherwise the value it parses to.
    [JSON.stringify] of a value [v] made of integers, booleans, strings,
    arrays and plain objects is a text that parses back to [v]. *)
Inductive Stored : Type :=
| EmptyText
| BadText
| JsonText (v : JValue).

Fixpoint lookupProp (key : string) (props : list (string * JValue)) : JS :=
  match props with
  | [] => None
  | (k, v) :: rest => if String.eqb k key then Some v else lookupProp key rest
  end.

(** [v.key] for the property names the code reads ([board],
    [currentPlayer], [gameOver], [moveHistory], [gameMode], [length]);
    none of them is an array index. *)
Definition getProp (v : JS) (key : string) : Res JS :=
  match v with
  | None => Err TypeError
  | Some JNull => Err TypeError
  | Some (JObj props) => Ok (lookupProp key props)
  | Some (JArr items) =>
      Ok (if String.eqb key "length" then Some (JNum (Z.of_nat (length items))) else None)
  | Some (JStr units) =>
      Ok (if String.eqb key "length" then Some (JNum (Z.of_nat (length units))) else None)
  | Some (JBool _) => Ok None
  | Some (JNum _) => Ok None
  end.

Definition encPlayer (p : Player) : JValue :=
  JNum (match p with NONE => 0 | BLACK => 1 | WHITE => 2 end).

(** The code units of a string literal made of ASCII characters: one
    unit per character, its character code. *)
Definition unitsOf (s : string) : list Z :=
  map (fun a => Z.of_N (Ascii.N_of_ascii a)) (String.list_ascii_of_string s).

Definition encMode (m : GameMode) : JValue :=
  JStr (unitsOf (match m with PVP => "pvp" | PVE => "pve" end)).

Definition encBoard (b : Board) : JValue :=
  JArr (map (fun cells => JArr (map encPlayer cells)) b).

Definition encMove (m : Move) : JValue :=
  JObj [("row", JNum (row m)); ("col", JNum (col m)); ("player", encPlayer (player m));
        ("timestamp", JNum (timestamp m)); ("moveNumber", JNum (moveNumber m))]%string.

Definition encHistory (h : list Move) : JValue := JArr (map encMove h).

(** ** The engine *)

Record State : Type := mkState {
  board : Board;
  currentPlayer : Player;
  gameOver : bool;
  moveHistory : list Move;
  moveCount : Z;
  gameMode : GameMode;
  saved : option Stored;    (* localStorage item 'gomoku-game-state' *)
  pendingAI : nat           (* [setTimeout(() => this.aiMove(), 500)] calls not yet run *)
}.

Definition setBoard (s : State) (b : Board) : State :=
  mkState b (currentPlayer s) (gameOver s) (moveHistory s) (moveCount s) (gameMode s)
          (saved s) (pendingAI s).
Definition setCurrentPlayer (s : State) (p : Player) : State :=
  mkState (board s) p (gameOver s) (moveHistory s) (moveCount s) (gameMode s)
          (saved s) (pendingAI s).
Definition setGameOver (s : State) (g : bool) : State :=
  mkState (board s) (currentPlayer s) g (moveHistory s) (moveCount s) (gameMode s)
          (saved s) (pendingAI s).
Definition setMoveHistory (s : State) (h : list Move) : State :=
  mkState (board s) (currentPlayer s) (gameOver s) h (moveCount s) (gameMode s)
          (saved s) (pendingAI s).
Definition setMoveCount (s : State) (n : Z) : State :=
  mkState (board s) (currentPlayer s) (gameOver s) (moveHistory s) n (gameMode s)
          (saved s) (pendingAI s).
Definition setGameMode (s : State) (m : GameMode) : State :=
  mkState (board s) (currentPlayer s) (gameOver s) (moveHistory s) (moveCount s) m
          (saved s) (pendingAI s).
Definition setSaved (s : State) (v : option Stored) : State :=
  mkState (board s) (currentPlayer s) (gameOver s) (moveHistory s) (moveCount s)
          (gameMode s) v (pendingAI s).
Definition setPendingAI (s : State) (n : nat) : State :=
  mkState (board s) (currentPlayer s) (gameOver s) (moveHistory s) (moveCount s)
          (gameMode s) (saved s) n.

(** The constructor's field initialisation, with nothing stored. *)
Definition initialState : State :=
  mkState createEmptyBoard BLACK false [] 0 PVP None 0.

(** The object literal of [saveGame] after [JSON.stringify]. *)
Definition encSnapshot (s : State) : JValue :=
  JObj [("board", encBoard (board s)); ("currentPlayer", encPlayer (currentPlayer s));
        ("gameOver", JBool (gameOver s)); ("moveHistory", encHistory (moveHistory s));
        ("gameMode", encMode (gameMode s))]%string.

Definition saveGame (s : State) : State :=
  if gameOver s then s
  else setSaved s (Some (JsonText (encSnapshot s))).

Definition other (p : Player) : Player :=
  if decide (p = BLACK) then WHITE else BLACK.

Definition switchPlayer (s : State) : State :=
  setCurrentPlayer s (other (currentPlayer s)).

(** [endGame]: the winner only selects the message shown. *)
Definition endGame (winner : Player) (s : State) : State :=
  setSaved (setGameOver s true) None.

Definition isAITurn (s : State) : bool :=
  bool_decide (gameMode s = PVE) && bool_decide (currentPlayer s = WHITE).

Definition placePiece (now : Z) (r c : Z) (s : State) : Res State :=
  let* b := boardSet (board s) r c (currentPlayer s) in
  let s := setBoard s b in
  let s := setMoveCount s (moveCount s + 1) in
  let move := mkMove r c (currentPlayer s) now (moveCount s) in
  let s := setMoveHistory s (moveHistory s ++ [move]) in
  let s := saveGame s in
  let* won := checkWin (board s) r c in
  if won then Ok (endGame (currentPlayer s) s)
  else
    let* full := isBoardFull (board s) in
    if full then Ok (endGame NONE s)
    else
      let s := switchPlayer s in
      if isAITurn s then Ok (setPendingAI s (S (pendingAI s))) else Ok s.

(** ** The computer's move *)

(** The [for] loop of [evaluatePosition] over the four directions. *)
Fixpoint evalLoop (b : Board) (r c : Z) (pl opponent : Player)
    (dirs : list (Z * Z)) (score : Z) : Res Z :=
  match dirs with
  | [] => Ok score
  | (dx, dy) :: rest =>
      let* m1 := countDirection b r c dx dy (Some pl) in
      let* m2 := countDirection b r c (- dx) (- dy) (Some pl) in
      let myCount := m1 + m2 in
      let* o1 := countDirection b r c dx dy (Some opponent) in
      let* o2 := countDirection b r c (- dx) (- dy) (Some opponent) in
      let opponentCount := o1 + o2 in
      let score :=
        if 4 <=? myCount then score + 100000
        else if myCount =? 3 then score + 10000
        else if myCount =? 2 then score + 1000
        else if myCount =? 1 then score + 100
        else score in
      let score :=
        if 4 <=? opponentCount then score + 50000
        else if opponentCount =? 3 then score + 5000
        else if opponentCount =? 2 then score + 500
        else score in
      evalLoop b r c pl opponent rest score
  end.

Definition evaluatePosition (b : Board) (r c : Z) (pl : Player) : Res Z :=
  let opponent := if decide (pl = BLACK) then WHITE else BLACK in
  let* score := evalLoop b r c pl opponent directions 0 in
  let centerDistance := Z.abs (r - 7) + Z.abs (c - 7) in
  Ok (score + (14 - centerDistance) * 10).

(** The scan of strategies 1 and 2 of [getAIMove]: the two loops are the
    same but for the side that is tried ([WHITE], then [BLACK]). *)
Fixpoint probeCols (side : Player) (b : Board) (r : Z) (cols : list Z)
    : Res (option (Z * Z) * Board) :=
  match cols with
  | [] => Ok (None, b)
  | c :: rest =>
      let* v := boardGet b r c in
      if cellEq v (Some NONE) then
        let* b1 := boardSet b r c side in
        let* won := checkWin b1 r c in
        if won then
          let* b2 := boardSet b1 r c NONE in
          Ok (Some (r, c), b2)
        else
          let* b2 := boardSet b1 r c NONE in
          probeCols side b2 r rest
      else probeCols side b r rest
  end.

Fixpoint probeRows (side : Player) (b : Board) (rows : list Z)
    : Res (option (Z * Z) * Board) :=
  match rows with
  | [] => Ok (None, b)
  | r :: rest =>
      let* res := probeCols side b r (range BOARD_SIZE) in
      match res with
      | (Some mv, b1) => Ok (Some mv, b1)
      | (None, b1) => probeRows side b1 rest
      end
  end.

(** Strategy 3: the loop state is [(bestScore, bestMove)]. *)
Fixpoint bestCols (b : Board) (r : Z) (cols : list Z) (best : Z * option (Z * Z))
    : Res (Z * option (Z * Z)) :=
  match cols with
  | [] => Ok best
  | c :: rest =>
      let* v := boardGet b r c in
      if cellEq v (Some NONE) then
        let* score := evaluatePosition b r c WHITE in
        if fst best <? score
        then bestCols b r rest (score, Some (r, c))
        else bestCols b r rest best
      else bestCols b r rest best
  end.

Fixpoint bestRows (b : Board) (rows : list Z) (best : Z * option (Z * Z))
    : Res (Z * option (Z * Z)) :=
  match rows with
  | [] => Ok best
  | r :: rest =>
      let* best1 := bestCols b r (range BOARD_SIZE) best in
      bestRows b rest best1
  end.

(** [getAIMove]: the move, or [None] for [null], and the board it leaves. *)
Definition getAIMove (b : Board) : Res (option (Z * Z) * Board) :=
  let* res1 := probeRows WHITE b (range BOARD_SIZE) in
  match res1 with
  | (Some mv, b1) => Ok (Some mv, b1)
  | (None, b1) =>
      let* res2 := probeRows BLACK b1 (range BOARD_SIZE) in
      match res2 with
      | (Some mv, b2) => Ok (Some mv, b2)
      | (None, b2) =>
          let* best := bestRows b2 (range BOARD_SIZE) (-1, None) in
          Ok (snd best, b2)
      end
  end.

Definition aiMove (now : Z) (s : State) : Res State :=
  if gameOver s then Ok s
  else
    let* res := getAIMove (board s) in
    let s := setBoard s (snd res) in
    match fst res with
    | Some (r, c) => placePiece now r c s
    | None => Ok s
    end.

(** ** Clicks, undo, reset *)

(** [handleClick], from the coordinates of the clicked cell. *)
Definition handleClick (now : Z) (r c : Z) (s : State) : Res State :=
  if gameOver s then Ok s
  else if isAITurn s then Ok s
  else if (r <? 0) || (BOARD_SIZE <=? r) || (c <? 0) || (BOARD_SIZE <=? c) then Ok s
  else
    let* v := boardGet (board s) r c in
    if negb (cellEq v (Some NONE)) then Ok s
    else placePiece now r c s.

(** [moveHistory.pop()] on a non-empty array. *)
Definition popLast {A : Type} (l : list A) : option (A * list A) :=
  match last l with
  | Some x => Some (x, removelast l)
  | None => None
  end.

(** The [for] loop of [undo]; [steps] is what is left of [stepsToUndo]. *)
Fixpoint undoLoop (steps : nat) (s : State) : Res State :=
  match steps with
  | O => Ok s
  | S steps' =>
      match popLast (moveHistory s) with
      | None => Ok s
      | Some (lastMove, h) =>
          let s := setMoveHistory s h in
          let* b := boardSet (board s) (row lastMove) (col lastMove) NONE in
          let s := setBoard s b in
          let s := setMoveCount s (moveCount s - 1) in
          undoLoop steps' s
      end
  end.

Definition undo (s : State) : Res State :=
  if gameOver s || (length (moveHistory s) =? 0)%nat then Ok s
  else
    let stepsToUndo :=
      if bool_decide (gameMode s = PVE) && (2 <=? length (moveHistory s))%nat
      then 2%nat else 1%nat in
    let* s := undoLoop stepsToUndo s in
    let s :=
      match last (moveHistory s) with
      | Some lastMove => setCurrentPlayer s (other (player lastMove))
      | None => setCurrentPlayer s BLACK
      end in
    Ok (saveGame s).

Definition reset (s : State) : State :=
  let s := setBoard s createEmptyBoard in
  let s := setCurrentPlayer s BLACK in
  let s := setGameOver s false in
  let s := setMoveHistory s [] in
  let s := setMoveCount s 0 in
  setSaved s None.

Definition toggleMode (s : State) : State :=
  let s := setGameMode s (if decide (gameMode s = PVP) then PVE else PVP) in
  reset s.

(** What the page can do to the engine: a click on a cell, a timer set by
    [placePiece] running out, and the three buttons. *)
Inductive Event : Type :=
| Click (now r c : Z)
| Timer (now : Z)
| UndoBtn
| ResetBtn
| ModeBtn.

Definition step (e : Event) (s : State) : Res State :=
  match e with
  | Click now r c => handleClick now r c s
  | Timer now =>
      match pendingAI s with
      | O => Ok s
      | S n => aiMove now (setPendingAI s n)
      end
  | UndoBtn => undo s
  | ResetBtn => Ok (reset s)
  | ModeBtn => Ok (toggleMode s)
  end.

Fixpoint run (es : list Event) (s : State) : Res State :=
  match es with
  | [] => Ok s
  | e :: rest => let* s1 := step e s in run rest s1
  end.

(** ** Loading a snapshot *)

(** The fields [loadGame] assigns, as the values they hold once the
    unchecked [GameState] annotation is erased. *)
Record Fields : Type := mkFields {
  fBoard : JS;
  fCurrentPlayer : JS;
  fGameOver : JS;
  fMoveHistory : JS;
  fMoveCount : JS;
  fGameMode : JS
}.

Definition fieldsOf (s : State) : Fields :=
  mkFields (Some (encBoard (board s))) (Some (encPlayer (currentPlayer s)))
           (Some (JBool (gameOver s))) (Some (encHistory (moveHistory s)))
           (Some (JNum (moveCount s))) (Some (encMode (gameMode s))).

(** The [try] block after [JSON.parse] returned [gameState]: the fields as
    the block leaves them, and whether it completed or threw.  Each
    assignment made before a throw stays. *)
Definition restore (gameState : JValue) (f : Fields) : Fields * Res unit :=
  match getProp (Some gameState) "board" with
  | Err e => (f, Err e)
  | Ok vBoard =>
  let f := mkFields vBoard (fCurrentPlayer f) (fGameOver f) (fMoveHistory f) (fMoveCount f) (fGameMode f) in
  match getProp (Some gameState) "currentPlayer" with
  | Err e => (f, Err e)
  | Ok vPlayer =>
  let f := mkFields (fBoard f) vPlayer (fGameOver f) (fMoveHistory f) (fMoveCount f) (fGameMode f) in
  match getProp (Some gameState) "gameOver" with
  | Err e => (f, Err e)
  | Ok vOver =>
  let f := mkFields (fBoard f) (fCurrentPlayer f) vOver (fMoveHistory f) (fMoveCount f) (fGameMode f) in
  match getProp (Some gameState) "moveHistory" with
  | Err e => (f, Err e)
  | Ok vHistory =>
  let f := mkFields (fBoard f) (fCurrentPlayer f) (fGameOver f) vHistory (fMoveCount f) (fGameMode f) in
  match getProp vHistory "length" with
  | Err e => (f, Err e)
  | Ok vLength =>
  let f := mkFields (fBoard f) (fCurrentPlayer f) (fGameOver f) (fMoveHistory f) vLength (fGameMode f) in
  match getProp (Some gameState) "gameMode" with
  | Err e => (f, Err e)
  | Ok vMode =>
  let f := mkFields (fBoard f) (fCurrentPlayer f) (fGameOver f) (fMoveHistory f) (fMoveCount f) vMode in
  (f, Ok tt)
  end end end end end end.

(** [JSON.parse(saved)] on a stored text. *)
Definition parse (t : Stored) : Res JValue :=
  match t with
  | EmptyText => Err SyntaxError
  | BadText => Err SyntaxError
  | JsonText v => Ok v
  end.

(** [loadGame]: the engine's fields and the stored item afterwards.  The
    method itself never throws: the [catch] takes every exception of the
    [try] block, logs it and removes the item. *)
Definition loadGame (f : Fields) (item : option Stored) : Fields * option Stored :=
  match item with
  | None => (f, item)
  | Some EmptyText => (f, item)
  | Some text =>
      match parse text with
      | Err _ => (f, None)
      | Ok gameState =>
          match restore gameState f with
          | (f1, Ok _) => (f1, item)
          | (f1, Err _) => (f1, None)
          end
      end
  end.

(** ** Move numbers on the board *)

(** [getMoveNumber]: the number of the first ledger entry on the cell, or
    0 when there is none. *)
Definition getMoveNumber (s : State) (r c : Z) : Z :=
  match find (fun m => (row m =? r) && (col m =? c)) (moveHistory s) with
  | Some move => moveNumber move
  | None => 0
  end.

(** A call [drawPiece(row, col, player, moveNumber)]; the number is
    written on the stone when it is not 0 ([showMoveNumbers] is set to
    [true] by the constructor and never assigned again). *)
Record Drawn : Type := mkDrawn {
  dRow : Z;
  dCol : Z;
  dPlayer : option Player;
  dNumber : Z
}.

(** The loop of [drawBoard] that draws the stones: the calls of
    [drawPiece] it makes, in order. *)
Fixpoint drawCols (s : State) (r : Z) (cols : list Z) (calls : list Drawn)
    : Res (list Drawn) :=
  match cols with
  | [] => Ok calls
  | c :: rest =>
      let* v := boardGet (board s) r c in
      if negb (cellEq v (Some NONE)) then
        let moveNumber := getMoveNumber s r c in
        let* v' := boardGet (board s) r c in
        drawCols s r rest (calls ++ [mkDrawn r c v' moveNumber])
      else drawCols s r rest calls
  end.

Fixpoint drawRows (s : State) (rows : list Z) (calls : list Drawn) : Res (list Drawn) :=
  match rows with
  | [] => Ok calls
  | r :: rest =>
      let* calls1 := drawCols s r (range BOARD_SIZE) calls in
      drawRows s rest calls1
  end.

Definition drawBoardPieces (s : State) : Res (list Drawn) :=
  drawRows s (range BOARD_SIZE) [].

(** ** Definitions used to state the properties *)

(** A board of 15 rows of 15 cells, as [createEmptyBoard] builds it. *)
Definition wfBoardb (b : Board) : bool :=
  (length b =? Z.to_nat BOARD_SIZE)%nat &&
  forallb (fun cells : list Player => (length cells =? Z.to_nat BOARD_SIZE)%nat) b.

Definition wfBoard (b : Board) : Prop := wfBoardb b = true.

Definition inGrid (r c : Z) : bool :=
  (0 <=? r) && (r <? BOARD_SIZE) && (0 <=? c) && (c <? BOARD_SIZE).

Definition onGrid (r c : Z) : Prop := 0 <= r < BOARD_SIZE /\ 0 <= c < BOARD_SIZE.

(** The value of [board[r][c]] where no exception is at stake. *)
Definition cellOf (b : Board) (r c : Z) : option Player :=
  match jsIndex b r with
  | Some cells => jsIndex cells c
  | None => None
  end.

(** The board with cell [(r, c)] replaced. *)
Definition put (b : Board) (r c : Z) (v : Player) : Board :=
  alter (fun cells => <[Z.to_nat c := v]> cells) (Z.to_nat r) b.

(** Cell [(r, c)] is on the grid and holds [p]. *)
Definition holds (b : Board) (p : option Player) (r c : Z) : bool :=
  inGrid r c && cellEq (cellOf b r c) p.

Fixpoint takeWhile {A : Type} (f : A -> bool) (l : list A) : list A :=
  match l with
  | [] => []
  | x :: rest => if f x then x :: takeWhile f rest else []
  end.

(** The number of consecutive cells holding [p] met when leaving [(r, c)]
    by steps of [(dx, dy)], the cell [(r, c)] itself not counted. *)
Definition reach (b : Board) (p : option Player) (r c dx dy : Z) : Z :=
  Z.of_nat (length (takeWhile (fun k => holds b p (r + k * dx) (c + k * dy))
                              (map Z.of_nat (seq 1 (Z.to_nat BOARD_SIZE))))).

(** A run of at least five cells of side [p] through [(r, c)] along one
    of the four axes - horizontal (0,1), vertical (1,0), diagonal (1,1),
    anti-diagonal (1,-1) - every cell of it on the grid. *)
Definition hasFive (b : Board) (p : Player) (r c : Z) : Prop :=
  exists dx dy lo hi,
    In (dx, dy) [(0, 1); (1, 0); (1, 1); (1, -1)] /\ lo <= 0 <= hi /\ 5 <= hi - lo + 1 /\
    forall k, lo <= k <= hi ->
      onGrid (r + k * dx) (c + k * dy) /\ cellOf b (r + k * dx) (c + k * dy) = Some p.

(** A bound on the number of further passes of the loop of
    [countDirection] from an on-grid cell. *)
Definition stepMeasure (dx dy r c : Z) : Z :=
  if 0 <? dx then BOARD_SIZE - r
  else if dx <? 0 then r + 1
  else if 0 <? dy then BOARD_SIZE - c
  else c + 1.

(** The length of the line of [p] through [(r, c)] along an axis, as
    [checkWin] adds it up: the cell itself and what is reached each way. *)
Definition lineLength (b : Board) (p : option Player) (r c : Z) (d : Z * Z) : Z :=
  1 + reach b p r c (fst d) (snd d) + reach b p r c (- fst d) (- snd d).

(** The other side. *)
Definition opponentOf (side : Player) : Player :=
  match side with
  | BLACK => WHITE
  | WHITE => BLACK
  | NONE => NONE
  end.

(** The run of [p] next to a candidate cell along an axis: the cells of
    [p] reached in both directions, the candidate itself left out. *)
Definition runBeside (b : Board) (p : Player) (r c : Z) (d : Z * Z) : Z :=
  reach b (Some p) r c (fst d) (snd d) + reach b (Some p) r c (- fst d) (- snd d).

Definition myPoints (myRun : Z) : Z :=
  if decide (4 <= myRun) then 100000
  else if decide (myRun = 3) then 10000
  else if decide (myRun = 2) then 1000
  else if decide (myRun = 1) then 100
  else 0.

Definition oppPoints (oppRun : Z) : Z :=
  if decide (4 <= oppRun) then 50000
  else if decide (oppRun = 3) then 5000
  else if decide (oppRun = 2) then 500
  else 0.

Definition axisPoints (b : Board) (side : Player) (r c : Z) (d : Z * Z) : Z :=
  myPoints (runBeside b side r c d) + oppPoints (runBeside b (opponentOf side) r c d).

Definition sumZ (l : list Z) : Z := fold_right Z.add 0 l.

(** The score of a candidate cell for [side]. *)
Definition positionScore (b : Board) (side : Player) (r c : Z) : Z :=
  sumZ (map (axisPoints b side r c) directions) + (14 - Z.abs (r - 7) - Z.abs (c - 7)) * 10.

(** The cells of the grid in row-major scan order: the cell scanned at
    position [i] is [(i / 15, i mod 15)]. *)
Definition cells : list (Z * Z) :=
  map (fun i => (i / BOARD_SIZE, i mod BOARD_SIZE)) (range (BOARD_SIZE * BOARD_SIZE)).

(** The position of cell [(r, c)] in the row-major scan. *)
Definition scanIndex (r c : Z) : Z := BOARD_SIZE * r + c.

Definition isEmpty (b : Board) (cell : Z * Z) : bool :=
  cellEq (cellOf b (fst cell) (snd cell)) (Some NONE).

(** Placing [side] on the empty cell makes [checkWin] report a win. *)
Definition winsAt (side : Player) (b : Board) (cell : Z * Z) : bool :=
  isEmpty b cell &&
  match checkWin (put b (fst cell) (snd cell) side) (fst cell) (snd cell) with
  | Ok true => true
  | _ => false
  end.

(** One step of the best-cell search: an empty cell replaces the best so
    far only with a strictly greater score. *)
Definition pick (b : Board) (best : Z * option (Z * Z)) (cell : Z * Z)
    : Z * option (Z * Z) :=
  if isEmpty b cell then
    if fst best <? positionScore b WHITE (fst cell) (snd cell)
    then (positionScore b WHITE (fst cell) (snd cell), Some cell)
    else best
  else best.

(** The three-tier policy of the move selector for the computer's side
    ([WHITE]): the first winning cell, else the first cell where the
    opponent would win, else the best-scored cell. *)
Definition selectMove (b : Board) : option (Z * Z) :=
  match find (winsAt WHITE b) cells with
  | Some mv => Some mv
  | None =>
      match find (winsAt BLACK b) cells with
      | Some mv => Some mv
      | None => snd (fold_left (pick b) cells (-1, None))
      end
  end.

(** [(r, c)] is the first cell of the scan where [side] would win. *)
Definition FirstWin (side : Player) (b : Board) (r c : Z) : Prop :=
  winsAt side b (r, c) = true /\
  forall r' c', onGrid r' c' -> scanIndex r' c' < scanIndex r c ->
    winsAt side b (r', c') = false.

Definition NoWin (side : Player) (b : Board) : Prop :=
  forall r c, onGrid r c -> winsAt side b (r, c) = false.

(** [(r, c)] is empty, no empty cell scores more, and every empty cell
    scanned before it scores strictly less. *)
Definition BestScored (b : Board) (r c : Z) : Prop :=
  cellOf b r c = Some NONE /\
  forall r' c', onGrid r' c' -> cellOf b r' c' = Some NONE ->
    positionScore b WHITE r' c' <= positionScore b WHITE r c /\
    (scanIndex r' c' < scanIndex r c ->
     positionScore b WHITE r' c' < positionScore b WHITE r c).

Definition boardFull (b : Board) : Prop :=
  forall r c, onGrid r c -> cellOf b r c <> Some NONE.

(** The number of non-empty cells of a board. *)
Definition countRow (cells : list Player) : nat :=
  length (List.filter (fun p => negb (bool_decide (p = NONE))) cells).

Definition countPieces (b : Board) : nat :=
  fold_right Nat.add 0%nat (map countRow b).

Definition position (m : Move) : Z * Z := (row m, col m).

(** What every state of a game satisfies between two operations. *)
Record Consistent (s : State) : Prop := mkConsistent {
  cons_board : wfBoard (board s);
  cons_player : currentPlayer s <> NONE;
  cons_moves : forall m, In m (moveHistory s) ->
                 onGrid (row m) (col m) /\ cellOf (board s) (row m) (col m) <> Some NONE;
  cons_nodup : NoDup (map position (moveHistory s));
  cons_count : length (moveHistory s) = countPieces (board s)
}.

(** The side that makes the move of index [i] (from 0) of a game. *)
Definition sideAt (i : nat) : Player := if Nat.even i then BLACK else WHITE.

(** The ledger numbers its moves from 1, alternates the sides from
    [BLACK], and each of its moves is on the board. *)
Record Numbered (s : State) : Prop := mkNumbered {
  num_count : moveCount s = Z.of_nat (length (moveHistory s));
  num_moves : forall (i : nat) (m : Move), moveHistory s !! i = Some m ->
                player m = sideAt i /\ moveNumber m = Z.of_nat i + 1 /\
                cellOf (board s) (row m) (col m) = Some (player m)
}.

(** While the game is in progress the side to move is the one whose turn
    follows the ledger. *)
Definition OnTurn (s : State) : Prop :=
  gameOver s = false -> currentPlayer s = sideAt (length (moveHistory s)).

(** The state [undo] reaches by taking back the last move [m] of the
    ledger [h ++ [m]], before the side to move is set. *)
Definition popped (s : State) (h : list Move) (m : Move) : State :=
  setMoveCount (setBoard (setMoveHistory s h) (put (board s) (row m) (col m) NONE))
               (moveCount s - 1).

(** Sample games. *)
Definition blackWins : list Event :=
  [Click 1 7 7; Click 2 0 0; Click 3 7 8; Click 4 0 1; Click 5 7 9;
   Click 6 0 2; Click 7 7 10; Click 8 0 3; Click 9 7 11].

Definition stateOf (es : list Event) : State :=
  match run es initialState with
  | Ok s => s
  | Err _ => initialState
  end.

Definition oneMove : list Event := [Click 100 7 7].

Definition vsComputer : list Event := [ModeBtn; Click 100 7 7; Timer 600].

(** The result of an operation, or the state it was applied to. *)
Definition resultOf (r : Res State) (s : State) : State :=
  match r with
  | Ok s' => s'
  | Err _ => s
  end.

(** The fields of an engine just constructed. *)
Definition freshFields : Fields := fieldsOf initialState.

(** ** Definitions for the further properties *)

(** The board obtained by playing a ledger on the empty board. *)
Definition replay (h : list Move) : Board :=
  fold_left (fun b m => put b (row m) (col m) (player m)) h createEmptyBoard.

(** Some side has five in a row somewhere on the board. *)
Definition fiveOnBoard (b : Board) : Prop :=
  exists p r c, p <> NONE /\ hasFive b p r c.

(** The terminal flag is set exactly when the board shows five in a row
    or has no empty cell. *)
Definition Decided (s : State) : Prop :=
  gameOver s = true <-> fiveOnBoard (board s) \/ boardFull (board s).

(** The number of moves [undo] takes back from a ledger of [n] moves. *)
Definition undoSteps (mode : GameMode) (n : nat) : nat :=
  match mode with
  | PVE => Nat.min 2 n
  | PVP => Nat.min 1 n
  end.

(** An event that is not a button of the page that starts a new game. *)
Definition keepsGame (e : Event) : bool :=
  match e with
  | Click _ _ _ | Timer _ | UndoBtn => true
  | ResetBtn | ModeBtn => false
  end.

(** The call of [drawPiece] for a ledger entry. *)
Definition drawnOf (m : Move) : Drawn :=
  mkDrawn (row m) (col m) (Some (player m)) (moveNumber m).

(** The call of [drawPiece] that [drawBoard] makes for a non-empty cell. *)
Definition drawAt (s : State) (cell : Z * Z) : Drawn :=
  mkDrawn (fst cell) (snd cell) (cellOf (board s) (fst cell) (snd cell))
          (getMoveNumber s (fst cell) (snd cell)).

Definition pveOneMove : list Event := [ModeBtn; Click 100 7 7].

Definition threeEvents : list Event := [Click 50 3 3; UndoBtn; Timer 60].

(** ** Proof steps used throughout *)

(** Case analysis on every [<?] test in sight. *)
Ltac case_ltb :=
  repeat match goal with
         | |- context [?x <? ?y] => destruct (Z.ltb_spec x y)
         | H : context [?x <? ?y] |- _ => destruct (Z.ltb_spec x y)
         end.

(** The operation returned the state [s] it was given. *)
Ltac unchanged s H := exists s; split; [reflexivity | exact H].

(** ** Boards *)

Lemma wfBoard_length (b : Board) : wfBoard b -> length b = 15%nat.
Proof.
  unfold wfBoard, wfBoardb. intros H. apply andb_prop in H as [H _].
  apply Nat.eqb_eq in H. exact H.
Qed.

Lemma wfBoard_row (b : Board) (i : nat) (cells : list Player) :
  wfBoard b -> b !! i = Some cells -> length cells = 15%nat.
Proof.
  unfold wfBoard, wfBoardb. intros H Hi. apply andb_prop in H as [_ H].
  rewrite forallb_forall in H.
  apply Nat.eqb_eq. apply H. apply list_elem_of_In.
  eapply list_elem_of_lookup_2. exact Hi.
Qed.

Lemma wfBoard_intro (b : Board) :
  length b = 15%nat -> (forall i cells, b !! i = Some cells -> length cells = 15%nat) ->
  wfBoard b.
Proof.
  intros Hl Hr. unfold wfBoard, wfBoardb. apply andb_true_intro. split.
  - apply Nat.eqb_eq. exact Hl.
  - apply forallb_forall. intros cells Hin. apply Nat.eqb_eq.
    apply list_elem_of_In in Hin. apply list_elem_of_lookup_1 in Hin as [i Hi].
    eapply Hr. exact Hi.
Qed.

Lemma inGrid_onGrid (r c : Z) : inGrid r c = true <-> onGrid r c.
Proof. unfold inGrid, onGrid, BOARD_SIZE. lia. Qed.

Lemma inGrid_false (r c : Z) : inGrid r c = false <-> ~ onGrid r c.
Proof. unfold inGrid, onGrid, BOARD_SIZE. lia. Qed.

Lemma jsIndex_nat {A : Type} (a : list A) (i : Z) :
  0 <= i -> jsIndex a i = a !! Z.to_nat i.
Proof. intros H. unfold jsIndex. destruct (Z.leb_spec 0 i); [reflexivity | lia]. Qed.

Lemma wfBoard_row_some (b : Board) (r : Z) :
  wfBoard b -> 0 <= r < BOARD_SIZE ->
  exists cells, jsIndex b r = Some cells /\ length cells = 15%nat.
Proof.
  intros Hwf Hr. rewrite jsIndex_nat by lia.
  destruct (b !! Z.to_nat r) as [cells|] eqn:E.
  - exists cells. split; [reflexivity | eapply wfBoard_row; eauto].
  - apply lookup_ge_None in E. apply wfBoard_length in Hwf.
    unfold BOARD_SIZE in Hr. lia.
Qed.

Lemma boardGet_wf (b : Board) (r c : Z) :
  wfBoard b -> 0 <= r < BOARD_SIZE -> boardGet b r c = Ok (cellOf b r c).
Proof.
  intros Hwf Hr. destruct (wfBoard_row_some b r Hwf Hr) as (cells & E & _).
  unfold boardGet, cellOf. rewrite E. reflexivity.
Qed.

Lemma cellOf_onGrid (b : Board) (r c : Z) :
  wfBoard b -> onGrid r c -> exists p, cellOf b r c = Some p.
Proof.
  intros Hwf [Hr Hc]. destruct (wfBoard_row_some b r Hwf Hr) as (cells & E & Hl).
  unfold cellOf. rewrite E. rewrite jsIndex_nat by lia.
  destruct (cells !! Z.to_nat c) as [p|] eqn:Ec; [eauto|].
  apply lookup_ge_None in Ec. unfold BOARD_SIZE in Hc. lia.
Qed.

Lemma boardSet_wf (b : Board) (r c : Z) (v : Player) :
  wfBoard b -> onGrid r c -> boardSet b r c v = Ok (put b r c v).
Proof.
  intros Hwf [Hr Hc]. destruct (wfBoard_row_some b r Hwf Hr) as (cells & E & Hl).
  unfold boardSet. rewrite E.
  assert (Hin : (0 <=? c) && (c <? Z.of_nat (length cells)) = true).
  { unfold BOARD_SIZE in Hc. rewrite Hl. change (Z.of_nat 15) with 15. lia. }
  rewrite Hin. f_equal. unfold put.
  rewrite jsIndex_nat in E by lia.
  apply list_eq. intros i.
  destruct (decide (i = Z.to_nat r)) as [->|Hne].
  - rewrite list_lookup_alter_eq, E. simpl.
    rewrite list_lookup_insert_eq; [reflexivity|].
    apply lookup_lt_Some in E. exact E.
  - rewrite list_lookup_alter_ne by congruence.
    rewrite list_lookup_insert_ne by congruence. reflexivity.
Qed.

Lemma put_wf (b : Board) (r c : Z) (v : Player) : wfBoard b -> wfBoard (put b r c v).
Proof.
  intros Hwf. apply wfBoard_intro.
  - unfold put. rewrite length_alter. apply wfBoard_length. exact Hwf.
  - intros i cells Hi. unfold put in Hi.
    destruct (decide (i = Z.to_nat r)) as [->|Hne].
    + rewrite list_lookup_alter_eq in Hi.
      destruct (b !! Z.to_nat r) as [old|] eqn:E; simpl in Hi; [|discriminate].
      injection Hi as <-. rewrite length_insert. eapply wfBoard_row; eauto.
    + rewrite list_lookup_alter_ne in Hi by congruence. eapply wfBoard_row; eauto.
Qed.

Lemma cellOf_put_eq (b : Board) (r c : Z) (v : Player) :
  wfBoard b -> onGrid r c -> cellOf (put b r c v) r c = Some v.
Proof.
  intros Hwf [Hr Hc]. destruct (wfBoard_row_some b r Hwf Hr) as (cells & E & Hl).
  unfold cellOf, put. rewrite jsIndex_nat in * by lia.
  rewrite list_lookup_alter_eq, E. simpl. rewrite jsIndex_nat by lia.
  apply list_lookup_insert_eq. unfold BOARD_SIZE in Hc. lia.
Qed.

Lemma cellOf_put_ne (b : Board) (r c r' c' : Z) (v : Player) :
  0 <= r -> 0 <= c -> (r', c') <> (r, c) ->
  cellOf (put b r c v) r' c' = cellOf b r' c'.
Proof.
  intros Hr Hc Hne. unfold cellOf, put, jsIndex.
  destruct (Z.leb_spec 0 r'); [|reflexivity].
  destruct (decide (Z.to_nat r = Z.to_nat r')) as [Heq|Hneq].
  - assert (r = r') by lia. subst r'.
    rewrite list_lookup_alter_eq.
    destruct (b !! Z.to_nat r) as [cells|]; simpl; [|reflexivity].
    destruct (Z.leb_spec 0 c'); [|reflexivity].
    apply list_lookup_insert_ne. intros Hc'. apply Hne. f_equal. lia.
  - rewrite list_lookup_alter_ne by exact Hneq. reflexivity.
Qed.

Lemma put_same (b : Board) (r c : Z) (v : Player) :
  0 <= r -> 0 <= c -> cellOf b r c = Some v -> put b r c v = b.
Proof.
  intros Hr Hc Hv. unfold put. apply list_eq. intros i.
  destruct (decide (i = Z.to_nat r)) as [->|Hne].
  - rewrite list_lookup_alter_eq. unfold cellOf in Hv.
    rewrite jsIndex_nat in Hv by lia.
    destruct (b !! Z.to_nat r) as [cells|]; simpl; [|reflexivity].
    rewrite jsIndex_nat in Hv by lia. f_equal. apply list_insert_id. exact Hv.
  - rewrite list_lookup_alter_ne by congruence. reflexivity.
Qed.

Lemma put_put (b : Board) (r c : Z) (v w : Player) :
  put (put b r c v) r c w = put b r c w.
Proof.
  unfold put. apply list_eq. intros i.
  destruct (decide (i = Z.to_nat r)) as [->|Hne].
  - rewrite !list_lookup_alter_eq.
    destruct (b !! Z.to_nat r) as [cells|]; simpl; [|reflexivity].
    f_equal. apply list_insert_insert_eq.
  - rewrite !list_lookup_alter_ne by congruence. reflexivity.
Qed.

Lemma createEmptyBoard_wf : wfBoard createEmptyBoard.
Proof. reflexivity. Qed.

(** ** The counting loop *)


Lemma holds_off_grid (b : Board) (p : option Player) (r c : Z) :
  inGrid r c = false -> holds b p r c = false.
Proof. intros H. unfold holds. rewrite H. reflexivity. Qed.

Lemma countLoop_fuel (fuel : nat) :
  forall (b : Board) (dx dy : Z) (p : option Player) (count r c : Z),
    wfBoard b -> dx <> 0 \/ dy <> 0 ->
    (1 <= fuel)%nat ->
    (onGrid r c -> stepMeasure dx dy r c < Z.of_nat fuel) ->
    exists n, 0 <= n < Z.of_nat fuel /\
      countLoop fuel b dx dy p count r c = Ok (count + n) /\
      (forall k, 0 <= k < n -> holds b p (r + k * dx) (c + k * dy) = true) /\
      holds b p (r + n * dx) (c + n * dy) = false.
Proof.
  induction fuel as [|fuel IH]; intros b dx dy p count r c Hwf Hd Hfuel Hm; [lia|].
  cbn [countLoop]. fold (inGrid r c).
  destruct (inGrid r c) eqn:Hg.
  - apply inGrid_onGrid in Hg as Hon.
    rewrite boardGet_wf by (exact Hwf || apply Hon). cbn [bindRes].
    destruct (cellEq (cellOf b r c) p) eqn:Hc.
    + specialize (Hm Hon).
      assert (Hstep : onGrid (r + dx) (c + dy) ->
                      stepMeasure dx dy (r + dx) (c + dy) < Z.of_nat fuel).
      { intros Hon'. unfold stepMeasure, onGrid, BOARD_SIZE in *.
        case_ltb; lia. }
      assert (Hone : (1 <= fuel)%nat).
      { unfold stepMeasure, onGrid, BOARD_SIZE in *.
        case_ltb; lia. }
      destruct (IH b dx dy p (count + 1) (r + dx) (c + dy) Hwf Hd Hone Hstep)
        as (n & Hn & Hrun & Hall & Hstop).
      exists (n + 1). split; [lia|]. split; [rewrite Hrun; f_equal; lia|]. split.
      * intros k Hk. destruct (Z.eq_dec k 0) as [->|Hk0].
        -- rewrite !Z.mul_0_l, !Z.add_0_r. unfold holds. rewrite Hg, Hc. reflexivity.
        -- specialize (Hall (k - 1) ltac:(lia)).
           replace (r + k * dx) with (r + dx + (k - 1) * dx) by lia.
           replace (c + k * dy) with (c + dy + (k - 1) * dy) by lia. exact Hall.
      * replace (r + (n + 1) * dx) with (r + dx + n * dx) by lia.
        replace (c + (n + 1) * dy) with (c + dy + n * dy) by lia. exact Hstop.
    + exists 0. split; [lia|]. split; [f_equal; lia|]. split; [intros; lia|].
      rewrite !Z.mul_0_l, !Z.add_0_r. unfold holds. rewrite Hg, Hc. reflexivity.
  - exists 0. split; [lia|]. split; [f_equal; lia|]. split; [intros; lia|].
    rewrite !Z.mul_0_l, !Z.add_0_r. apply holds_off_grid. exact Hg.
Qed.

(** Fuel beyond what the loop needs does not change what it returns. *)
Lemma countLoop_more_fuel (fuel : nat) :
  forall (b : Board) (dx dy : Z) (p : option Player) (count r c n : Z) (extra : nat),
    countLoop fuel b dx dy p count r c = Ok n ->
    countLoop (fuel + extra) b dx dy p count r c = Ok n.
Proof.
  induction fuel as [|fuel IH]; intros b dx dy p count r c n extra; [discriminate|].
  cbn [countLoop Nat.add].
  destruct ((0 <=? r) && (r <? BOARD_SIZE) && (0 <=? c) && (c <? BOARD_SIZE)); [|auto].
  destruct (boardGet b r c) as [v|]; cbn [bindRes]; [|auto].
  destruct (cellEq v p); [apply IH | auto].
Qed.

Lemma takeWhile_seq (f : Z -> bool) (m : nat) :
  forall (a n : nat), (n <= m)%nat ->
    (forall k, (a <= k < a + n)%nat -> f (Z.of_nat k) = true) ->
    ((n < m)%nat -> f (Z.of_nat (a + n)) = false) ->
    length (takeWhile f (map Z.of_nat (seq a m))) = n.
Proof.
  induction m as [|m IH]; intros a n Hn Htrue Hfalse.
  - simpl. lia.
  - cbn [seq map takeWhile]. destruct n as [|n].
    + rewrite Nat.add_0_r in Hfalse. rewrite Hfalse by lia. reflexivity.
    + rewrite Htrue by lia. cbn [length]. f_equal.
      apply IH; [lia| |].
      * intros k Hk. apply Htrue. lia.
      * intros Hlt. replace (S a + n)%nat with (a + S n)%nat by lia.
        apply Hfalse. lia.
Qed.

(** The loop counts what [reach] describes, and within its fuel. *)
Lemma countDirection_reach (b : Board) (r c dx dy : Z) (p : option Player) :
  wfBoard b -> dx <> 0 \/ dy <> 0 ->
  countDirection b r c dx dy p = Ok (reach b p r c dx dy).
Proof.
  intros Hwf Hd. unfold countDirection.
  destruct (countLoop_fuel loopFuel b dx dy p 0 (r + dx) (c + dy) Hwf Hd)
    as (n & Hn & Hrun & Hall & Hstop).
  - unfold loopFuel, BOARD_SIZE. simpl. lia.
  - intros Hon. unfold stepMeasure, onGrid, loopFuel, BOARD_SIZE in *.
    change (Z.of_nat (S (Z.to_nat 15))) with 16.
    case_ltb; lia.
  - rewrite Hrun. f_equal. rewrite Z.add_0_l. unfold reach.
    change (Z.of_nat loopFuel) with 16 in Hn.
    rewrite (takeWhile_seq _ (Z.to_nat BOARD_SIZE) 1 (Z.to_nat n)).
    + lia.
    + unfold BOARD_SIZE. lia.
    + intros k Hk. specialize (Hall (Z.of_nat k - 1) ltac:(lia)).
      replace (r + Z.of_nat k * dx) with (r + dx + (Z.of_nat k - 1) * dx) by lia.
      replace (c + Z.of_nat k * dy) with (c + dy + (Z.of_nat k - 1) * dy) by lia.
      exact Hall.
    + intros _. replace (Z.of_nat (1 + Z.to_nat n)) with (n + 1) by lia.
      replace (r + (n + 1) * dx) with (r + dx + n * dx) by lia.
      replace (c + (n + 1) * dy) with (c + dy + n * dy) by lia.
      exact Hstop.
Qed.

(** With a zero step the loop of [countDirection] tests the same cell
    again and again: it exits at once or never. *)
Lemma countLoop_zero_step (fuel : nat) :
  forall (b : Board) (p : option Player) (count r c : Z),
    wfBoard b -> holds b p r c = true ->
    countLoop fuel b 0 0 p count r c = Err Divergence.
Proof.
  induction fuel as [|fuel IH]; intros b p count r c Hwf Hh; [reflexivity|].
  cbn [countLoop]. fold (inGrid r c). unfold holds in Hh.
  apply andb_prop in Hh as [Hg Hc]. rewrite Hg.
  apply inGrid_onGrid in Hg as Hon.
  rewrite boardGet_wf by (exact Hwf || apply Hon). cbn [bindRes].
  rewrite Hc, !Z.add_0_r. apply IH; [exact Hwf|].
  unfold holds. rewrite Hg, Hc. reflexivity.
Qed.

(** What [reach] measures: the cells at steps [1 .. reach] hold [p], the
    next one does not (it is off the grid or holds something else). *)
Lemma reach_spec (b : Board) (p : option Player) (r c dx dy : Z) :
  wfBoard b -> dx <> 0 \/ dy <> 0 ->
  0 <= reach b p r c dx dy /\
  (forall k, 1 <= k <= reach b p r c dx dy ->
     holds b p (r + k * dx) (c + k * dy) = true) /\
  holds b p (r + (reach b p r c dx dy + 1) * dx)
            (c + (reach b p r c dx dy + 1) * dy) = false.
Proof.
  intros Hwf Hd.
  pose proof (countDirection_reach b r c dx dy p Hwf Hd) as Hcd.
  unfold countDirection in Hcd.
  destruct (countLoop_fuel loopFuel b dx dy p 0 (r + dx) (c + dy) Hwf Hd)
    as (n & Hn & Hrun & Hall & Hstop).
  - unfold loopFuel, BOARD_SIZE. simpl. lia.
  - intros Hon. unfold stepMeasure, onGrid, loopFuel, BOARD_SIZE in *.
    change (Z.of_nat (S (Z.to_nat 15))) with 16.
    case_ltb; lia.
  - rewrite Hrun in Hcd. injection Hcd as Hcd. rewrite Z.add_0_l in Hcd.
    rewrite <- Hcd. split; [lia|]. split.
    + intros k Hk. specialize (Hall (k - 1) ltac:(lia)).
      replace (r + k * dx) with (r + dx + (k - 1) * dx) by lia.
      replace (c + k * dy) with (c + dy + (k - 1) * dy) by lia. exact Hall.
    + replace (r + (n + 1) * dx) with (r + dx + n * dx) by lia.
      replace (c + (n + 1) * dy) with (c + dy + n * dy) by lia. exact Hstop.
Qed.

(** A stretch of cells holding [p] is no longer than [reach]. *)
Lemma reach_ge (b : Board) (p : option Player) (r c dx dy n : Z) :
  wfBoard b -> dx <> 0 \/ dy <> 0 ->
  (forall k, 1 <= k <= n -> holds b p (r + k * dx) (c + k * dy) = true) ->
  n <= reach b p r c dx dy.
Proof.
  intros Hwf Hd Hall.
  destruct (reach_spec b p r c dx dy Hwf Hd) as (H0 & _ & Hstop).
  destruct (Z_le_gt_dec n (reach b p r c dx dy)) as [Hle|Hgt]; [exact Hle|].
  rewrite Hall in Hstop by lia. discriminate.
Qed.

(** ** Win detection *)

Lemma holds_iff (b : Board) (p : Player) (r c : Z) :
  holds b (Some p) r c = true <-> onGrid r c /\ cellOf b r c = Some p.
Proof.
  unfold holds, cellEq. rewrite andb_true_iff, inGrid_onGrid, bool_decide_eq_true.
  reflexivity.
Qed.

Lemma directions_nonzero (dx dy : Z) :
  In (dx, dy) directions -> (dx <> 0 \/ dy <> 0) /\ (- dx <> 0 \/ - dy <> 0).
Proof.
  unfold directions. simpl. intros H.
  repeat (destruct H as [H|H]; [injection H as <- <-; lia|]). destruct H.
Qed.

Lemma checkWinLoop_existsb (b : Board) (r c : Z) (p : option Player) (dirs : list (Z * Z)) :
  wfBoard b -> (forall d, In d dirs -> In d directions) ->
  checkWinLoop b r c p dirs = Ok (existsb (fun d => 5 <=? lineLength b p r c d) dirs).
Proof.
  intros Hwf. induction dirs as [|[dx dy] rest IH]; intros Hin; [reflexivity|].
  destruct (directions_nonzero dx dy (Hin _ (or_introl eq_refl))) as [Hd Hd'].
  cbn [checkWinLoop existsb].
  rewrite !countDirection_reach by assumption. cbn [bindRes].
  unfold lineLength at 1. cbn [fst snd].
  destruct (5 <=? 1 + reach b p r c dx dy + reach b p r c (- dx) (- dy)).
  - reflexivity.
  - apply IH. intros d Hd0. apply Hin. right. exact Hd0.
Qed.

Lemma lineLength_run (b : Board) (p : Player) (r c dx dy : Z) :
  wfBoard b -> onGrid r c -> cellOf b r c = Some p ->
  dx <> 0 \/ dy <> 0 ->
  5 <= lineLength b (Some p) r c (dx, dy) <->
  exists lo hi, lo <= 0 <= hi /\ 5 <= hi - lo + 1 /\
    forall k, lo <= k <= hi ->
      onGrid (r + k * dx) (c + k * dy) /\ cellOf b (r + k * dx) (c + k * dy) = Some p.
Proof.
  intros Hwf Hon Hcell Hd.
  assert (Hd' : - dx <> 0 \/ - dy <> 0) by lia.
  unfold lineLength. cbn [fst snd].
  destruct (reach_spec b (Some p) r c dx dy Hwf Hd) as (Hp0 & Hpall & _).
  destruct (reach_spec b (Some p) r c (- dx) (- dy) Hwf Hd') as (Hn0 & Hnall & _).
  split.
  - intros H5.
    exists (- reach b (Some p) r c (- dx) (- dy)), (reach b (Some p) r c dx dy).
    split; [lia|]. split; [lia|]. intros k Hk. apply holds_iff.
    destruct (Z.lt_trichotomy k 0) as [Hneg|[->|Hpos]].
    + specialize (Hnall (- k) ltac:(lia)).
      replace (r + - k * - dx) with (r + k * dx) in Hnall by lia.
      replace (c + - k * - dy) with (c + k * dy) in Hnall by lia. exact Hnall.
    + rewrite !Z.mul_0_l, !Z.add_0_r. apply holds_iff. split; assumption.
    + apply Hpall. lia.
  - intros (lo & hi & Hlohi & H5 & Hrun).
    assert (Hhi : hi <= reach b (Some p) r c dx dy).
    { apply reach_ge; [exact Hwf | exact Hd |]. intros k Hk.
      apply holds_iff. apply Hrun. lia. }
    assert (Hlo : - lo <= reach b (Some p) r c (- dx) (- dy)).
    { apply reach_ge; [exact Hwf | exact Hd' |]. intros k Hk.
      apply holds_iff.
      replace (r + k * - dx) with (r + - k * dx) by lia.
      replace (c + k * - dy) with (c + - k * dy) by lia.
      apply Hrun. lia. }
    lia.
Qed.

(** C2: on a 15x15 board, for a cell [(r, c)] of the grid holding side
    [p], [checkWin] returns, and returns [true] exactly when a run of at
    least five cells of [p], all on the grid, passes through [(r, c)]
    along one of the four axes (horizontal, vertical, the two diagonals);
    one qualifying axis is enough. *)
Theorem checkWin_iff_five (b : Board) (r c : Z) (p : Player) :
  wfBoard b -> onGrid r c -> cellOf b r c = Some p ->
  exists won, checkWin b r c = Ok won /\ (won = true <-> hasFive b p r c).
Proof.
  intros Hwf Hon Hcell.
  exists (existsb (fun d => 5 <=? lineLength b (Some p) r c d) directions).
  split.
  - unfold checkWin. rewrite boardGet_wf by (exact Hwf || apply Hon).
    cbn [bindRes]. rewrite Hcell. apply checkWinLoop_existsb; auto.
  - rewrite existsb_exists. unfold hasFive. split.
    + intros ([dx dy] & Hin & H5). apply Z.leb_le in H5.
      destruct (directions_nonzero dx dy Hin) as [Hd _].
      apply (lineLength_run b p r c dx dy Hwf Hon Hcell Hd) in H5
        as (lo & hi & H1 & H2 & H3).
      exists dx, dy, lo, hi. auto.
    + intros (dx & dy & lo & hi & Hin & H1 & H2 & H3).
      exists (dx, dy). split; [exact Hin|]. apply Z.leb_le.
      destruct (directions_nonzero dx dy Hin) as [Hd _].
      apply (lineLength_run b p r c dx dy Hwf Hon Hcell Hd). eauto.
Qed.

(** ** The evaluation score *)

Lemma myPoints_nonneg (n : Z) : 0 <= myPoints n.
Proof. unfold myPoints. repeat case_decide; lia. Qed.

Lemma oppPoints_nonneg (n : Z) : 0 <= oppPoints n.
Proof. unfold oppPoints. repeat case_decide; lia. Qed.

Lemma evalLoop_sum (b : Board) (r c : Z) (side : Player) (dirs : list (Z * Z)) :
  wfBoard b -> side <> NONE -> (forall d, In d dirs -> In d directions) ->
  forall score,
    evalLoop b r c side (opponentOf side) dirs score
    = Ok (score + sumZ (map (axisPoints b side r c) dirs)).
Proof.
  intros Hwf Hside. induction dirs as [|[dx dy] rest IH]; intros Hin score.
  - simpl. f_equal. lia.
  - destruct (directions_nonzero dx dy (Hin _ (or_introl eq_refl))) as [Hd Hd'].
    cbn [evalLoop]. rewrite !countDirection_reach by assumption. cbn [bindRes].
    rewrite IH by (intros d Hd0; apply Hin; right; exact Hd0).
    f_equal. change (sumZ (map (axisPoints b side r c) ((dx, dy) :: rest)))
      with (axisPoints b side r c (dx, dy) + sumZ (map (axisPoints b side r c) rest)).
    generalize (sumZ (map (axisPoints b side r c) rest)). intros z.
    unfold axisPoints, runBeside, myPoints, oppPoints. cbn [fst snd].
    generalize (reach b (Some side) r c dx dy + reach b (Some side) r c (- dx) (- dy)).
    generalize (reach b (Some (opponentOf side)) r c dx dy
                + reach b (Some (opponentOf side)) r c (- dx) (- dy)).
    intros o m.
    repeat match goal with
           | |- context [?x <=? ?y] => destruct (Z.leb_spec x y)
           | |- context [?x =? ?y] => destruct (Z.eqb_spec x y)
           end; repeat case_decide; lia.
Qed.

Lemma evaluatePosition_score (b : Board) (r c : Z) (side : Player) :
  wfBoard b -> side <> NONE ->
  evaluatePosition b r c side = Ok (positionScore b side r c).
Proof.
  intros Hwf Hside. unfold evaluatePosition.
  assert (Hopp : (if decide (side = BLACK) then WHITE else BLACK) = opponentOf side).
  { destruct side; [congruence | reflexivity | reflexivity]. }
  rewrite Hopp, evalLoop_sum by auto. cbn [bindRes]. f_equal.
  unfold positionScore. lia.
Qed.

Lemma positionScore_nonneg (b : Board) (side : Player) (r c : Z) :
  onGrid r c -> 0 <= positionScore b side r c.
Proof.
  intros [Hr Hc]. unfold positionScore, BOARD_SIZE in *.
  assert (Hsum : forall dirs, 0 <= sumZ (map (axisPoints b side r c) dirs)).
  { unfold sumZ. induction dirs as [|d rest IH]; cbn [map fold_right]; [lia|].
    assert (0 <= axisPoints b side r c d); [|lia]. unfold axisPoints.
    pose proof (myPoints_nonneg (runBeside b side r c d)).
    pose proof (oppPoints_nonneg (runBeside b (opponentOf side) r c d)). lia. }
  specialize (Hsum directions). lia.
Qed.

(** C6: on a 15x15 board and for a side to move, the score of a
    candidate cell [(r, c)] is the sum over the four axes of the bonus for
    the side's own run beside the cell (100000 for 4 or more, 10000 for 3,
    1000 for 2, 100 for 1) and of the bonus for the opponent's run (50000
    for 4 or more, 5000 for 3, 500 for 2, nothing below), plus the
    centrality bonus (14 - |r - 7| - |c - 7|) * 10; a run beside the cell
    is what is reached in both directions, the cell itself not counted. *)
Theorem evaluatePosition_formula (b : Board) (r c : Z) (side : Player) :
  wfBoard b -> side <> NONE ->
  evaluatePosition b r c side
  = Ok (sumZ (map (fun d =>
                     myPoints (reach b (Some side) r c (fst d) (snd d)
                               + reach b (Some side) r c (- fst d) (- snd d))
                     + oppPoints (reach b (Some (opponentOf side)) r c (fst d) (snd d)
                                  + reach b (Some (opponentOf side)) r c (- fst d) (- snd d)))
                  [(0, 1); (1, 0); (1, 1); (1, -1)])
        + (14 - Z.abs (r - 7) - Z.abs (c - 7)) * 10).
Proof.
  intros Hwf Hside. rewrite evaluatePosition_score by assumption. reflexivity.
Qed.

(** ** The computer's move *)

Lemma checkWin_total (b : Board) (r c : Z) :
  wfBoard b -> onGrid r c -> exists won, checkWin b r c = Ok won.
Proof.
  intros Hwf Hon. unfold checkWin. rewrite boardGet_wf by (exact Hwf || apply Hon).
  cbn [bindRes]. rewrite checkWinLoop_existsb by auto. eauto.
Qed.

Lemma range_onGrid (i : Z) : In i (range BOARD_SIZE) -> 0 <= i < BOARD_SIZE.
Proof.
  unfold range. rewrite in_map_iff. intros (k & <- & Hk). apply in_seq in Hk.
  unfold BOARD_SIZE in *. lia.
Qed.

Lemma find_app {A : Type} (f : A -> bool) (l1 l2 : list A) :
  find f (l1 ++ l2) = match find f l1 with Some x => Some x | None => find f l2 end.
Proof.
  induction l1 as [|x l1 IH]; [reflexivity|]. simpl. destruct (f x); [reflexivity | exact IH].
Qed.

(** The scan of one row: every trial placement is taken back, and the
    cell found is the first of the row where [side] would win. *)
Lemma probeCols_find (side : Player) (b : Board) (r : Z) (cols : list Z) :
  wfBoard b -> 0 <= r < BOARD_SIZE -> (forall c, In c cols -> 0 <= c < BOARD_SIZE) ->
  probeCols side b r cols = Ok (find (winsAt side b) (map (pair r) cols), b).
Proof.
  intros Hwf Hr. induction cols as [|c rest IH]; intros Hcols; [reflexivity|].
  assert (Hon : onGrid r c) by (split; [exact Hr | apply Hcols; left; reflexivity]).
  assert (IH' := IH (fun c' H => Hcols c' (or_intror H))). clear IH.
  cbn [probeCols map find]. rewrite boardGet_wf by assumption. cbn [bindRes].
  unfold winsAt at 1, isEmpty. cbn [fst snd].
  destruct (cellEq (cellOf b r c) (Some NONE)) eqn:He; [|exact IH'].
  apply bool_decide_eq_true in He.
  rewrite boardSet_wf by assumption. cbn [bindRes].
  destruct (checkWin_total (put b r c side) r c (put_wf b r c side Hwf) Hon) as [won Hwon].
  rewrite Hwon. cbn [bindRes andb].
  assert (Hback : boardSet (put b r c side) r c NONE = Ok b).
  { rewrite boardSet_wf by (try apply put_wf; assumption).
    rewrite put_put, put_same; [reflexivity | apply Hon | apply Hon | exact He]. }
  destruct won; rewrite Hback; cbn [bindRes]; [reflexivity | exact IH'].
Qed.

Lemma probeRows_find (side : Player) (b : Board) (rows : list Z) :
  wfBoard b -> (forall r, In r rows -> 0 <= r < BOARD_SIZE) ->
  probeRows side b rows
  = Ok (find (winsAt side b)
             (flat_map (fun r => map (pair r) (range BOARD_SIZE)) rows), b).
Proof.
  intros Hwf. induction rows as [|r rest IH]; intros Hrows; [reflexivity|].
  cbn [probeRows flat_map]. rewrite find_app.
  rewrite probeCols_find; [|exact Hwf|apply Hrows; left; reflexivity|apply range_onGrid].
  cbn [bindRes].
  destruct (find (winsAt side b) (map (pair r) (range BOARD_SIZE))); [reflexivity|].
  apply IH. intros r' H. apply Hrows. right. exact H.
Qed.

Lemma bestCols_fold (b : Board) (r : Z) (cols : list Z) :
  wfBoard b -> 0 <= r < BOARD_SIZE -> forall best,
  bestCols b r cols best = Ok (fold_left (pick b) (map (pair r) cols) best).
Proof.
  intros Hwf Hr. induction cols as [|c rest IH]; intros best; [reflexivity|].
  cbn [bestCols map fold_left]. unfold pick at 2, isEmpty. cbn [fst snd].
  rewrite boardGet_wf by assumption. cbn [bindRes].
  destruct (cellEq (cellOf b r c) (Some NONE)); [|apply IH].
  rewrite evaluatePosition_score by (exact Hwf || discriminate). cbn [bindRes].
  destruct (fst best <? positionScore b WHITE r c); apply IH.
Qed.

Lemma bestRows_fold (b : Board) (rows : list Z) :
  wfBoard b -> (forall r, In r rows -> 0 <= r < BOARD_SIZE) -> forall best,
  bestRows b rows best
  = Ok (fold_left (pick b) (flat_map (fun r => map (pair r) (range BOARD_SIZE)) rows) best).
Proof.
  intros Hwf. induction rows as [|r rest IH]; intros Hrows best; [reflexivity|].
  cbn [bestRows flat_map]. rewrite fold_left_app.
  rewrite bestCols_fold by (exact Hwf || apply Hrows; left; reflexivity).
  cbn [bindRes]. apply IH. intros r' H. apply Hrows. right. exact H.
Qed.

Lemma cells_flat : flat_map (fun r => map (pair r) (range BOARD_SIZE)) (range BOARD_SIZE) = cells.
Proof. vm_compute. reflexivity. Qed.

(** [getAIMove] computes the three-tier policy and hands the board back
    as it found it. *)
Lemma getAIMove_selectMove (b : Board) :
  wfBoard b -> getAIMove b = Ok (selectMove b, b).
Proof.
  intros Hwf. unfold getAIMove, selectMove.
  rewrite probeRows_find by (exact Hwf || apply range_onGrid).
  rewrite cells_flat. cbn [bindRes].
  destruct (find (winsAt WHITE b) cells); [reflexivity|].
  rewrite probeRows_find by (exact Hwf || apply range_onGrid).
  rewrite cells_flat. cbn [bindRes].
  destruct (find (winsAt BLACK b) cells); [reflexivity|].
  rewrite bestRows_fold by (exact Hwf || apply range_onGrid).
  rewrite cells_flat. reflexivity.
Qed.

Lemma cells_lookup (i : nat) (r c : Z) :
  cells !! i = Some (r, c) <-> onGrid r c /\ Z.of_nat i = scanIndex r c.
Proof.
  unfold cells, range, scanIndex, onGrid, BOARD_SIZE.
  rewrite !list_lookup_fmap. change (Z.to_nat (15 * 15)) with 225%nat.
  destruct (decide (i < 225)%nat) as [Hlt|Hge].
  - rewrite lookup_seq_lt by exact Hlt. cbn [fmap option_fmap option_map Nat.add].
    split.
    + intros [= <- <-].
      pose proof (Z.div_mod (Z.of_nat i) 15 ltac:(lia)).
      pose proof (Z.mod_pos_bound (Z.of_nat i) 15 ltac:(lia)).
      assert (0 <= Z.of_nat i / 15 < 15).
      { split; [apply Z.div_pos; lia | apply Z.div_lt_upper_bound; lia]. }
      lia.
    + intros ((Hr & Hc) & Hi). f_equal. f_equal.
      * symmetry. apply Z.div_unique with (r := c); lia.
      * symmetry. apply Z.mod_unique with (q := r); lia.
  - rewrite lookup_seq_ge by lia. cbn. split; [discriminate|]. lia.
Qed.

Lemma cells_onGrid (r c : Z) : In (r, c) cells <-> onGrid r c.
Proof.
  rewrite <- list_elem_of_In, list_elem_of_lookup. split.
  - intros [i Hi]. apply cells_lookup in Hi. tauto.
  - intros Hon. exists (Z.to_nat (scanIndex r c)). apply cells_lookup.
    split; [exact Hon|]. unfold scanIndex, onGrid, BOARD_SIZE in *. lia.
Qed.

Lemma find_first {A : Type} (f : A -> bool) (l : list A) (x : A) :
  find f l = Some x ->
  f x = true /\ exists i : nat, l !! i = Some x /\
    forall (j : nat) (y : A), (j < i)%nat -> l !! j = Some y -> f y = false.
Proof.
  induction l as [|a l IH]; [discriminate|]. simpl.
  destruct (f a) eqn:Ha.
  - intros [= <-]. split; [exact Ha|]. exists 0%nat. split; [reflexivity|]. intros; lia.
  - intros H. destruct (IH H) as (Hx & i & Hi & Hbefore). split; [exact Hx|].
    exists (S i). split; [exact Hi|]. intros [|j] y Hj Hy.
    + simpl in Hy. injection Hy as <-. exact Ha.
    + simpl in Hy. eapply Hbefore; [|exact Hy]. lia.
Qed.

Lemma find_FirstWin (side : Player) (b : Board) (r c : Z) :
  find (winsAt side b) cells = Some (r, c) -> onGrid r c /\ FirstWin side b r c.
Proof.
  intros H. apply find_first in H as (Hw & i & Hi & Hbefore).
  apply cells_lookup in Hi as [Hon Hi]. split; [exact Hon|]. split; [exact Hw|].
  intros r' c' Hon' Hlt.
  apply (Hbefore (Z.to_nat (scanIndex r' c'))).
  - unfold scanIndex, onGrid, BOARD_SIZE in *. lia.
  - apply cells_lookup. split; [exact Hon'|].
    unfold scanIndex, onGrid, BOARD_SIZE in *. lia.
Qed.

Lemma find_NoWin (side : Player) (b : Board) :
  find (winsAt side b) cells = None -> NoWin side b.
Proof.
  intros H r c Hon. apply (find_none _ _ H). apply cells_onGrid. exact Hon.
Qed.

(** The best-cell search over a list of cells: either no empty cell beat
    the starting score, or the result is the first cell of greatest
    score among the empty ones. *)
Lemma pick_fold (b : Board) (l : list (Z * Z)) (best0 : Z * option (Z * Z)) :
  (fold_left (pick b) l best0 = best0 /\
   forall x, In x l -> isEmpty b x = true ->
     positionScore b WHITE (fst x) (snd x) <= fst best0)
  \/
  (exists (i : nat) (x : Z * Z),
     l !! i = Some x /\
     fold_left (pick b) l best0 = (positionScore b WHITE (fst x) (snd x), Some x) /\
     isEmpty b x = true /\
     fst best0 < positionScore b WHITE (fst x) (snd x) /\
     forall (j : nat) (y : Z * Z), l !! j = Some y -> isEmpty b y = true ->
       positionScore b WHITE (fst y) (snd y) <= positionScore b WHITE (fst x) (snd x) /\
       ((j < i)%nat ->
        positionScore b WHITE (fst y) (snd y) < positionScore b WHITE (fst x) (snd x))).
Proof.
  induction l as [|a l IH] using rev_ind.
  - left. split; [reflexivity|]. intros x [].
  - rewrite fold_left_app. cbn [fold_left].
    destruct IH as [[Hsame Hle]|(i & x & Hi & Hres & Hex & Hgt & Hall)].
    + rewrite Hsame. unfold pick.
      destruct (isEmpty b a) eqn:Hea.
      * destruct (Z.ltb_spec (fst best0) (positionScore b WHITE (fst a) (snd a))) as [Hlt|Hge].
        -- right. exists (length l), a. split; [apply list_lookup_middle; reflexivity|].
           split; [reflexivity|]. split; [exact Hea|]. split; [exact Hlt|].
           intros j y Hj Hey.
           destruct (decide (j < length l)%nat) as [Hjl|Hjl].
           ++ rewrite lookup_app_l in Hj by exact Hjl.
              apply list_elem_of_lookup_2, list_elem_of_In in Hj.
              specialize (Hle y Hj Hey). lia.
           ++ apply lookup_lt_Some in Hj as Hjlt. rewrite length_app in Hjlt.
              cbn [length] in Hjlt. assert (j = length l) as -> by lia.
              rewrite list_lookup_middle in Hj by reflexivity. injection Hj as <-. lia.
        -- left. split; [reflexivity|]. intros x Hx Hex.
           apply in_app_or in Hx as [Hx|[<-|[]]]; [apply Hle; assumption | lia].
      * left. split; [reflexivity|]. intros x Hx Hex.
        apply in_app_or in Hx as [Hx|[<-|[]]]; [apply Hle; assumption | congruence].
    + rewrite Hres. unfold pick. cbn [fst].
      assert (Hil : (i < length l)%nat) by (eapply lookup_lt_Some; exact Hi).
      assert (Hkeep :
        (isEmpty b a = true ->
         positionScore b WHITE (fst a) (snd a) <= positionScore b WHITE (fst x) (snd x)) ->
        exists (i0 : nat) (x0 : Z * Z),
          (l ++ [a]) !! i0 = Some x0 /\
          (positionScore b WHITE (fst x) (snd x), Some x)
          = (positionScore b WHITE (fst x0) (snd x0), Some x0) /\
          isEmpty b x0 = true /\
          fst best0 < positionScore b WHITE (fst x0) (snd x0) /\
          forall (j : nat) (y : Z * Z), (l ++ [a]) !! j = Some y -> isEmpty b y = true ->
            positionScore b WHITE (fst y) (snd y) <= positionScore b WHITE (fst x0) (snd x0) /\
            ((j < i0)%nat ->
             positionScore b WHITE (fst y) (snd y) < positionScore b WHITE (fst x0) (snd x0))).
      { intros Ha. exists i, x. split; [rewrite lookup_app_l by exact Hil; exact Hi|].
        split; [reflexivity|]. split; [exact Hex|]. split; [exact Hgt|].
        intros j y Hj Hey.
        destruct (decide (j < length l)%nat) as [Hjl|Hjl].
        - rewrite lookup_app_l in Hj by exact Hjl. apply (Hall j y Hj Hey).
        - apply lookup_lt_Some in Hj as Hjlt. rewrite length_app in Hjlt.
          cbn [length] in Hjlt. assert (j = length l) as -> by lia.
          rewrite list_lookup_middle in Hj by reflexivity. injection Hj as <-.
          split; [apply Ha; exact Hey | lia]. }
      destruct (isEmpty b a) eqn:Hea.
      * destruct (Z.ltb_spec (positionScore b WHITE (fst x) (snd x))
                             (positionScore b WHITE (fst a) (snd a))) as [Hlt|Hge].
        -- right. exists (length l), a. split; [apply list_lookup_middle; reflexivity|].
           split; [reflexivity|]. split; [exact Hea|]. split; [lia|].
           intros j y Hj Hey.
           destruct (decide (j < length l)%nat) as [Hjl|Hjl].
           ++ rewrite lookup_app_l in Hj by exact Hjl.
              destruct (Hall j y Hj Hey) as [Hyx _]. lia.
           ++ apply lookup_lt_Some in Hj as Hjlt. rewrite length_app in Hjlt.
              cbn [length] in Hjlt. assert (j = length l) as -> by lia.
              rewrite list_lookup_middle in Hj by reflexivity. injection Hj as <-. lia.
        -- right. apply Hkeep. intros _. exact Hge.
      * right. apply Hkeep. intros Hcontra. discriminate.
Qed.

Lemma isEmpty_iff (b : Board) (r c : Z) : isEmpty b (r, c) = true <-> cellOf b r c = Some NONE.
Proof. unfold isEmpty, cellEq. cbn [fst snd]. apply bool_decide_eq_true. Qed.

Lemma winsAt_empty (side : Player) (b : Board) (r c : Z) :
  winsAt side b (r, c) = true -> cellOf b r c = Some NONE.
Proof. unfold winsAt. intros H. apply andb_prop in H as [H _]. apply isEmpty_iff, H. Qed.

Lemma boardFull_NoWin (side : Player) (b : Board) : boardFull b -> NoWin side b.
Proof.
  intros Hfull r c Hon. destruct (winsAt side b (r, c)) eqn:E; [|reflexivity].
  apply winsAt_empty in E. destruct (Hfull r c Hon E).
Qed.

(** The result of the best-cell search over the whole grid. *)
Lemma pick_cells (b : Board) :
  (snd (fold_left (pick b) cells (-1, None)) = None /\ boardFull b) \/
  (exists r c, snd (fold_left (pick b) cells (-1, None)) = Some (r, c) /\
     onGrid r c /\ BestScored b r c).
Proof.
  destruct (pick_fold b cells (-1, None)) as [[Hsame Hle]|(i & [r c] & Hi & Hres & Hex & _ & Hall)].
  - left. rewrite Hsame. split; [reflexivity|]. intros r c Hon He.
    specialize (Hle (r, c) (proj2 (cells_onGrid r c) Hon) (proj2 (isEmpty_iff b r c) He)).
    pose proof (positionScore_nonneg b WHITE r c Hon). cbn [fst snd] in Hle. lia.
  - right. exists r, c. rewrite Hres. split; [reflexivity|].
    apply cells_lookup in Hi as [Hon Hi]. split; [exact Hon|].
    split; [apply isEmpty_iff; exact Hex|]. intros r' c' Hon' He'.
    assert (Hj : cells !! Z.to_nat (scanIndex r' c') = Some (r', c')).
    { apply cells_lookup. split; [exact Hon'|].
      unfold scanIndex, onGrid, BOARD_SIZE in *. lia. }
    destruct (Hall _ _ Hj (proj2 (isEmpty_iff b r' c') He')) as [H1 H2].
    cbn [fst snd] in *. split; [exact H1|]. intros Hlt. apply H2.
    unfold scanIndex, onGrid, BOARD_SIZE in *. lia.
Qed.

(** The three tiers of [selectMove], cell by cell. *)
Lemma selectMove_tiers (b : Board) :
  (selectMove b = None <-> boardFull b) /\
  forall r c, selectMove b = Some (r, c) ->
    onGrid r c /\ cellOf b r c = Some NONE /\
    (FirstWin WHITE b r c \/
     (NoWin WHITE b /\ FirstWin BLACK b r c) \/
     (NoWin WHITE b /\ NoWin BLACK b /\ BestScored b r c)).
Proof.
  unfold selectMove.
  destruct (find (winsAt WHITE b) cells) as [[r1 c1]|] eqn:E1.
  { apply find_FirstWin in E1 as [Hon Hfirst]. split.
    - split; [discriminate|]. intros Hfull. exfalso.
      destruct Hfirst as [Hw _]. apply winsAt_empty in Hw. exact (Hfull _ _ Hon Hw).
    - intros r c [= <- <-]. split; [exact Hon|]. split; [|left; exact Hfirst].
      destruct Hfirst as [Hw _]. apply winsAt_empty in Hw. exact Hw. }
  apply find_NoWin in E1.
  destruct (find (winsAt BLACK b) cells) as [[r2 c2]|] eqn:E2.
  { apply find_FirstWin in E2 as [Hon Hfirst]. split.
    - split; [discriminate|]. intros Hfull. exfalso.
      destruct Hfirst as [Hw _]. apply winsAt_empty in Hw. exact (Hfull _ _ Hon Hw).
    - intros r c [= <- <-]. split; [exact Hon|]. split; [|right; left; auto].
      destruct Hfirst as [Hw _]. apply winsAt_empty in Hw. exact Hw. }
  apply find_NoWin in E2.
  destruct (pick_cells b) as [[Hnone Hfull]|(r3 & c3 & Hsome & Hon & Hbest)].
  - rewrite Hnone. split; [tauto|]. discriminate.
  - rewrite Hsome. split.
    + split; [discriminate|]. intros Hfull. exfalso.
      destruct Hbest as [He _]. exact (Hfull _ _ Hon He).
    + intros r c [= <- <-]. split; [exact Hon|]. split; [apply Hbest|].
      right; right. auto.
Qed.

(** C5: on a 15x15 board [getAIMove] returns; its answer is [null] exactly
    when no cell is empty; otherwise it is an empty cell of the grid,
    chosen by the first tier that applies: the first cell in row-major
    order where placing the computer's side ([WHITE]) makes [checkWin]
    true; if there is none, the first cell where placing the opponent's
    side does; if there is none either, the empty cell of greatest score,
    the first in row-major order among equals. *)
Theorem getAIMove_three_tiers (b : Board) :
  wfBoard b ->
  exists mv b', getAIMove b = Ok (mv, b') /\
    (mv = None <-> boardFull b) /\
    forall r c, mv = Some (r, c) ->
      onGrid r c /\ cellOf b r c = Some NONE /\
      (FirstWin WHITE b r c \/
       (NoWin WHITE b /\ FirstWin BLACK b r c) \/
       (NoWin WHITE b /\ NoWin BLACK b /\ BestScored b r c)).
Proof.
  intros Hwf. exists (selectMove b), b.
  split; [apply getAIMove_selectMove; exact Hwf | apply selectMove_tiers].
Qed.

(** Writes on a cell that exists, on any board. *)
Lemma boardSet_existing (b : Board) (r c : Z) (old v : Player) :
  0 <= r -> 0 <= c -> cellOf b r c = Some old ->
  boardSet b r c v = Ok (put b r c v) /\ cellOf (put b r c v) r c = Some v.
Proof.
  intros Hr Hc Hcell. unfold cellOf in Hcell. unfold boardSet, cellOf, put.
  rewrite jsIndex_nat in * by lia.
  destruct (b !! Z.to_nat r) as [cells0|] eqn:Er; [|discriminate].
  rewrite jsIndex_nat in Hcell by lia. apply lookup_lt_Some in Hcell as Hlt.
  replace ((0 <=? c) && (c <? Z.of_nat (length cells0))) with true by lia.
  split.
  - f_equal. apply list_eq. intros i.
    destruct (decide (i = Z.to_nat r)) as [->|Hne].
    + rewrite list_lookup_alter_eq, Er. cbn.
      apply list_lookup_insert_eq. eapply lookup_lt_Some. exact Er.
    + rewrite list_lookup_alter_ne by congruence.
      apply list_lookup_insert_ne. congruence.
  - rewrite jsIndex_nat by lia. rewrite list_lookup_alter_eq, Er. cbn.
    rewrite jsIndex_nat by lia. apply list_lookup_insert_eq. exact Hlt.
Qed.

Lemma boardGet_cellOf (b : Board) (r c : Z) (v : option Player) :
  boardGet b r c = Ok v -> cellOf b r c = v.
Proof.
  unfold boardGet, cellOf. destruct (jsIndex b r); [|discriminate]. intros [= <-]. reflexivity.
Qed.

(** Whatever the board, a scan that returns hands the board back. *)
Lemma probeCols_board (side : Player) (r : Z) (cols : list Z) :
  0 <= r -> (forall c, In c cols -> 0 <= c) ->
  forall b mv b', probeCols side b r cols = Ok (mv, b') -> b' = b.
Proof.
  intros Hr. induction cols as [|c rest IH]; intros Hcols b mv b'.
  - cbn [probeCols]. intros [= _ <-]. reflexivity.
  - assert (Hc : 0 <= c) by (apply Hcols; left; reflexivity).
    assert (IH' := IH (fun c' H => Hcols c' (or_intror H))). clear IH.
    cbn [probeCols]. destruct (boardGet b r c) as [v|] eqn:Eg; cbn [bindRes]; [|discriminate].
    apply boardGet_cellOf in Eg.
    destruct (cellEq v (Some NONE)) eqn:Ev; [|apply IH'].
    apply bool_decide_eq_true in Ev. rewrite Ev in Eg.
    destruct (boardSet_existing b r c NONE side Hr Hc Eg) as [-> Hcell1]. cbn [bindRes].
    destruct (boardSet_existing (put b r c side) r c side NONE Hr Hc Hcell1) as [Hback _].
    rewrite put_put, (put_same b r c NONE Hr Hc Eg) in Hback. rewrite Hback.
    destruct (checkWin (put b r c side) r c) as [won|]; cbn [bindRes]; [|discriminate].
    destruct won; cbn [bindRes]; [intros [= _ <-]; reflexivity | apply IH'].
Qed.

Lemma range_nonneg (n i : Z) : In i (range n) -> 0 <= i.
Proof. unfold range. rewrite in_map_iff. intros (k & <- & _). lia. Qed.

Lemma probeRows_board (side : Player) (rows : list Z) :
  (forall r, In r rows -> 0 <= r) ->
  forall b mv b', probeRows side b rows = Ok (mv, b') -> b' = b.
Proof.
  induction rows as [|r rest IH]; intros Hrows b mv b'.
  - cbn [probeRows]. intros [= _ <-]. reflexivity.
  - cbn [probeRows].
    destruct (probeCols side b r (range BOARD_SIZE)) as [[found b1]|] eqn:Ec;
      cbn [bindRes]; [|discriminate].
    apply probeCols_board in Ec; [|apply Hrows; left; reflexivity|apply range_nonneg].
    subst b1. destruct found; [intros [= _ <-]; reflexivity|].
    apply IH. intros r' H. apply Hrows. right. exact H.
Qed.

Lemma getAIMove_board (b : Board) (mv : option (Z * Z)) (b' : Board) :
  getAIMove b = Ok (mv, b') -> b' = b.
Proof.
  unfold getAIMove.
  destruct (probeRows WHITE b (range BOARD_SIZE)) as [[m1 b1]|] eqn:E1;
    cbn [bindRes]; [|discriminate].
  apply probeRows_board in E1; [|apply range_nonneg]. subst b1.
  destruct m1; [intros [= _ <-]; reflexivity|].
  destruct (probeRows BLACK b (range BOARD_SIZE)) as [[m2 b2]|] eqn:E2;
    cbn [bindRes]; [|discriminate].
  apply probeRows_board in E2; [|apply range_nonneg]. subst b2.
  destruct m2; [intros [= _ <-]; reflexivity|].
  destruct (bestRows b (range BOARD_SIZE) (-1, None)); cbn [bindRes]; [|discriminate].
  intros [= _ <-]. reflexivity.
Qed.

(** C10: [getAIMove] leaves the board as it found it: every trial
    placement of the two scans is taken back, on the branch that returns
    the cell and on the one that goes on, and the scoring only reads.  So
    whenever the call returns, on any board, the board it leaves is the
    board it was given; and on a 15x15 board it does return. *)
Theorem getAIMove_board_unchanged (b : Board) :
  (forall mv b', getAIMove b = Ok (mv, b') -> b' = b) /\
  (wfBoard b -> exists mv, getAIMove b = Ok (mv, b)).
Proof.
  split.
  - intros mv b'. apply getAIMove_board.
  - intros Hwf. exists (selectMove b). apply getAIMove_selectMove. exact Hwf.
Qed.

(** ** Ledger and board stay in step *)

Lemma countRow_insert (cells : list Player) (i : nat) (old v : Player) :
  cells !! i = Some old ->
  (countRow (<[i := v]> cells) + (if decide (old = NONE) then 0 else 1)
   = countRow cells + (if decide (v = NONE) then 0 else 1))%nat.
Proof.
  intros Hi. apply lookup_lt_Some in Hi as Hlt.
  rewrite insert_take_drop by exact Hlt.
  rewrite <- (take_drop_middle cells i old Hi) at 3.
  unfold countRow. rewrite !List.filter_app, !length_app. cbn [List.filter].
  destruct old, v; simpl; lia.
Qed.

Lemma countPieces_alter (b : Board) (i : nat) (cells : list Player) (f : list Player -> list Player) :
  b !! i = Some cells ->
  (countPieces (alter f i b) + countRow cells = countPieces b + countRow (f cells))%nat.
Proof.
  revert i. induction b as [|x b IH]; intros i Hi; [discriminate|].
  destruct i as [|i].
  - injection Hi as ->. unfold countPieces. cbn [alter list_alter map fold_right]. lia.
  - cbn [lookup list_lookup] in Hi. specialize (IH i Hi). unfold countPieces in *.
    cbn [alter list_alter map fold_right]. lia.
Qed.

Lemma countPieces_put (b : Board) (r c : Z) (old v : Player) :
  0 <= r -> 0 <= c -> cellOf b r c = Some old ->
  (countPieces (put b r c v) + (if decide (old = NONE) then 0 else 1)
   = countPieces b + (if decide (v = NONE) then 0 else 1))%nat.
Proof.
  intros Hr Hc Hcell. unfold cellOf in Hcell. rewrite jsIndex_nat in Hcell by lia.
  destruct (b !! Z.to_nat r) as [cells0|] eqn:Er; [|discriminate].
  rewrite jsIndex_nat in Hcell by lia.
  pose proof (countPieces_alter b (Z.to_nat r) cells0
                (fun cells1 => <[Z.to_nat c := v]> cells1) Er) as Ha.
  pose proof (countRow_insert cells0 (Z.to_nat c) old v Hcell) as Hi.
  unfold put. lia.
Qed.

Lemma popLast_snoc {A : Type} (l h : list A) (x : A) :
  popLast l = Some (x, h) -> l = h ++ [x].
Proof.
  unfold popLast. destruct (last l) as [y|] eqn:E; [|discriminate].
  intros [= <- <-]. apply last_Some in E as [l' ->].
  rewrite removelast_last. reflexivity.
Qed.

Lemma popLast_None {A : Type} (l : list A) : popLast l = None -> l = [].
Proof.
  unfold popLast. destruct (last l) eqn:E; [discriminate|]. intros _.
  apply last_None. exact E.
Qed.

Lemma fullCols_total (b : Board) (r : Z) (cols : list Z) :
  wfBoard b -> 0 <= r < BOARD_SIZE -> exists f, fullCols b r cols = Ok f.
Proof.
  intros Hwf Hr. induction cols as [|c rest IH]; [eexists; reflexivity|].
  cbn [fullCols]. rewrite boardGet_wf by assumption. cbn [bindRes].
  destruct (cellEq (cellOf b r c) (Some NONE)); [eexists; reflexivity | exact IH].
Qed.

Lemma isBoardFull_total (b : Board) : wfBoard b -> exists f, isBoardFull b = Ok f.
Proof.
  intros Hwf. unfold isBoardFull.
  assert (H : forall rows, (forall r, In r rows -> 0 <= r < BOARD_SIZE) ->
                           exists f, fullRows b rows = Ok f).
  { induction rows as [|r rest IH]; intros Hrows; [eexists; reflexivity|].
    cbn [fullRows].
    destruct (fullCols_total b r (range BOARD_SIZE) Hwf (Hrows r (or_introl eq_refl)))
      as [f ->]. cbn [bindRes].
    destruct f; [|eexists; reflexivity].
    apply IH. intros r' H. apply Hrows. right. exact H. }
  apply H. apply range_onGrid.
Qed.

Lemma other_not_NONE (p : Player) : other p <> NONE.
Proof. unfold other. case_decide; discriminate. Qed.

(** A piece placed on an empty cell of the grid keeps the state
    consistent, whatever the outcome (win, draw or next turn). *)
Lemma placePiece_Consistent (now r c : Z) (s : State) :
  Consistent s -> onGrid r c -> cellOf (board s) r c = Some NONE ->
  exists s', placePiece now r c s = Ok s' /\ Consistent s'.
Proof.
  intros [Hwf Hp Hmoves Hnd Hcount] Hon Hempty.
  unfold placePiece. rewrite boardSet_wf by assumption. cbn [bindRes].
  set (b1 := put (board s) r c (currentPlayer s)).
  set (m := mkMove r c (currentPlayer s) now (moveCount s + 1)).
  assert (Hwf1 : wfBoard b1) by (apply put_wf; exact Hwf).
  assert (Hfresh : ~ In (r, c) (map position (moveHistory s))).
  { intros Hin. apply in_map_iff in Hin as (m0 & Hpos & Hin).
    destruct (Hmoves m0 Hin) as [_ Hocc]. unfold position in Hpos.
    injection Hpos as Hr0 Hc0. rewrite Hr0, Hc0 in Hocc. exact (Hocc Hempty). }
  assert (Hcons1 : forall s1,
            board s1 = b1 -> moveHistory s1 = moveHistory s ++ [m] ->
            currentPlayer s1 <> NONE -> Consistent s1).
  { intros s1 Hb Hh Hcp. constructor.
    - rewrite Hb. exact Hwf1.
    - exact Hcp.
    - rewrite Hb, Hh. intros m0 Hin. apply in_app_or in Hin as [Hin|[<-|[]]].
      + destruct (Hmoves m0 Hin) as [Hon0 Hocc]. split; [exact Hon0|].
        unfold b1. rewrite cellOf_put_ne; [exact Hocc | apply Hon | apply Hon |].
        intros Heq. apply Hfresh. apply in_map_iff. exists m0. split; [exact Heq | exact Hin].
      + cbn [row col]. split; [exact Hon|]. unfold b1.
        rewrite cellOf_put_eq by assumption. congruence.
    - rewrite Hh, map_app. cbn [map]. apply NoDup_app. split; [exact Hnd|]. split.
      + intros x Hx Hx'. apply list_elem_of_In in Hx. apply list_elem_of_singleton in Hx'.
        subst x. exact (Hfresh Hx).
      + apply NoDup_singleton.
    - rewrite Hb, Hh, length_app. cbn [length].
      pose proof (countPieces_put (board s) r c NONE (currentPlayer s)
                    ltac:(apply Hon) ltac:(apply Hon) Hempty) as Hc.
      fold b1 in Hc. destruct (decide (currentPlayer s = NONE)); [contradiction|].
      destruct (decide (NONE = NONE)); [|contradiction]. lia. }
  cbn zeta.
  assert (Hb : forall s0, board (saveGame s0) = board s0)
    by (intros s0; unfold saveGame; destruct (gameOver s0); reflexivity).
  assert (Hh : forall s0, moveHistory (saveGame s0) = moveHistory s0)
    by (intros s0; unfold saveGame; destruct (gameOver s0); reflexivity).
  assert (Hc : forall s0, currentPlayer (saveGame s0) = currentPlayer s0)
    by (intros s0; unfold saveGame; destruct (gameOver s0); reflexivity).
  match goal with |- context [saveGame ?x] => set (s1 := saveGame x) end.
  assert (Hb1 : board s1 = b1) by (unfold s1; rewrite Hb; reflexivity).
  assert (Hh1 : moveHistory s1 = moveHistory s ++ [m]) by (unfold s1; rewrite Hh; reflexivity).
  assert (Hc1 : currentPlayer s1 = currentPlayer s) by (unfold s1; rewrite Hc; reflexivity).
  rewrite Hb1.
  destruct (checkWin_total b1 r c Hwf1 Hon) as [won ->]. cbn [bindRes].
  destruct won.
  { eexists. split; [reflexivity|]. apply Hcons1; cbn; congruence. }
  destruct (isBoardFull_total b1 Hwf1) as [full ->]. cbn [bindRes].
  destruct full.
  { eexists. split; [reflexivity|]. apply Hcons1; cbn; congruence. }
  destruct (isAITurn (switchPlayer s1)); eexists; (split; [reflexivity|]);
    apply Hcons1; cbn; try assumption; apply other_not_NONE.
Qed.

Lemma undoLoop_Consistent (steps : nat) :
  forall s, Consistent s -> exists s', undoLoop steps s = Ok s' /\ Consistent s'.
Proof.
  induction steps as [|steps IH]; intros s Hs; [unchanged s Hs|].
  cbn [undoLoop].
  destruct (popLast (moveHistory s)) as [[lastMove h]|] eqn:Epop;
    [|unchanged s Hs].
  apply popLast_snoc in Epop.
  destruct Hs as [Hwf Hp Hmoves Hnd Hcount].
  destruct (Hmoves lastMove) as [Hon Hocc]; [rewrite Epop; apply in_or_app; right; left; reflexivity|].
  cbn [board setMoveHistory]. rewrite boardSet_wf by assumption. cbn [bindRes].
  apply IH. rewrite Epop, map_app in Hnd. cbn [map] in Hnd.
  apply NoDup_app in Hnd as (Hnd1 & Hdisj & _).
  constructor; cbn.
  - apply put_wf. exact Hwf.
  - exact Hp.
  - intros m Hin. destruct (Hmoves m) as [Hon0 Hocc0]; [rewrite Epop; apply in_or_app; left; exact Hin|].
    split; [exact Hon0|]. rewrite cellOf_put_ne; [exact Hocc0 | apply Hon | apply Hon |].
    intros Heq. apply (Hdisj (position m)).
    + apply list_elem_of_In, in_map. exact Hin.
    + apply list_elem_of_singleton. exact Heq.
  - exact Hnd1.
  - rewrite Epop, length_app in Hcount. cbn [length] in Hcount.
    destruct (cellOf_onGrid (board s) (row lastMove) (col lastMove) Hwf Hon) as [old Hold].
    pose proof (countPieces_put (board s) (row lastMove) (col lastMove) old NONE
                  ltac:(apply Hon) ltac:(apply Hon) Hold) as Hc.
    destruct (decide (old = NONE)) as [->|_]; [contradiction|].
    destruct (decide (NONE = NONE)); [|contradiction]. unfold countPieces in *. lia.
Qed.

Lemma undo_Consistent (s : State) :
  Consistent s -> exists s', undo s = Ok s' /\ Consistent s'.
Proof.
  intros Hs. unfold undo.
  destruct (gameOver s || (length (moveHistory s) =? 0)%nat);
    [unchanged s Hs|].
  match goal with |- context [undoLoop ?n s] => destruct (undoLoop_Consistent n s Hs) as (s1 & -> & Hs1) end.
  cbn [bindRes]. eexists. split; [reflexivity|].
  destruct Hs1 as [Hwf Hp Hmoves Hnd Hcount].
  assert (Hset : forall p, p <> NONE -> Consistent (saveGame (setCurrentPlayer s1 p))).
  { intros p Hp'. unfold saveGame. cbn [gameOver setCurrentPlayer].
    destruct (gameOver s1); constructor; cbn; assumption. }
  destruct (last (moveHistory s1)); apply Hset; [apply other_not_NONE | discriminate].
Qed.

Lemma handleClick_Consistent (now r c : Z) (s : State) :
  Consistent s -> exists s', handleClick now r c s = Ok s' /\ Consistent s'.
Proof.
  intros Hs. unfold handleClick.
  destruct (gameOver s); [unchanged s Hs|].
  destruct (isAITurn s); [unchanged s Hs|].
  destruct ((r <? 0) || (BOARD_SIZE <=? r) || (c <? 0) || (BOARD_SIZE <=? c)) eqn:Eb;
    [unchanged s Hs|].
  assert (Hon : onGrid r c) by (unfold onGrid, BOARD_SIZE in *; lia).
  rewrite boardGet_wf by (apply Hs || apply Hon). cbn [bindRes].
  destruct (cellEq (cellOf (board s) r c) (Some NONE)) eqn:Ec; cbn [negb];
    [|unchanged s Hs].
  apply bool_decide_eq_true in Ec. apply placePiece_Consistent; assumption.
Qed.

Lemma aiMove_Consistent (now : Z) (s : State) :
  Consistent s -> exists s', aiMove now s = Ok s' /\ Consistent s'.
Proof.
  intros Hs. unfold aiMove.
  destruct (gameOver s); [unchanged s Hs|].
  rewrite getAIMove_selectMove by apply Hs. cbn [bindRes fst snd].
  assert (Hsame : setBoard s (board s) = s) by (destruct s; reflexivity).
  rewrite Hsame.
  destruct (selectMove_tiers (board s)) as [_ Htiers].
  destruct (selectMove (board s)) as [[r c]|]; [|unchanged s Hs].
  destruct (Htiers r c eq_refl) as (Hon & Hempty & _).
  apply placePiece_Consistent; assumption.
Qed.

Lemma reset_Consistent (s : State) : Consistent (reset s).
Proof.
  constructor; cbn.
  - exact createEmptyBoard_wf.
  - discriminate.
  - intros m [].
  - apply NoDup_nil_2.
  - reflexivity.
Qed.

Lemma step_Consistent (e : Event) (s : State) :
  Consistent s -> exists s', step e s = Ok s' /\ Consistent s'.
Proof.
  intros Hs. destruct e as [now r c|now| | |]; cbn [step].
  - apply handleClick_Consistent. exact Hs.
  - destruct (pendingAI s) as [|n]; [unchanged s Hs|].
    apply aiMove_Consistent. destruct Hs. constructor; assumption.
  - apply undo_Consistent. exact Hs.
  - eexists. split; [reflexivity | apply reset_Consistent].
  - eexists. split; [reflexivity | apply reset_Consistent].
Qed.

Lemma run_Consistent (es : list Event) :
  forall s, Consistent s -> exists s', run es s = Ok s' /\ Consistent s'.
Proof.
  induction es as [|e es IH]; intros s Hs; [unchanged s Hs|].
  cbn [run]. destruct (step_Consistent e s Hs) as (s1 & -> & Hs1). cbn [bindRes].
  apply IH. exact Hs1.
Qed.

Lemma initialState_Consistent : Consistent initialState.
Proof.
  constructor; cbn.
  - exact createEmptyBoard_wf.
  - discriminate.
  - intros m [].
  - apply NoDup_nil_2.
  - reflexivity.
Qed.

(** C7: after every sequence of clicks, computer moves, undos, resets and
    mode changes from the initial state, each operation has completed and
    the ledger is as long as the board has non-empty cells.  (A rejected
    click changes nothing, so the sequences of successful submissions and
    undos are among these.) *)
Theorem ledger_length_counts_pieces (es : list Event) :
  exists s, run es initialState = Ok s /\
            length (moveHistory s) = countPieces (board s).
Proof.
  destruct (run_Consistent es initialState initialState_Consistent) as (s & Hrun & Hs).
  exists s. split; [exact Hrun | apply Hs].
Qed.

(** ** Turn order, undo and re-submission *)

Lemma other_sideAt (i : nat) : other (sideAt i) = sideAt (S i).
Proof.
  unfold sideAt. rewrite Nat.even_succ, <- Nat.negb_even.
  destruct (Nat.even i); reflexivity.
Qed.

(** What [placePiece] does to the board, the ledger and the turn. *)
Lemma placePiece_effect (now r c : Z) (s : State) :
  wfBoard (board s) -> onGrid r c ->
  exists s', placePiece now r c s = Ok s' /\
    board s' = put (board s) r c (currentPlayer s) /\
    moveHistory s' = moveHistory s ++ [mkMove r c (currentPlayer s) now (moveCount s + 1)] /\
    moveCount s' = moveCount s + 1 /\
    gameMode s' = gameMode s /\
    (gameOver s' = false -> currentPlayer s' = other (currentPlayer s)).
Proof.
  intros Hwf Hon. unfold placePiece. rewrite boardSet_wf by assumption. cbn [bindRes].
  cbn zeta.
  match goal with |- context [saveGame ?x] => set (s0 := x); set (s1 := saveGame s0) end.
  assert (Hs1 : board s1 = board s0 /\ moveHistory s1 = moveHistory s0 /\
                moveCount s1 = moveCount s0 /\ gameMode s1 = gameMode s0 /\
                currentPlayer s1 = currentPlayer s0 /\ gameOver s1 = gameOver s0).
  { unfold s1, saveGame. destruct (gameOver s0) eqn:E; cbn; rewrite ?E; tauto. }
  destruct Hs1 as (Hb & Hh & Hc & Hm & Hp & Hg).
  assert (Hwf1 : wfBoard (board s1)) by (rewrite Hb; cbn; apply put_wf; exact Hwf).
  destruct (checkWin_total (board s1) r c Hwf1 Hon) as [won ->]. cbn [bindRes].
  destruct won.
  { eexists. split; [reflexivity|]. cbn. rewrite Hb, Hh, Hc, Hm. cbn.
    repeat split; try reflexivity. discriminate. }
  destruct (isBoardFull_total (board s1) Hwf1) as [full ->]. cbn [bindRes].
  destruct full.
  { eexists. split; [reflexivity|]. cbn. rewrite Hb, Hh, Hc, Hm. cbn.
    repeat split; try reflexivity. discriminate. }
  destruct (isAITurn (switchPlayer s1)); eexists; (split; [reflexivity|]);
    cbn; rewrite Hb, Hh, Hc, Hm, Hp; cbn; repeat split; reflexivity.
Qed.

Lemma popLast_app {A : Type} (h : list A) (x : A) : popLast (h ++ [x]) = Some (x, h).
Proof. unfold popLast. rewrite last_snoc, removelast_last. reflexivity. Qed.

Lemma placePiece_Numbered (now r c : Z) (s : State) :
  Consistent s -> Numbered s -> OnTurn s -> gameOver s = false ->
  onGrid r c -> cellOf (board s) r c = Some NONE ->
  exists s', placePiece now r c s = Ok s' /\ Numbered s' /\ OnTurn s'.
Proof.
  intros Hs [Hcount Hmoves] Hturn Hgo Hon Hempty.
  destruct (placePiece_effect now r c s (cons_board s Hs) Hon)
    as (s' & Hrun & Hb & Hh & Hc & _ & Hp).
  exists s'. split; [exact Hrun|]. split; [constructor|].
  - rewrite Hc, Hh, length_app, Hcount. cbn [length]. lia.
  - rewrite Hh, Hb. intros i m Hi.
    destruct (decide (i < length (moveHistory s))%nat) as [Hlt|Hge].
    + rewrite lookup_app_l in Hi by exact Hlt.
      destruct (Hmoves i m Hi) as (H1 & H2 & H3). split; [exact H1|]. split; [exact H2|].
      rewrite cellOf_put_ne; [exact H3 | apply Hon | apply Hon |].
      intros Heq. injection Heq as Hr0 Hc0. rewrite Hr0, Hc0, Hempty in H3.
      injection H3 as H3. rewrite H1 in H3. unfold sideAt in H3.
      destruct (Nat.even i); discriminate.
    + apply lookup_lt_Some in Hi as Hlt. rewrite length_app in Hlt. cbn [length] in Hlt.
      assert (i = length (moveHistory s)) as -> by lia.
      rewrite list_lookup_middle in Hi by reflexivity. injection Hi as <-.
      cbn [player moveNumber row col]. rewrite (Hturn Hgo).
      split; [reflexivity|]. split; [lia|].
      apply cellOf_put_eq; [apply Hs | exact Hon].
  - intros Hgo'. rewrite (Hp Hgo'), Hh, length_app, (Hturn Hgo). cbn [length].
    rewrite Nat.add_1_r. apply other_sideAt.
Qed.

(** One pass of the loop of [undo] on a consistent state. *)
Lemma undoLoop_pop (steps : nat) (s : State) (h : list Move) (m : Move) :
  Consistent s -> moveHistory s = h ++ [m] ->
  undoLoop (S steps) s = undoLoop steps (popped s h m).
Proof.
  intros Hs Eh. cbn [undoLoop]. rewrite Eh, popLast_app.
  destruct (cons_moves s Hs m) as [Hon _];
    [rewrite Eh; apply in_or_app; right; left; reflexivity|].
  cbn [board setMoveHistory]. rewrite boardSet_wf by first [exact Hon | apply Hs].
  reflexivity.
Qed.

Lemma popped_Consistent (s : State) (h : list Move) (m : Move) :
  Consistent s -> moveHistory s = h ++ [m] -> Consistent (popped s h m).
Proof.
  intros Hs Eh. destruct (undoLoop_Consistent 1 s Hs) as (s' & Hrun & Hs').
  rewrite (undoLoop_pop 0 s h m Hs Eh) in Hrun. cbn [undoLoop] in Hrun.
  injection Hrun as <-. exact Hs'.
Qed.

Lemma popped_Numbered (s : State) (h : list Move) (m : Move) :
  Consistent s -> Numbered s -> moveHistory s = h ++ [m] -> Numbered (popped s h m).
Proof.
  intros Hs [Hcount Hmoves] Eh.
  destruct (cons_moves s Hs m) as [Hon _];
    [rewrite Eh; apply in_or_app; right; left; reflexivity|].
  assert (Hnd : NoDup (map position (h ++ [m]))) by (rewrite <- Eh; apply Hs).
  rewrite map_app in Hnd. cbn [map] in Hnd. apply NoDup_app in Hnd as (_ & Hdisj & _).
  constructor; cbn.
  - rewrite Hcount, Eh, length_app. cbn [length]. lia.
  - intros i m0 Hi.
    assert (Hi' : moveHistory s !! i = Some m0).
    { rewrite Eh. rewrite lookup_app_l; [exact Hi|]. eapply lookup_lt_Some. exact Hi. }
    destruct (Hmoves i m0 Hi') as (Ha & Hb & Hc). split; [exact Ha|]. split; [exact Hb|].
    rewrite cellOf_put_ne; [exact Hc | apply Hon | apply Hon |].
    intros Heq. apply (Hdisj (position m0)).
    + apply list_elem_of_In, in_map. apply list_elem_of_In.
      eapply list_elem_of_lookup_2. exact Hi.
    + apply list_elem_of_singleton. exact Heq.
Qed.

Lemma undoLoop_Numbered (steps : nat) :
  forall s, Consistent s -> Numbered s ->
    exists s', undoLoop steps s = Ok s' /\ Numbered s' /\ gameOver s' = gameOver s.
Proof.
  induction steps as [|steps IH]; intros s Hs Hn.
  { exists s. split; [reflexivity|]. auto. }
  destruct (popLast (moveHistory s)) as [[m h]|] eqn:Epop.
  - apply popLast_snoc in Epop. rewrite (undoLoop_pop steps s h m Hs Epop).
    destruct (IH (popped s h m) (popped_Consistent s h m Hs Epop)
                 (popped_Numbered s h m Hs Hn Epop)) as (s' & Hrun & Hn' & Hg).
    exists s'. split; [exact Hrun|]. split; [exact Hn' | exact Hg].
  - exists s. cbn [undoLoop]. rewrite Epop. auto.
Qed.

Lemma last_sideAt (s : State) :
  Numbered s ->
  match last (moveHistory s) with
  | Some lastMove => other (player lastMove)
  | None => BLACK
  end = sideAt (length (moveHistory s)).
Proof.
  intros [_ Hmoves]. destruct (last (moveHistory s)) as [m|] eqn:E.
  - apply last_Some in E as [h Eh].
    destruct (Hmoves (length h) m) as (Hp & _).
    { rewrite Eh. apply list_lookup_middle. reflexivity. }
    rewrite Hp, other_sideAt, Eh, length_app. cbn [length].
    rewrite Nat.add_1_r. reflexivity.
  - apply last_None in E. rewrite E. reflexivity.
Qed.

Lemma undo_Numbered (s : State) :
  Consistent s -> Numbered s -> OnTurn s ->
  exists s', undo s = Ok s' /\ Numbered s' /\ OnTurn s'.
Proof.
  intros Hs Hn Ht. unfold undo.
  destruct (gameOver s || (length (moveHistory s) =? 0)%nat); [exists s; auto|].
  match goal with |- context [undoLoop ?n s] =>
    destruct (undoLoop_Numbered n s Hs Hn) as (s1 & -> & Hn1 & Hg1) end.
  cbn [bindRes]. eexists. split; [reflexivity|].
  pose proof (last_sideAt s1 Hn1) as Hlast.
  assert (Hset : forall p, p = sideAt (length (moveHistory s1)) ->
            Numbered (saveGame (setCurrentPlayer s1 p)) /\
            OnTurn (saveGame (setCurrentPlayer s1 p))).
  { intros p Hp. unfold saveGame, OnTurn. cbn [gameOver setCurrentPlayer].
    destruct Hn1 as [Hc Hm].
    destruct (gameOver s1); (split; [constructor; cbn; assumption | cbn; intros _; exact Hp]). }
  destruct (last (moveHistory s1)); apply Hset; exact Hlast.
Qed.

Lemma handleClick_Numbered (now r c : Z) (s : State) :
  Consistent s -> Numbered s -> OnTurn s ->
  exists s', handleClick now r c s = Ok s' /\ Numbered s' /\ OnTurn s'.
Proof.
  intros Hs Hn Ht. unfold handleClick.
  destruct (gameOver s) eqn:Hgo; [exists s; auto|].
  destruct (isAITurn s); [exists s; auto|].
  destruct ((r <? 0) || (BOARD_SIZE <=? r) || (c <? 0) || (BOARD_SIZE <=? c)) eqn:Eb;
    [exists s; auto|].
  assert (Hon : onGrid r c) by (unfold onGrid, BOARD_SIZE in *; lia).
  rewrite boardGet_wf by (apply Hs || apply Hon). cbn [bindRes].
  destruct (cellEq (cellOf (board s) r c) (Some NONE)) eqn:Ec; cbn [negb]; [|exists s; auto].
  apply bool_decide_eq_true in Ec. apply placePiece_Numbered; assumption.
Qed.

Lemma aiMove_Numbered (now : Z) (s : State) :
  Consistent s -> Numbered s -> OnTurn s ->
  exists s', aiMove now s = Ok s' /\ Numbered s' /\ OnTurn s'.
Proof.
  intros Hs Hn Ht. unfold aiMove.
  destruct (gameOver s) eqn:Hgo; [exists s; auto|].
  rewrite getAIMove_selectMove by apply Hs. cbn [bindRes fst snd].
  assert (Hsame : setBoard s (board s) = s) by (destruct s; reflexivity).
  rewrite Hsame.
  destruct (selectMove_tiers (board s)) as [_ Htiers].
  destruct (selectMove (board s)) as [[r c]|]; [|exists s; auto].
  destruct (Htiers r c eq_refl) as (Hon & Hempty & _).
  apply placePiece_Numbered; assumption.
Qed.

Lemma reset_Numbered (s : State) : Numbered (reset s) /\ OnTurn (reset s).
Proof.
  split; [constructor; cbn|].
  - reflexivity.
  - intros i m Hi. rewrite lookup_nil in Hi. discriminate.
  - intros _. reflexivity.
Qed.

(** What holds of every state the page can bring the engine to. *)
Lemma run_invariants (es : list Event) :
  forall s, Consistent s -> Numbered s -> OnTurn s ->
    exists s', run es s = Ok s' /\ Consistent s' /\ Numbered s' /\ OnTurn s'.
Proof.
  induction es as [|e es IH]; intros s Hs Hn Ht; [exists s; auto|].
  cbn [run].
  destruct (step_Consistent e s Hs) as (s1 & Hstep & Hs1).
  assert (Hn1 : Numbered s1 /\ OnTurn s1).
  { destruct e as [now r c|now| | |]; cbn [step] in Hstep.
    - destruct (handleClick_Numbered now r c s Hs Hn Ht) as (s2 & H2 & Hx).
      rewrite Hstep in H2. injection H2 as <-. exact Hx.
    - destruct (pendingAI s) as [|n] eqn:Ep.
      + injection Hstep as <-. auto.
      + destruct (aiMove_Numbered now (setPendingAI s n)) as (s2 & H2 & Hx).
        * destruct Hs. constructor; assumption.
        * destruct Hn. constructor; assumption.
        * exact Ht.
        * rewrite Hstep in H2. injection H2 as <-. exact Hx.
    - destruct (undo_Numbered s Hs Hn Ht) as (s2 & H2 & Hx).
      rewrite Hstep in H2. injection H2 as <-. exact Hx.
    - injection Hstep as <-. apply reset_Numbered.
    - injection Hstep as <-. apply reset_Numbered. }
  rewrite Hstep. cbn [bindRes]. apply IH; tauto.
Qed.

Lemma reachable_invariants (es : list Event) (s : State) :
  run es initialState = Ok s -> Consistent s /\ Numbered s /\ OnTurn s.
Proof.
  intros Hrun.
  destruct (run_invariants es initialState initialState_Consistent) as (s' & Hrun' & Hx).
  - constructor; cbn; [reflexivity|]. intros i m Hi. rewrite lookup_nil in Hi. discriminate.
  - intros _. reflexivity.
  - rewrite Hrun in Hrun'. injection Hrun' as <-. exact Hx.
Qed.

(** ** Undo, re-submission, rejected clicks *)

Lemma undo_one (s : State) (h : list Move) (m : Move) :
  Consistent s -> Numbered s -> gameOver s = false -> moveHistory s = h ++ [m] ->
  gameMode s = PVP \/ h = [] ->
  undo s = Ok (setSaved (setCurrentPlayer (popped s h m) (player m))
                 (Some (JsonText (encSnapshot (setCurrentPlayer (popped s h m) (player m)))))).
Proof.
  intros Hs Hn Hgo Eh Hone. unfold undo. rewrite Hgo, Eh, length_app. cbn [length orb].
  replace (length h + 1 =? 0)%nat with false by (symmetry; apply Nat.eqb_neq; lia).
  assert (Hsteps : (if bool_decide (gameMode s = PVE) && (2 <=? length h + 1)%nat
                    then 2%nat else 1%nat) = 1%nat).
  { destruct Hone as [Hm| ->].
    - rewrite Hm. reflexivity.
    - rewrite andb_false_r. reflexivity. }
  rewrite Hsteps, (undoLoop_pop 0 s h m Hs Eh). cbn [undoLoop bindRes].
  pose proof (last_sideAt _ (popped_Numbered s h m Hs Hn Eh)) as Hlast.
  assert (Hpm : player m = sideAt (length h)).
  { destruct Hn as [_ Hmoves]. apply (Hmoves (length h) m).
    rewrite Eh. apply list_lookup_middle. reflexivity. }
  change (moveHistory (popped s h m)) with h in *. rewrite <- Hpm in Hlast.
  assert (Hcp : match last h with
                | Some lastMove => setCurrentPlayer (popped s h m) (other (player lastMove))
                | None => setCurrentPlayer (popped s h m) BLACK
                end = setCurrentPlayer (popped s h m) (player m)).
  { destruct (last h); rewrite <- Hlast; reflexivity. }
  rewrite Hcp. unfold saveGame. cbn [gameOver setCurrentPlayer popped setMoveCount setBoard setMoveHistory].
  rewrite Hgo. reflexivity.
Qed.

(** C3 (amended): from a state in progress reached from the start, in
    which [undo] takes back one move (two-player mode, or a single move in
    the ledger), [undo] followed by a click on the cell of the move taken
    back restores the board exactly, and the ledger in every field of
    every entry but one: the re-submitted entry has the same cell, side
    and move number, and the time of the re-submission as its timestamp.
    With the clock reading the same value the ledger is restored exactly. *)
Theorem undo_resubmit_restores (es : list Event) (s : State) (h : list Move)
    (m : Move) (now : Z) :
  run es initialState = Ok s -> gameOver s = false -> moveHistory s = h ++ [m] ->
  gameMode s = PVP \/ h = [] ->
  exists s1 s2, undo s = Ok s1 /\ handleClick now (row m) (col m) s1 = Ok s2 /\
    currentPlayer s1 = player m /\
    board s2 = board s /\
    moveHistory s2 = h ++ [mkMove (row m) (col m) (player m) now (moveNumber m)] /\
    (now = timestamp m -> moveHistory s2 = moveHistory s).
Proof.
  intros Hrun Hgo Eh Hone.
  destruct (reachable_invariants es s Hrun) as (Hs & Hn & _).
  rewrite (undo_one s h m Hs Hn Hgo Eh Hone).
  set (s1 := setSaved _ _).
  destruct (cons_moves s Hs m) as [Hon _];
    [rewrite Eh; apply in_or_app; right; left; reflexivity|].
  destruct (num_moves s Hn (length h) m) as (Hpm & Hnum & Hcell);
    [rewrite Eh; apply list_lookup_middle; reflexivity|].
  assert (Hwf1 : wfBoard (board s1)) by (cbn; apply put_wf, Hs).
  destruct (placePiece_effect now (row m) (col m) s1 Hwf1 Hon)
    as (s2 & Hplace & Hb2 & Hh2 & _).
  exists s1, s2. split; [reflexivity|].
  assert (Hclick : handleClick now (row m) (col m) s1 = Ok s2).
  { unfold handleClick. change (gameOver s1) with (gameOver s). rewrite Hgo.
    assert (Hai : isAITurn s1 = false).
    { unfold isAITurn. change (gameMode s1) with (gameMode s).
      change (currentPlayer s1) with (player m).
      destruct Hone as [Hm| ->].
      - rewrite Hm. reflexivity.
      - rewrite Hpm. cbn. apply andb_false_r. }
    rewrite Hai.
    replace ((row m <? 0) || (BOARD_SIZE <=? row m) || (col m <? 0) || (BOARD_SIZE <=? col m))
      with false by (unfold onGrid, BOARD_SIZE in *; lia).
    rewrite boardGet_wf by (exact Hwf1 || apply Hon). cbn [bindRes].
    change (board s1) with (put (board s) (row m) (col m) NONE).
    rewrite cellOf_put_eq by first [exact Hon | apply Hs].
    unfold cellEq. rewrite bool_decide_eq_true_2 by reflexivity. exact Hplace. }
  split; [exact Hclick|]. split; [reflexivity|].
  assert (Hledger : moveHistory s2
                    = h ++ [mkMove (row m) (col m) (player m) now (moveNumber m)]).
  { rewrite Hh2. change (moveHistory s1) with h. change (currentPlayer s1) with (player m).
    change (moveCount s1) with (moveCount s - 1).
    rewrite (num_count s Hn), Eh, length_app, Hnum. cbn [length].
    do 3 f_equal. lia. }
  split; [|split; [exact Hledger|]].
  - rewrite Hb2. change (board s1) with (put (board s) (row m) (col m) NONE).
    change (currentPlayer s1) with (player m).
    rewrite put_put. apply put_same; [apply Hon | apply Hon | exact Hcell].
  - intros ->. rewrite Hledger, Eh. destruct m; reflexivity.
Qed.

(** C1 (amended): when the terminal flag is set, [undo] returns at once
    and changes nothing: the ledger, the board and the flag stay as they
    are, and the game stays finished until it is reset. *)
Theorem undo_terminal_noop (s : State) : gameOver s = true -> undo s = Ok s.
Proof. intros Hgo. unfold undo. rewrite Hgo. reflexivity. Qed.

(** [undo] never changes the terminal flag. *)
Lemma undo_keeps_gameOver (s s' : State) : undo s = Ok s' -> gameOver s' = gameOver s.
Proof.
  unfold undo. destruct (gameOver s) eqn:Hgo; cbn [orb].
  - intros [= <-]. exact Hgo.
  - destruct (length (moveHistory s) =? 0)%nat; [intros [= <-]; exact Hgo|].
    match goal with |- context [undoLoop ?n s] => generalize n end. intros n.
    assert (Hloop : forall k s0 s1, undoLoop k s0 = Ok s1 -> gameOver s1 = gameOver s0).
    { induction k as [|k IH]; intros s0 s1; cbn [undoLoop]; [intros [= <-]; reflexivity|].
      destruct (popLast (moveHistory s0)) as [[lm h0]|]; [|intros [= <-]; reflexivity].
      destruct (boardSet _ _ _ _); cbn [bindRes]; [|discriminate].
      intros H. apply IH in H. exact H. }
    destruct (undoLoop n s) as [s1|] eqn:E; cbn [bindRes]; [|discriminate].
    apply Hloop in E. intros [= <-].
    unfold saveGame. destruct (last (moveHistory s1)); cbn [gameOver setCurrentPlayer];
      destruct (gameOver s1) eqn:E1; cbn; congruence.
Qed.

(** C8: a click that is rejected - the game is over, it is the
    computer's turn in human-vs-computer mode, the coordinates are off
    the grid, or the cell is occupied - leaves the whole state as it was:
    board, ledger, side to move, terminal flag, and the rest. *)
Theorem handleClick_rejected_unchanged (now r c : Z) (s : State) :
  gameOver s = true \/
  (gameMode s = PVE /\ currentPlayer s = WHITE) \/
  ~ onGrid r c \/
  (exists p, cellOf (board s) r c = Some p /\ p <> NONE) ->
  handleClick now r c s = Ok s.
Proof.
  intros Hrej. unfold handleClick.
  destruct (gameOver s) eqn:Hgo; [reflexivity|].
  destruct (isAITurn s) eqn:Hai; [reflexivity|].
  destruct ((r <? 0) || (BOARD_SIZE <=? r) || (c <? 0) || (BOARD_SIZE <=? c)) eqn:Eb;
    [reflexivity|].
  destruct Hrej as [H|[[Hm Hp]|[Hoff|(p & Hcell & Hp)]]].
  - discriminate.
  - unfold isAITurn in Hai. rewrite Hm, Hp in Hai. discriminate.
  - exfalso. apply Hoff. unfold onGrid, BOARD_SIZE in *. lia.
  - unfold boardGet. unfold cellOf in Hcell.
    destruct (jsIndex (board s) r) as [cells0|]; [|discriminate].
    cbn [bindRes]. rewrite Hcell. unfold cellEq.
    rewrite bool_decide_eq_false_2 by congruence. reflexivity.
Qed.

(** ** Saving and loading *)

Lemma encPlayer_inj (p q : Player) : encPlayer p = encPlayer q -> p = q.
Proof. destruct p, q; cbn; intros H; try reflexivity; discriminate H. Qed.

Lemma encMode_inj (m n : GameMode) : encMode m = encMode n -> m = n.
Proof. destruct m, n; intros H; try reflexivity; vm_compute in H; discriminate H. Qed.

Lemma map_inj {A B : Type} (f : A -> B) :
  (forall x y, f x = f y -> x = y) -> forall l l', map f l = map f l' -> l = l'.
Proof.
  intros Hf. induction l as [|x l IH]; intros [|y l'] H; try discriminate; [reflexivity|].
  cbn [map] in H. injection H as Hx Hl. f_equal; [apply Hf, Hx | apply IH, Hl].
Qed.

Lemma encBoard_inj (b b' : Board) : encBoard b = encBoard b' -> b = b'.
Proof.
  unfold encBoard. intros [= H]. revert H. apply map_inj.
  intros x y [= H]. revert H. apply map_inj. exact encPlayer_inj.
Qed.

Lemma encMove_inj (m m' : Move) : encMove m = encMove m' -> m = m'.
Proof.
  destruct m, m'. unfold encMove. cbn [row col player timestamp moveNumber].
  intros [= -> -> Hp -> ->]. f_equal. apply encPlayer_inj. unfold encPlayer. f_equal. exact Hp.
Qed.

Lemma encHistory_inj (h h' : list Move) : encHistory h = encHistory h' -> h = h'.
Proof. unfold encHistory. intros [= H]. revert H. apply map_inj. exact encMove_inj. Qed.

(** With nothing stored, or a text that [JSON.parse] rejects, the fields
    are left alone and nothing stays stored. *)
Lemma loadGame_absent (f : Fields) : loadGame f None = (f, None).
Proof. reflexivity. Qed.

Lemma loadGame_unparsable (f : Fields) : loadGame f (Some BadText) = (f, None).
Proof. reflexivity. Qed.

(** A stored [null] throws before any assignment. *)
Lemma loadGame_null (f : Fields) : loadGame f (Some (JsonText JNull)) = (f, None).
Proof. reflexivity. Qed.

(** A stored object with an empty [moveHistory] and nothing else loads
    without any exception: the other fields become [undefined] and the
    item stays stored. *)
Lemma loadGame_history_only :
  loadGame freshFields (Some (JsonText (JObj [("moveHistory"%string, JArr [])])))
  = (mkFields None None None (Some (JArr [])) (Some (JNum 0)) None,
     Some (JsonText (JObj [("moveHistory"%string, JArr [])]))).
Proof. reflexivity. Qed.

(** C4 (the code departs from it): with the text [{}] stored, a malformed
    snapshot, [loadGame] on a fresh engine assigns [undefined] to the
    board, the side to move, the terminal flag and the ledger before the
    read of [moveHistory.length] throws; the [catch] removes the item, but
    the engine is not left in the fresh initial state. *)
Theorem loadGame_malformed_not_fresh :
  loadGame freshFields (Some (JsonText (JObj [])))
  = (mkFields None None None None (Some (JNum 0)) (Some (encMode PVP)), None) /\
  fst (loadGame freshFields (Some (JsonText (JObj [])))) <> freshFields.
Proof. split; [reflexivity | discriminate]. Qed.

(** [saveGame] and [loadGame] taken alone: a state in progress that is
    handed to [saveGame] and then loaded, whatever the fields of the
    loading engine held, comes back with the board, the ledger, the side
    to move and the mode it had (and the move count set to the length of
    the ledger); the encodings are one-to-one.  The stored text is
    modelled by the value it parses to.  [undo] saves in this way, as its
    last step; [placePiece] does not: it saves before it switches the
    side. *)
Theorem save_load_roundtrip (s : State) (f0 : Fields) :
  gameOver s = false ->
  exists f, loadGame f0 (saved (saveGame s)) = (f, saved (saveGame s)) /\
    f = mkFields (Some (encBoard (board s))) (Some (encPlayer (currentPlayer s)))
                 (Some (JBool false)) (Some (encHistory (moveHistory s)))
                 (Some (JNum (Z.of_nat (length (moveHistory s)))))
                 (Some (encMode (gameMode s))) /\
    forall s', fieldsOf s' = f ->
      board s' = board s /\ moveHistory s' = moveHistory s /\
      currentPlayer s' = currentPlayer s /\ gameMode s' = gameMode s.
Proof.
  intros Hgo. unfold saveGame. rewrite Hgo. cbn [saved setSaved].
  eexists. split; [|split].
  - unfold loadGame, restore, encSnapshot. cbn. rewrite Hgo, length_map. reflexivity.
  - reflexivity.
  - intros s' Hf.
    pose proof (f_equal fBoard Hf) as Hb. pose proof (f_equal fCurrentPlayer Hf) as Hp.
    pose proof (f_equal fMoveHistory Hf) as Hh. pose proof (f_equal fGameMode Hf) as Hm.
    cbn [fieldsOf fBoard fCurrentPlayer fMoveHistory fGameMode] in Hb, Hp, Hh, Hm.
    apply (inj Some) in Hb, Hp, Hh, Hm.
    apply encBoard_inj in Hb. apply encPlayer_inj in Hp.
    apply encHistory_inj in Hh. apply encMode_inj in Hm. auto.
Qed.

(** C9 (the code departs from it): the game saves a move from inside
    [placePiece], before [switchPlayer].  After the opening click on
    (7,7) the game is in progress with [WHITE] to move; the snapshot it
    stored loads, on a fresh engine, the same board, ledger and mode, but
    [BLACK] as the side to move. *)
Theorem save_load_loses_side_to_move :
  run oneMove initialState = Ok (stateOf oneMove) /\
  gameOver (stateOf oneMove) = false /\
  currentPlayer (stateOf oneMove) = WHITE /\
  exists f, loadGame freshFields (saved (stateOf oneMove)) = (f, saved (stateOf oneMove)) /\
    fBoard f = Some (encBoard (board (stateOf oneMove))) /\
    fMoveHistory f = Some (encHistory (moveHistory (stateOf oneMove))) /\
    fGameMode f = Some (encMode (gameMode (stateOf oneMove))) /\
    fCurrentPlayer f = Some (encPlayer BLACK) /\
    fCurrentPlayer f <> Some (encPlayer (currentPlayer (stateOf oneMove))).
Proof.
  split; [vm_compute; reflexivity|]. split; [vm_compute; reflexivity|].
  split; [vm_compute; reflexivity|].
  exists (fst (loadGame freshFields (saved (stateOf oneMove)))).
  split; [vm_compute; reflexivity|]. split; [vm_compute; reflexivity|].
  split; [vm_compute; reflexivity|]. split; [vm_compute; reflexivity|].
  split; [vm_compute; reflexivity|]. vm_compute. discriminate.
Qed.

(** ** The properties on sample games *)

Lemma undo_terminal_noop_witness :
  gameOver (stateOf blackWins) = true /\
  undo (stateOf blackWins) = Ok (stateOf blackWins).
Proof.
  split; [vm_compute; reflexivity|].
  apply (undo_terminal_noop (stateOf blackWins)). vm_compute. reflexivity.
Defined.

(** C1 as stated fails: after Black's five in a row at (7,7)..(7,11) the
    flag is set and the ledger holds nine moves, and [undo] does not
    bring the game back in progress. *)
Lemma undo_terminal_counterexample :
  run blackWins initialState = Ok (stateOf blackWins) /\
  gameOver (stateOf blackWins) = true /\
  length (moveHistory (stateOf blackWins)) = 9%nat /\
  ~ (exists s', undo (stateOf blackWins) = Ok s' /\
                (gameOver s' = false \/
                 (length (moveHistory s') < length (moveHistory (stateOf blackWins)))%nat)).
Proof.
  split; [vm_compute; reflexivity|]. split; [vm_compute; reflexivity|].
  split; [vm_compute; reflexivity|].
  intros (s' & Hu & Hs'). vm_compute in Hu. injection Hu as <-.
  vm_compute in Hs'. destruct Hs' as [H|H]; [discriminate H | lia].
Qed.

Lemma checkWin_iff_five_witness :
  exists won, checkWin (board (stateOf blackWins)) 7 11 = Ok won /\
    (won = true <-> hasFive (board (stateOf blackWins)) BLACK 7 11).
Proof.
  apply (checkWin_iff_five (board (stateOf blackWins)) 7 11 BLACK).
  - vm_compute. reflexivity.
  - unfold onGrid, BOARD_SIZE. lia.
  - vm_compute. reflexivity.
Defined.

Lemma undo_resubmit_restores_witness :
  exists s1 s2, undo (stateOf oneMove) = Ok s1 /\
    handleClick 200 7 7 s1 = Ok s2 /\
    currentPlayer s1 = BLACK /\
    board s2 = board (stateOf oneMove) /\
    moveHistory s2 = [] ++ [mkMove 7 7 BLACK 200 1] /\
    (200 = 100 -> moveHistory s2 = moveHistory (stateOf oneMove)).
Proof.
  apply (undo_resubmit_restores oneMove (stateOf oneMove) [] (mkMove 7 7 BLACK 100 1) 200).
  - vm_compute. reflexivity.
  - vm_compute. reflexivity.
  - vm_compute. reflexivity.
  - right. reflexivity.
Defined.

(** C3 as stated fails.  In two-player mode, a move made at time 100,
    taken back and made again at time 200 leaves a ledger whose entry has
    timestamp 200, not 100 (the board is restored).  In human-vs-computer
    mode [undo] takes back two moves, and making the human's move again,
    even at the same time, leaves a ledger of one entry where there were
    two. *)
Lemma undo_resubmit_counterexample :
  (run oneMove initialState = Ok (stateOf oneMove) /\
   gameOver (stateOf oneMove) = false /\
   exists sB sC, undo (stateOf oneMove) = Ok sB /\ handleClick 200 7 7 sB = Ok sC /\
     board sC = board (stateOf oneMove) /\
     moveHistory (stateOf oneMove) = [mkMove 7 7 BLACK 100 1] /\
     moveHistory sC = [mkMove 7 7 BLACK 200 1] /\
     moveHistory sC <> moveHistory (stateOf oneMove)) /\
  (run vsComputer initialState = Ok (stateOf vsComputer) /\
   gameOver (stateOf vsComputer) = false /\
   exists sB sC, undo (stateOf vsComputer) = Ok sB /\ handleClick 100 7 7 sB = Ok sC /\
     length (moveHistory (stateOf vsComputer)) = 2%nat /\
     length (moveHistory sC) = 1%nat /\
     moveHistory sC <> moveHistory (stateOf vsComputer)).
Proof.
  split.
  - split; [vm_compute; reflexivity|]. split; [vm_compute; reflexivity|].
    exists (resultOf (undo (stateOf oneMove)) initialState).
    exists (resultOf (handleClick 200 7 7 (resultOf (undo (stateOf oneMove)) initialState))
                     initialState).
    split; [vm_compute; reflexivity|]. split; [vm_compute; reflexivity|].
    split; [vm_compute; reflexivity|]. split; [vm_compute; reflexivity|].
    split; [vm_compute; reflexivity|]. vm_compute. discriminate.
  - split; [vm_compute; reflexivity|]. split; [vm_compute; reflexivity|].
    exists (resultOf (undo (stateOf vsComputer)) initialState).
    exists (resultOf (handleClick 100 7 7 (resultOf (undo (stateOf vsComputer)) initialState))
                     initialState).
    split; [vm_compute; reflexivity|]. split; [vm_compute; reflexivity|].
    split; [vm_compute; reflexivity|]. split; [vm_compute; reflexivity|].
    vm_compute. discriminate.
Qed.

Lemma getAIMove_three_tiers_witness :
  wfBoard (board (stateOf oneMove)) /\
  exists mv b', getAIMove (board (stateOf oneMove)) = Ok (mv, b') /\
    (mv = None <-> boardFull (board (stateOf oneMove))) /\
    forall r c, mv = Some (r, c) ->
      onGrid r c /\ cellOf (board (stateOf oneMove)) r c = Some NONE /\
      (FirstWin WHITE (board (stateOf oneMove)) r c \/
       (NoWin WHITE (board (stateOf oneMove)) /\ FirstWin BLACK (board (stateOf oneMove)) r c) \/
       (NoWin WHITE (board (stateOf oneMove)) /\ NoWin BLACK (board (stateOf oneMove)) /\
        BestScored (board (stateOf oneMove)) r c)).
Proof.
  split; [vm_compute; reflexivity|].
  apply (getAIMove_three_tiers (board (stateOf oneMove))). vm_compute. reflexivity.
Defined.

Lemma evaluatePosition_formula_witness :
  evaluatePosition (board (stateOf oneMove)) 7 8 WHITE
  = Ok (sumZ (map (fun d =>
                     myPoints (reach (board (stateOf oneMove)) (Some WHITE) 7 8 (fst d) (snd d)
                               + reach (board (stateOf oneMove)) (Some WHITE) 7 8 (- fst d) (- snd d))
                     + oppPoints (reach (board (stateOf oneMove)) (Some (opponentOf WHITE)) 7 8 (fst d) (snd d)
                                  + reach (board (stateOf oneMove)) (Some (opponentOf WHITE)) 7 8 (- fst d) (- snd d)))
                  [(0, 1); (1, 0); (1, 1); (1, -1)])
        + (14 - Z.abs (7 - 7) - Z.abs (8 - 7)) * 10).
Proof.
  apply (evaluatePosition_formula (board (stateOf oneMove)) 7 8 WHITE).
  - vm_compute. reflexivity.
  - discriminate.
Defined.

Lemma handleClick_rejected_unchanged_witness :
  handleClick 10 7 7 (stateOf oneMove) = Ok (stateOf oneMove).
Proof.
  apply (handleClick_rejected_unchanged 10 7 7 (stateOf oneMove)).
  right. right. right. exists BLACK. split; [vm_compute; reflexivity | discriminate].
Defined.

(** The law of [saveGame] and [loadGame] on a sample state. *)
Example save_load_roundtrip_sample :
  gameOver (stateOf oneMove) = false /\
  exists f, loadGame freshFields (saved (saveGame (stateOf oneMove)))
            = (f, saved (saveGame (stateOf oneMove))) /\
    f = mkFields (Some (encBoard (board (stateOf oneMove))))
                 (Some (encPlayer (currentPlayer (stateOf oneMove))))
                 (Some (JBool false)) (Some (encHistory (moveHistory (stateOf oneMove))))
                 (Some (JNum (Z.of_nat (length (moveHistory (stateOf oneMove))))))
                 (Some (encMode (gameMode (stateOf oneMove)))) /\
    forall s', fieldsOf s' = f ->
      board s' = board (stateOf oneMove) /\ moveHistory s' = moveHistory (stateOf oneMove) /\
      currentPlayer s' = currentPlayer (stateOf oneMove) /\ gameMode s' = gameMode (stateOf oneMove).
Proof.
  split; [vm_compute; reflexivity|].
  apply (save_load_roundtrip (stateOf oneMove) freshFields). vm_compute. reflexivity.
Qed.

Lemma getAIMove_board_unchanged_witness :
  wfBoard (board (stateOf oneMove)) /\
  exists mv, getAIMove (board (stateOf oneMove)) = Ok (mv, board (stateOf oneMove)).
Proof.
  split; [vm_compute; reflexivity|].
  apply (proj2 (getAIMove_board_unchanged (board (stateOf oneMove)))). vm_compute. reflexivity.
Defined.

(** Black's fifth stone at (7,11) ends the game and clears the stored
    snapshot; nine moves are in the ledger. *)
Example blackWins_terminal :
  gameOver (stateOf blackWins) = true /\
  saved (stateOf blackWins) = None /\
  moveCount (stateOf blackWins) = 9.
Proof. vm_compute. auto. Qed.

(** Four in a row is not a win. *)
Example four_is_not_five :
  checkWin (board (stateOf (firstn 8 blackWins))) 7 10 = Ok false.
Proof. vm_compute. reflexivity. Qed.

(** A run that stops at the edge of the board: White's stones at
    (0,0)..(0,3) reach the left edge and count four. *)
Example edge_run :
  lineLength (board (stateOf blackWins)) (Some WHITE) 0 3 (0, 1) = 4.
Proof. vm_compute. reflexivity. Qed.

(** The computer answers an opening at the centre with (6,7): no run
    scores, and (6,7) is the first of the four cells next to the centre. *)
Example computer_reply :
  map position (moveHistory (stateOf vsComputer)) = [(7, 7); (6, 7)].
Proof. vm_compute. reflexivity. Qed.

(** The computer blocks an open four: with Black on (7,7)..(7,10) and
    no win of its own, it takes (7,6), the first of the two ends. *)
Example computer_blocks :
  let b := put (put (put (put createEmptyBoard 7 7 BLACK) 7 8 BLACK) 7 9 BLACK) 7 10 BLACK in
  getAIMove b = Ok (Some (7, 6), b).
Proof. vm_compute. reflexivity. Qed.

(** ** A full board *)

Lemma fullCols_forallb (b : Board) (r : Z) (cols : list Z) :
  wfBoard b -> 0 <= r < BOARD_SIZE ->
  fullCols b r cols = Ok (forallb (fun cell => negb (isEmpty b cell)) (map (pair r) cols)).
Proof.
  intros Hwf Hr. induction cols as [|c rest IH]; [reflexivity|].
  cbn [fullCols map forallb]. rewrite boardGet_wf by assumption. cbn [bindRes].
  unfold isEmpty at 1. cbn [fst snd].
  destruct (cellEq (cellOf b r c) (Some NONE)); [reflexivity | exact IH].
Qed.

Lemma fullRows_forallb (b : Board) (rows : list Z) :
  wfBoard b -> (forall r, In r rows -> 0 <= r < BOARD_SIZE) ->
  fullRows b rows
  = Ok (forallb (fun cell => negb (isEmpty b cell))
                (flat_map (fun r => map (pair r) (range BOARD_SIZE)) rows)).
Proof.
  intros Hwf. induction rows as [|r rest IH]; intros Hrows; [reflexivity|].
  cbn [fullRows flat_map]. rewrite forallb_app.
  rewrite fullCols_forallb by (exact Hwf || apply Hrows; left; reflexivity).
  cbn [bindRes].
  destruct (forallb _ (map (pair r) (range BOARD_SIZE))); [|reflexivity].
  apply IH. intros r' H. apply Hrows. right. exact H.
Qed.

Lemma isBoardFull_boardFull (b : Board) :
  wfBoard b -> exists full, isBoardFull b = Ok full /\ (full = true <-> boardFull b).
Proof.
  intros Hwf. eexists. split.
  - unfold isBoardFull. rewrite fullRows_forallb by (exact Hwf || apply range_onGrid).
    rewrite cells_flat. reflexivity.
  - rewrite forallb_forall. unfold boardFull. split.
    + intros H r c Hon He. specialize (H (r, c) (proj2 (cells_onGrid r c) Hon)).
      apply isEmpty_iff in He. rewrite He in H. discriminate.
    + intros H [r c] Hin. apply cells_onGrid in Hin.
      destruct (isEmpty b (r, c)) eqn:E; [|reflexivity].
      apply isEmpty_iff in E. destruct (H r c Hin E).
Qed.

(** X1: on a 15x15 board [isBoardFull] returns, and returns [true]
    exactly when no cell of the grid is empty. *)
Theorem isBoardFull_iff_no_empty (b : Board) :
  wfBoard b ->
  exists full, isBoardFull b = Ok full /\
    (full = true <-> forall r c, onGrid r c -> cellOf b r c <> Some NONE).
Proof. intros Hwf. exact (isBoardFull_boardFull b Hwf). Qed.

(** ** An accepted click *)

Lemma checkWin_hasFive (b : Board) (r c : Z) (p : Player) :
  wfBoard b -> onGrid r c -> cellOf b r c = Some p ->
  exists won, checkWin b r c = Ok won /\ (won = true <-> hasFive b p r c).
Proof.
  intros Hwf Hon Hcell.
  exists (existsb (fun d => 5 <=? lineLength b (Some p) r c d) directions). split.
  - unfold checkWin. rewrite boardGet_wf by (exact Hwf || apply Hon).
    cbn [bindRes]. rewrite Hcell. apply checkWinLoop_existsb; auto.
  - rewrite existsb_exists. unfold hasFive. split.
    + intros ([dx dy] & Hin & H5). apply Z.leb_le in H5.
      destruct (directions_nonzero dx dy Hin) as [Hd _].
      apply (lineLength_run b p r c dx dy Hwf Hon Hcell Hd) in H5
        as (lo & hi & H1 & H2 & H3).
      exists dx, dy, lo, hi. auto.
    + intros (dx & dy & lo & hi & Hin & H1 & H2 & H3).
      exists (dx, dy). split; [exact Hin|]. apply Z.leb_le.
      destruct (directions_nonzero dx dy Hin) as [Hd _].
      apply (lineLength_run b p r c dx dy Hwf Hon Hcell Hd). eauto.
Qed.

Lemma other_differs (p : Player) : other p <> p.
Proof. unfold other. case_decide; [subst; discriminate | destruct p; congruence]. Qed.

Lemma saveGame_in_progress (s : State) :
  gameOver s = false -> saveGame s = setSaved s (Some (JsonText (encSnapshot s))).
Proof. intros H. unfold saveGame. rewrite H. reflexivity. Qed.

(** Everything [placePiece] does, by the two ways it can end. *)
Lemma placePiece_outcome (now r c : Z) (s : State) :
  wfBoard (board s) -> onGrid r c -> gameOver s = false ->
  exists s', placePiece now r c s = Ok s' /\
    board s' = put (board s) r c (currentPlayer s) /\
    moveHistory s' = moveHistory s ++ [mkMove r c (currentPlayer s) now (moveCount s + 1)] /\
    moveCount s' = moveCount s + 1 /\
    gameMode s' = gameMode s /\
    ((gameOver s' = true /\
      (hasFive (board s') (currentPlayer s) r c \/ boardFull (board s')) /\
      currentPlayer s' = currentPlayer s /\ saved s' = None /\
      pendingAI s' = pendingAI s)
     \/
     (gameOver s' = false /\
      ~ hasFive (board s') (currentPlayer s) r c /\ ~ boardFull (board s') /\
      currentPlayer s' = other (currentPlayer s) /\
      saved s' = Some (JsonText (encSnapshot (setCurrentPlayer s' (currentPlayer s)))) /\
      pendingAI s' = if bool_decide (gameMode s = PVE) &&
                        bool_decide (other (currentPlayer s) = WHITE)
                     then S (pendingAI s) else pendingAI s)).
Proof.
  intros Hwf Hon Hgo. unfold placePiece. rewrite boardSet_wf by assumption.
  cbn [bindRes]. cbn zeta.
  set (b1 := put (board s) r c (currentPlayer s)).
  assert (Hwf1 : wfBoard b1) by (apply put_wf; exact Hwf).
  assert (Hcell : cellOf b1 r c = Some (currentPlayer s))
    by (apply cellOf_put_eq; assumption).
  rewrite saveGame_in_progress by exact Hgo.
  cbn [board setSaved setMoveHistory setMoveCount setBoard].
  destruct (checkWin_hasFive b1 r c (currentPlayer s) Hwf1 Hon Hcell) as (won & -> & Hwon).
  cbn [bindRes]. destruct won.
  { eexists. split; [reflexivity|]. cbn. repeat split; try reflexivity.
    left. repeat split; try reflexivity. left. apply Hwon. reflexivity. }
  destruct (isBoardFull_boardFull b1 Hwf1) as (full & -> & Hfull). cbn [bindRes].
  destruct full.
  { eexists. split; [reflexivity|]. cbn. repeat split; try reflexivity.
    left. repeat split; try reflexivity. right. apply Hfull. reflexivity. }
  assert (Hnw : ~ hasFive b1 (currentPlayer s) r c) by (intros H; apply Hwon in H; discriminate).
  assert (Hnf : ~ boardFull b1) by (intros H; apply Hfull in H; discriminate).
  unfold isAITurn. cbn [gameMode currentPlayer switchPlayer setCurrentPlayer setSaved
                        setMoveHistory setMoveCount setBoard].
  destruct (bool_decide (gameMode s = PVE) && bool_decide (other (currentPlayer s) = WHITE));
    (eexists; split; [reflexivity|]); cbn; rewrite ?Hgo;
    (repeat split; try reflexivity); right; repeat split; auto.
Qed.

(** A click that passes the four guards of [handleClick] is the
    placement of a piece. *)
Lemma handleClick_accepts (now r c : Z) (s : State) :
  gameOver s = false -> isAITurn s = false -> onGrid r c ->
  cellOf (board s) r c = Some NONE -> wfBoard (board s) ->
  handleClick now r c s = placePiece now r c s.
Proof.
  intros Hgo Hai Hon Hempty Hwf. unfold handleClick. rewrite Hgo, Hai.
  replace ((r <? 0) || (BOARD_SIZE <=? r) || (c <? 0) || (BOARD_SIZE <=? c))
    with false by (unfold onGrid, BOARD_SIZE in *; lia).
  rewrite boardGet_wf by (exact Hwf || apply Hon). cbn [bindRes].
  rewrite Hempty. unfold cellEq. rewrite bool_decide_eq_true_2 by reflexivity.
  reflexivity.
Qed.

(** X2: a click on an empty cell of the grid, in a game in progress and
    not on the computer's turn, places one piece of the side to move on
    that cell and nowhere else, appends to the ledger the entry with that
    cell, side and time and the next move number, and keeps the mode. *)
Theorem click_places_one_piece (now r c : Z) (s : State) :
  wfBoard (board s) -> gameOver s = false -> isAITurn s = false -> onGrid r c ->
  cellOf (board s) r c = Some NONE ->
  exists s', handleClick now r c s = Ok s' /\
    cellOf (board s') r c = Some (currentPlayer s) /\
    (forall r' c', (r', c') <> (r, c) -> cellOf (board s') r' c' = cellOf (board s) r' c') /\
    moveHistory s' = moveHistory s ++ [mkMove r c (currentPlayer s) now (moveCount s + 1)] /\
    moveCount s' = moveCount s + 1 /\
    gameMode s' = gameMode s.
Proof.
  intros Hwf Hgo Hai Hon Hempty. rewrite handleClick_accepts by assumption.
  destruct (placePiece_outcome now r c s Hwf Hon Hgo) as (s' & Hrun & Hb & Hh & Hc & Hm & _).
  exists s'. split; [exact Hrun|]. rewrite Hb. split; [apply cellOf_put_eq; assumption|].
  split; [|auto]. intros r' c' Hne. apply cellOf_put_ne; [apply Hon | apply Hon | exact Hne].
Qed.

(** X3: an accepted click ends the game exactly when the piece placed
    completes a run of five through its cell or fills the last empty
    cell; the game then keeps the mover as current side, removes the
    stored snapshot and sets no timer. *)
Theorem click_ends_game_iff (now r c : Z) (s : State) :
  wfBoard (board s) -> gameOver s = false -> isAITurn s = false -> onGrid r c ->
  cellOf (board s) r c = Some NONE ->
  exists s', handleClick now r c s = Ok s' /\
    (gameOver s' = true <->
     hasFive (board s') (currentPlayer s) r c \/ boardFull (board s')) /\
    (gameOver s' = true ->
     currentPlayer s' = currentPlayer s /\ saved s' = None /\ pendingAI s' = pendingAI s).
Proof.
  intros Hwf Hgo Hai Hon Hempty. rewrite handleClick_accepts by assumption.
  destruct (placePiece_outcome now r c s Hwf Hon Hgo)
    as (s' & Hrun & _ & _ & _ & _ & [(Ho & Hwhy & Hrest)|(Ho & Hn5 & Hnf & _)]).
  - exists s'. split; [exact Hrun|]. split; [tauto|]. intros _. exact Hrest.
  - exists s'. split; [exact Hrun|]. rewrite Ho. split; [|discriminate].
    split; [discriminate|]. tauto.
Qed.

(** X4: when an accepted click leaves the game in progress the turn
    passes to the other side, and a computer move is scheduled exactly
    when the mode is human-vs-computer and the side now to move is
    [WHITE]. *)
Theorem click_passes_turn (now r c : Z) (s s' : State) :
  wfBoard (board s) -> gameOver s = false -> isAITurn s = false -> onGrid r c ->
  cellOf (board s) r c = Some NONE ->
  handleClick now r c s = Ok s' -> gameOver s' = false ->
  currentPlayer s' = other (currentPlayer s) /\
  currentPlayer s' <> currentPlayer s /\
  pendingAI s' = (if isAITurn s' then S (pendingAI s) else pendingAI s).
Proof.
  intros Hwf Hgo Hai Hon Hempty Hclick Hgo'.
  rewrite handleClick_accepts in Hclick by assumption.
  destruct (placePiece_outcome now r c s Hwf Hon Hgo)
    as (s1 & Hrun & _ & _ & _ & Hm & [(Ho & _)|(_ & _ & _ & Hp & _ & Ht)]);
    rewrite Hrun in Hclick; injection Hclick as <-; [congruence|].
  split; [exact Hp|]. split; [rewrite Hp; apply other_differs|].
  unfold isAITurn. rewrite Hm, Hp. exact Ht.
Qed.

(** X5: [placePiece] saves before it switches the side: after an accepted
    click that leaves the game in progress, the stored snapshot holds the
    new board and the new ledger, but the side that has just moved as the
    side to move; [loadGame] on it installs that side, not the side whose
    turn it is. *)
Theorem click_saves_before_switch (now r c : Z) (s s' : State) (f0 : Fields) :
  wfBoard (board s) -> gameOver s = false -> isAITurn s = false -> onGrid r c ->
  cellOf (board s) r c = Some NONE ->
  handleClick now r c s = Ok s' -> gameOver s' = false ->
  saved s' = Some (JsonText (encSnapshot (setCurrentPlayer s' (currentPlayer s)))) /\
  fBoard (fst (loadGame f0 (saved s'))) = Some (encBoard (board s')) /\
  fMoveHistory (fst (loadGame f0 (saved s'))) = Some (encHistory (moveHistory s')) /\
  fCurrentPlayer (fst (loadGame f0 (saved s'))) = Some (encPlayer (currentPlayer s)) /\
  currentPlayer s <> currentPlayer s'.
Proof.
  intros Hwf Hgo Hai Hon Hempty Hclick Hgo'.
  rewrite handleClick_accepts in Hclick by assumption.
  destruct (placePiece_outcome now r c s Hwf Hon Hgo)
    as (s1 & Hrun & _ & _ & _ & _ & [(Ho & _)|(_ & _ & _ & Hp & Hs & _)]);
    rewrite Hrun in Hclick; injection Hclick as <-; [congruence|].
  split; [exact Hs|]. rewrite Hs.
  unfold loadGame, parse, restore, encSnapshot. cbn.
  repeat split. rewrite Hp. intros H. symmetry in H. exact (other_differs _ H).
Qed.

(** ** The board is the ledger played out *)

Lemma cellOf_createEmptyBoard (r c : Z) :
  onGrid r c -> cellOf createEmptyBoard r c = Some NONE.
Proof.
  intros [Hr Hc]. unfold cellOf, createEmptyBoard, BOARD_SIZE in *.
  rewrite jsIndex_nat by lia. rewrite lookup_replicate_2 by lia.
  rewrite jsIndex_nat by lia. apply lookup_replicate_2. lia.
Qed.

Lemma replay_snoc (h : list Move) (m : Move) :
  replay (h ++ [m]) = put (replay h) (row m) (col m) (player m).
Proof. unfold replay. rewrite fold_left_app. reflexivity. Qed.

Lemma replay_wf (h : list Move) : wfBoard (replay h).
Proof.
  induction h as [|m h IH] using rev_ind; [exact createEmptyBoard_wf|].
  rewrite replay_snoc. apply put_wf. exact IH.
Qed.

(** A cell on which the ledger has no move is empty. *)
Lemma cellOf_replay_fresh (h : list Move) (r c : Z) :
  (forall m, In m h -> onGrid (row m) (col m)) ->
  ~ In (r, c) (map position h) -> onGrid r c ->
  cellOf (replay h) r c = Some NONE.
Proof.
  intros Hgrid Hfresh Hon. induction h as [|m h IH] using rev_ind.
  - apply cellOf_createEmptyBoard. exact Hon.
  - rewrite replay_snoc.
    destruct (Hgrid m) as [Hr Hc]; [apply in_or_app; right; left; reflexivity|].
    rewrite cellOf_put_ne; [| apply Hr | apply Hc |].
    + apply IH.
      * intros m0 H0. apply Hgrid. apply in_or_app. left. exact H0.
      * intros H0. apply Hfresh. rewrite map_app. apply in_or_app. left. exact H0.
    + intros Heq. apply Hfresh. rewrite map_app. apply in_or_app. right. left.
      symmetry. exact Heq.
Qed.

(** A cell on which the ledger has a move holds the side of that move. *)
Lemma cellOf_replay_move (h : list Move) (m : Move) :
  (forall m0, In m0 h -> onGrid (row m0) (col m0)) ->
  NoDup (map position h) -> In m h ->
  cellOf (replay h) (row m) (col m) = Some (player m).
Proof.
  intros Hgrid Hnd Hin. induction h as [|m1 h IH] using rev_ind; [destruct Hin|].
  rewrite replay_snoc. rewrite map_app in Hnd. cbn [map] in Hnd.
  apply NoDup_app in Hnd as (Hnd1 & Hdisj & _).
  destruct (Hgrid m1) as [Hr1 Hc1]; [apply in_or_app; right; left; reflexivity|].
  apply in_app_or in Hin as [Hin|[<-|[]]].
  - rewrite cellOf_put_ne; [| apply Hr1 | apply Hc1 |].
    + apply IH; [|exact Hnd1|exact Hin].
      intros m0 H0. apply Hgrid. apply in_or_app. left. exact H0.
    + intros Heq. apply (Hdisj (position m)).
      * apply list_elem_of_In, in_map. exact Hin.
      * apply list_elem_of_singleton. exact Heq.
  - apply cellOf_put_eq; [apply replay_wf | split; assumption].
Qed.

Lemma popped_replay (s : State) (h : list Move) (m : Move) :
  Consistent s -> board s = replay (moveHistory s) -> moveHistory s = h ++ [m] ->
  board (popped s h m) = replay h.
Proof.
  intros Hs Hb Eh. cbn. rewrite Hb, Eh, replay_snoc, put_put.
  destruct (cons_moves s Hs m) as [Hon _];
    [rewrite Eh; apply in_or_app; right; left; reflexivity|].
  assert (Hnd : NoDup (map position (h ++ [m]))) by (rewrite <- Eh; apply Hs).
  rewrite map_app in Hnd. cbn [map] in Hnd. apply NoDup_app in Hnd as (_ & Hdisj & _).
  apply put_same; [apply Hon | apply Hon |].
  apply cellOf_replay_fresh; [| |exact Hon].
  - intros m0 H0. apply (cons_moves s Hs). rewrite Eh. apply in_or_app. left. exact H0.
  - intros Hin. apply (Hdisj (position m)).
    + apply list_elem_of_In. exact Hin.
    + apply list_elem_of_singleton. reflexivity.
Qed.

(** The loop of [undo]: it stops on an empty ledger, and otherwise takes
    back one move per pass. *)
Lemma undoLoop_prefix (steps : nat) :
  forall s, Consistent s -> board s = replay (moveHistory s) ->
    exists s', undoLoop steps s = Ok s' /\ Consistent s' /\
      board s' = replay (moveHistory s') /\
      moveHistory s' = firstn (length (moveHistory s) - steps) (moveHistory s) /\
      moveCount s' = moveCount s - Z.of_nat (Nat.min steps (length (moveHistory s))) /\
      gameOver s' = gameOver s /\ gameMode s' = gameMode s /\
      currentPlayer s' = currentPlayer s /\ saved s' = saved s /\
      pendingAI s' = pendingAI s.
Proof.
  induction steps as [|steps IH]; intros s Hs Hb.
  { exists s. split; [reflexivity|]. split; [exact Hs|]. split; [exact Hb|].
    rewrite Nat.sub_0_r, firstn_all. cbn. repeat split; lia. }
  destruct (popLast (moveHistory s)) as [[m h]|] eqn:Epop.
  - apply popLast_snoc in Epop. rewrite (undoLoop_pop steps s h m Hs Epop).
    destruct (IH (popped s h m) (popped_Consistent s h m Hs Epop)
                 (popped_replay s h m Hs Hb Epop))
      as (s' & Hrun & Hs' & Hb' & Hh' & Hc' & Hg' & Hm' & Hp' & Hsv' & Ht').
    exists s'. split; [exact Hrun|]. split; [exact Hs'|]. split; [exact Hb'|].
    cbn [popped moveHistory moveCount gameOver gameMode currentPlayer saved pendingAI
         setMoveCount setBoard setMoveHistory] in *.
    rewrite Epop, length_app. cbn [length].
    split; [|repeat split; try assumption; lia].
    rewrite Hh'. replace (length h + 1 - S steps)%nat with (length h - steps)%nat by lia.
    rewrite firstn_app.
    replace (length h - steps - length h)%nat with 0%nat by lia.
    cbn [firstn]. rewrite app_nil_r. reflexivity.
  - apply popLast_None in Epop. exists s. cbn [undoLoop].
    rewrite Epop. cbn. split; [reflexivity|]. split; [exact Hs|].
    split; [rewrite Hb, Epop; reflexivity|]. repeat split; lia.
Qed.

(** ** What [undo] takes back *)

Lemma undo_result (s : State) :
  Consistent s -> Numbered s -> board s = replay (moveHistory s) ->
  gameOver s = false -> moveHistory s <> [] ->
  exists s', undo s = Ok s' /\ Consistent s' /\ Numbered s' /\
    moveHistory s'
    = firstn (length (moveHistory s) - undoSteps (gameMode s) (length (moveHistory s)))
             (moveHistory s) /\
    board s' = replay (moveHistory s') /\
    gameOver s' = false /\ gameMode s' = gameMode s /\
    currentPlayer s' = sideAt (length (moveHistory s')) /\
    saved s' = Some (JsonText (encSnapshot s')) /\
    pendingAI s' = pendingAI s.
Proof.
  intros Hs Hn Hb Hgo Hne. unfold undo. rewrite Hgo. cbn [orb].
  assert (Hlen : (1 <= length (moveHistory s))%nat).
  { destruct (moveHistory s); [congruence | cbn; lia]. }
  replace (length (moveHistory s) =? 0)%nat with false by (symmetry; apply Nat.eqb_neq; lia).
  set (steps := if bool_decide (gameMode s = PVE) && (2 <=? length (moveHistory s))%nat
                then 2%nat else 1%nat).
  assert (Hsteps : (length (moveHistory s) - steps
                    = length (moveHistory s) - undoSteps (gameMode s) (length (moveHistory s)))%nat).
  { unfold steps, undoSteps. destruct (gameMode s); cbn [bool_decide decide_rel andb].
    - rewrite bool_decide_eq_false_2 by discriminate. cbn [andb]. lia.
    - rewrite bool_decide_eq_true_2 by reflexivity. cbn [andb].
      destruct (Nat.leb_spec 2 (length (moveHistory s))); lia. }
  destruct (undoLoop_prefix steps s Hs Hb)
    as (s1 & Hrun & Hs1 & Hb1 & Hh1 & _ & Hg1 & Hm1 & _ & _ & Ht1).
  destruct (undoLoop_Numbered steps s Hs Hn) as (s1' & Hrun' & Hn1 & _).
  rewrite Hrun in Hrun'. injection Hrun' as <-.
  rewrite Hrun. cbn [bindRes].
  pose proof (last_sideAt s1 Hn1) as Hlast.
  set (p := sideAt (length (moveHistory s1))) in *.
  assert (Hcp : match last (moveHistory s1) with
                | Some lastMove => setCurrentPlayer s1 (other (player lastMove))
                | None => setCurrentPlayer s1 BLACK
                end = setCurrentPlayer s1 p).
  { destruct (last (moveHistory s1)); rewrite <- Hlast; reflexivity. }
  rewrite Hcp. rewrite saveGame_in_progress by (cbn; congruence).
  eexists. split; [reflexivity|]. cbn.
  destruct Hs1 as [Hwf1 Hp1 Hmv1 Hnd1 Hc1]. destruct Hn1 as [Hcount1 Hmoves1].
  split; [constructor; cbn; try assumption|].
  { unfold p, sideAt. destruct (Nat.even _); discriminate. }
  split; [constructor; cbn; assumption|].
  rewrite <- Hsteps. repeat split; try assumption; congruence.
Qed.

(** The board of the shorter ledger, seen in the longer one: a move that
    stays keeps its stone. *)
Lemma replay_firstn_cell (h : list Move) (n : nat) (r c : Z) (p : Player) :
  (forall m, In m h -> onGrid (row m) (col m)) -> NoDup (map position h) ->
  onGrid r c -> p <> NONE ->
  cellOf (replay (firstn n h)) r c = Some p -> cellOf (replay h) r c = Some p.
Proof.
  intros Hgrid Hnd Hon Hp Hcell.
  assert (Hgrid' : forall m, In m (firstn n h) -> onGrid (row m) (col m)).
  { intros m Hm. apply Hgrid. rewrite <- (firstn_skipn n h). apply in_or_app. left. exact Hm. }
  destruct (in_dec (fun x y : Z * Z => decide (x = y)) (r, c) (map position (firstn n h)))
    as [Hin|Hout].
  - apply in_map_iff in Hin as (m & Hpos & Hm).
    assert (Hnd' : NoDup (map position (firstn n h))).
    { rewrite <- (firstn_skipn n h), map_app in Hnd. apply NoDup_app in Hnd. apply Hnd. }
    pose proof (cellOf_replay_move (firstn n h) m Hgrid' Hnd' Hm) as H1.
    assert (Hm' : In m h).
    { rewrite <- (firstn_skipn n h). apply in_or_app. left. exact Hm. }
    pose proof (cellOf_replay_move h m Hgrid Hnd Hm') as H2.
    unfold position in Hpos. injection Hpos as Hr0 Hc0. rewrite Hr0, Hc0 in H1, H2.
    congruence.
  - rewrite (cellOf_replay_fresh (firstn n h) r c Hgrid' Hout Hon) in Hcell. congruence.
Qed.

Lemma hasFive_replay_firstn (h : list Move) (n : nat) (r c : Z) (p : Player) :
  (forall m, In m h -> onGrid (row m) (col m)) -> NoDup (map position h) ->
  p <> NONE -> hasFive (replay (firstn n h)) p r c -> hasFive (replay h) p r c.
Proof.
  intros Hgrid Hnd Hp (dx & dy & lo & hi & Hin & Hlohi & H5 & Hrun).
  exists dx, dy, lo, hi. split; [exact Hin|]. split; [exact Hlohi|]. split; [exact H5|].
  intros k Hk. destruct (Hrun k Hk) as [Hon Hcell]. split; [exact Hon|].
  eapply replay_firstn_cell; eauto.
Qed.

(** ** The terminal flag and the board *)

Lemma Z_interval_cases (P : Z -> Prop) (n : nat) :
  (forall k, P k \/ ~ P k) ->
  forall lo, (exists k, lo <= k < lo + Z.of_nat n /\ P k) \/
             (forall k, lo <= k < lo + Z.of_nat n -> ~ P k).
Proof.
  intros Hdec. induction n as [|n IH]; intros lo; [right; intros; lia|].
  destruct (Hdec lo) as [Hlo|Hlo]; [left; exists lo; split; [lia | exact Hlo]|].
  destruct (IH (lo + 1)) as [(k & Hk & HP)|Hnone].
  - left. exists k. split; [lia | exact HP].
  - right. intros k Hk. destruct (Z.eq_dec k lo) as [->|Hne]; [exact Hlo|].
    apply Hnone. lia.
Qed.

(** A run of five on the board after a placement either was there
    before or passes through the new stone. *)
Lemma hasFive_put_new (b : Board) (r c r' c' : Z) (q p : Player) :
  wfBoard b -> onGrid r c -> hasFive (put b r c q) p r' c' ->
  hasFive b p r' c' \/ (p = q /\ hasFive (put b r c q) q r c).
Proof.
  intros Hwf Hon (dx & dy & lo & hi & Hin & Hlohi & H5 & Hrun).
  destruct (Z_interval_cases (fun k => (r' + k * dx, c' + k * dy) = (r, c))
              (Z.to_nat (hi - lo + 1))
              (fun k => match decide ((r' + k * dx, c' + k * dy) = (r, c)) with
                        | left H => or_introl H
                        | right H => or_intror H
                        end) lo) as [(k0 & Hk0 & Heq)|Hnone].
  - right. injection Heq as Hr0 Hc0.
    destruct (Hrun k0 ltac:(lia)) as [_ Hcell]. rewrite Hr0, Hc0 in Hcell.
    rewrite cellOf_put_eq in Hcell by assumption. injection Hcell as <-.
    split; [reflexivity|]. exists dx, dy, (lo - k0), (hi - k0).
    split; [exact Hin|]. split; [lia|]. split; [lia|]. intros j Hj.
    replace (r + j * dx) with (r' + (k0 + j) * dx) by lia.
    replace (c + j * dy) with (c' + (k0 + j) * dy) by lia.
    apply Hrun. lia.
  - left. exists dx, dy, lo, hi. split; [exact Hin|]. split; [exact Hlohi|].
    split; [exact H5|]. intros k Hk. destruct (Hrun k Hk) as [Hon' Hcell].
    split; [exact Hon'|]. rewrite cellOf_put_ne in Hcell; [exact Hcell| apply Hon | apply Hon |].
    apply Hnone. lia.
Qed.

Lemma placePiece_Decided (now r c : Z) (s s' : State) :
  Consistent s -> Decided s -> gameOver s = false -> onGrid r c ->
  placePiece now r c s = Ok s' -> Decided s'.
Proof.
  intros Hs Hd Hgo Hon Hrun.
  destruct (placePiece_outcome now r c s (cons_board s Hs) Hon Hgo)
    as (s1 & Hrun1 & Hb & _ & _ & _ & Hcases).
  rewrite Hrun in Hrun1. injection Hrun1 as <-. unfold Decided.
  destruct Hcases as [(Ho & Hwhy & _)|(Ho & Hn5 & Hnf & _)].
  - split; [|intros _; exact Ho]. intros _. destruct Hwhy as [H5|Hf]; [left | right; exact Hf].
    exists (currentPlayer s), r, c. split; [apply Hs | exact H5].
  - rewrite Ho. split; [discriminate|]. intros [(p & r' & c' & Hp & H5)|Hf]; [|tauto].
    exfalso. rewrite Hb in H5, Hn5.
    destruct (hasFive_put_new _ _ _ _ _ _ _ (cons_board s Hs) Hon H5) as [Hold|[-> Hnew]].
    + assert (Hover : gameOver s = true) by (apply Hd; left; exists p, r', c'; auto).
      congruence.
    + exact (Hn5 Hnew).
Qed.

Lemma undo_Decided (s s' : State) :
  Consistent s -> Numbered s -> board s = replay (moveHistory s) -> Decided s ->
  undo s = Ok s' -> Decided s' /\ board s' = replay (moveHistory s').
Proof.
  intros Hs Hn Hb Hd Hrun.
  destruct (gameOver s) eqn:Hgo.
  { unfold undo in Hrun. rewrite Hgo in Hrun. injection Hrun as <-. auto. }
  destruct (moveHistory s) as [|m0 h0] eqn:Eh.
  { unfold undo in Hrun. rewrite Hgo, Eh in Hrun. injection Hrun as <-.
    rewrite Eh. auto. }
  rewrite <- Eh in *.
  assert (Hne : moveHistory s <> []) by (rewrite Eh; discriminate).
  destruct (undo_result s Hs Hn Hb Hgo Hne)
    as (s1 & Hrun1 & _ & _ & Hh1 & Hb1 & Hg1 & _).
  rewrite Hrun in Hrun1. injection Hrun1 as <-. split; [|exact Hb1].
  unfold Decided. rewrite Hg1. split; [discriminate|].
  set (n := (length (moveHistory s) - undoSteps (gameMode s) (length (moveHistory s)))%nat) in *.
  assert (Hlt : (n < length (moveHistory s))%nat).
  { unfold n, undoSteps. rewrite Eh. cbn [length]. destruct (gameMode s); lia. }
  intros [(p & r & c & Hp & H5)|Hfull]; exfalso.
  - rewrite Hb1, Hh1 in H5.
    apply hasFive_replay_firstn in H5; [| apply Hs | apply Hs | exact Hp].
    rewrite <- Hb in H5.
    assert (Hover : gameOver s = true) by (apply Hd; left; exists p, r, c; auto).
    congruence.
  - destruct (lookup_lt_is_Some_2 (moveHistory s) n Hlt) as [m Hm].
    destruct (cons_moves s Hs m) as [Hon _];
      [apply list_elem_of_In; eapply list_elem_of_lookup_2; exact Hm|].
    apply (Hfull (row m) (col m) Hon). rewrite Hb1, Hh1.
    apply cellOf_replay_fresh; [| |exact Hon].
    + intros m1 H1. apply (cons_moves s Hs). rewrite <- (firstn_skipn n (moveHistory s)).
      apply in_or_app. left. exact H1.
    + pose proof (cons_nodup s Hs) as Hnd.
      rewrite <- (firstn_skipn n (moveHistory s)), map_app in Hnd.
      apply NoDup_app in Hnd as (_ & Hdisj & _).
      intros Hin. apply (Hdisj (position m)); [apply list_elem_of_In; exact Hin|].
      apply list_elem_of_In, in_map. apply list_elem_of_In.
      eapply list_elem_of_lookup_2 with (i := 0%nat).
      rewrite lookup_drop, Nat.add_0_r. exact Hm.
Qed.

Lemma reset_Decided (s : State) :
  Decided (reset s) /\ board (reset s) = replay (moveHistory (reset s)).
Proof.
  split; [|reflexivity]. unfold Decided. cbn. split; [discriminate|].
  intros [(p & r & c & Hp & (dx & dy & lo & hi & _ & Hlohi & _ & Hrun))|Hfull]; exfalso.
  - destruct (Hrun 0 ltac:(lia)) as [Hon Hcell].
    rewrite cellOf_createEmptyBoard in Hcell by exact Hon. congruence.
  - apply (Hfull 0 0); [unfold onGrid, BOARD_SIZE; lia | reflexivity].
Qed.

(** The two ways a click can go. *)
Lemma handleClick_cases (now r c : Z) (s : State) :
  wfBoard (board s) ->
  handleClick now r c s = Ok s \/
  (gameOver s = false /\ isAITurn s = false /\ onGrid r c /\
   cellOf (board s) r c = Some NONE /\ handleClick now r c s = placePiece now r c s).
Proof.
  intros Hwf. unfold handleClick.
  destruct (gameOver s) eqn:Hgo; [left; reflexivity|].
  destruct (isAITurn s) eqn:Hai; [left; reflexivity|].
  destruct ((r <? 0) || (BOARD_SIZE <=? r) || (c <? 0) || (BOARD_SIZE <=? c)) eqn:Eb;
    [left; reflexivity|].
  assert (Hon : onGrid r c) by (unfold onGrid, BOARD_SIZE in *; lia).
  rewrite boardGet_wf by (exact Hwf || apply Hon). cbn [bindRes].
  destruct (cellEq (cellOf (board s) r c) (Some NONE)) eqn:Ec; cbn [negb];
    [|left; reflexivity].
  apply bool_decide_eq_true in Ec. right. auto.
Qed.

(** The two ways a computer move can go. *)
Lemma aiMove_cases (now : Z) (s : State) :
  wfBoard (board s) ->
  (aiMove now s = Ok s /\ (gameOver s = true \/ boardFull (board s))) \/
  (gameOver s = false /\ exists r c, selectMove (board s) = Some (r, c) /\ onGrid r c /\
     cellOf (board s) r c = Some NONE /\ aiMove now s = placePiece now r c s).
Proof.
  intros Hwf. unfold aiMove.
  destruct (gameOver s) eqn:Hgo; [left; auto|].
  rewrite getAIMove_selectMove by exact Hwf. cbn [bindRes fst snd].
  assert (Hsame : setBoard s (board s) = s) by (destruct s; reflexivity).
  rewrite Hsame.
  destruct (selectMove_tiers (board s)) as [Hnone Htiers].
  destruct (selectMove (board s)) as [[r c]|].
  - right. split; [reflexivity|]. exists r, c.
    destruct (Htiers r c eq_refl) as (Hon & Hempty & _). auto.
  - left. split; [reflexivity|]. right. apply Hnone. reflexivity.
Qed.

Lemma placePiece_replay (now r c : Z) (s s' : State) :
  wfBoard (board s) -> onGrid r c -> board s = replay (moveHistory s) ->
  placePiece now r c s = Ok s' -> board s' = replay (moveHistory s').
Proof.
  intros Hwf Hon Hb Hrun.
  destruct (placePiece_effect now r c s Hwf Hon) as (s1 & Hrun1 & Hb1 & Hh1 & _).
  rewrite Hrun in Hrun1. injection Hrun1 as <-.
  rewrite Hb1, Hh1, replay_snoc, Hb. reflexivity.
Qed.

(** Every state the page can bring the engine to satisfies all of the
    above. *)
Lemma run_settled (es : list Event) :
  forall s, Consistent s -> Numbered s -> OnTurn s ->
    board s = replay (moveHistory s) -> Decided s ->
    exists s', run es s = Ok s' /\ Consistent s' /\ Numbered s' /\ OnTurn s' /\
      board s' = replay (moveHistory s') /\ Decided s'.
Proof.
  induction es as [|e es IH]; intros s Hs Hn Ht Hb Hd; [exists s; auto 10|].
  destruct (run_invariants [e] s Hs Hn Ht) as (s1 & Hrun1 & Hs1 & Hn1 & Ht1).
  cbn [run] in Hrun1. destruct (step e s) as [s1'|] eqn:Hstep; cbn [bindRes] in Hrun1;
    [|discriminate]. injection Hrun1 as ->.
  assert (Hmore : board s1 = replay (moveHistory s1) /\ Decided s1).
  { destruct e as [now r c|now| | |]; cbn [step] in Hstep.
    - destruct (handleClick_cases now r c s (cons_board s Hs))
        as [Hsame|(Hgo & _ & Hon & _ & Heq)].
      + rewrite Hsame in Hstep. injection Hstep as <-. auto.
      + rewrite Heq in Hstep. split.
        * exact (placePiece_replay now r c s s1 (cons_board s Hs) Hon Hb Hstep).
        * exact (placePiece_Decided now r c s s1 Hs Hd Hgo Hon Hstep).
    - destruct (pendingAI s) as [|n] eqn:Ep; [injection Hstep as <-; auto|].
      set (s0 := setPendingAI s n) in *.
      assert (Hs0 : Consistent s0) by (destruct Hs; constructor; assumption).
      destruct (aiMove_cases now s0 (cons_board s Hs))
        as [[Hsame _]|(Hgo & r & c & _ & Hon & _ & Heq)].
      + rewrite Hsame in Hstep. injection Hstep as <-. auto.
      + rewrite Heq in Hstep. split.
        * exact (placePiece_replay now r c s0 s1 (cons_board s Hs) Hon Hb Hstep).
        * exact (placePiece_Decided now r c s0 s1 Hs0 Hd Hgo Hon Hstep).
    - destruct (undo_Decided s s1 Hs Hn Hb Hd Hstep). auto.
    - injection Hstep as <-. destruct (reset_Decided s). auto.
    - injection Hstep as <-. destruct (reset_Decided (setGameMode s
        (if decide (gameMode s = PVP) then PVE else PVP))). auto. }
  cbn [run]. rewrite Hstep. cbn [bindRes]. apply IH; tauto.
Qed.

Lemma reachable_settled (es : list Event) (s : State) :
  run es initialState = Ok s ->
  Consistent s /\ Numbered s /\ OnTurn s /\ board s = replay (moveHistory s) /\ Decided s.
Proof.
  intros Hrun.
  destruct (reachable_invariants [] initialState eq_refl) as (Hs0 & Hn0 & Ht0).
  destruct (reset_Decided initialState) as [Hd0 Hb0].
  destruct (run_settled es initialState Hs0 Hn0 Ht0 eq_refl Hd0) as (s' & Hrun' & H).
  rewrite Hrun in Hrun'. injection Hrun' as <-. exact H.
Qed.

(** ** Every state of a game *)

(** X6: in every state reached from the start by clicks, computer moves,
    undos, resets and mode changes, the board is the ledger played out on
    the empty board: each ledger entry has its side on its cell, and a
    cell of the grid that no entry names is empty. *)
Theorem board_is_ledger_played (es : list Event) (s : State) :
  run es initialState = Ok s ->
  board s = replay (moveHistory s) /\
  (forall m, In m (moveHistory s) ->
     cellOf (board s) (row m) (col m) = Some (player m)) /\
  (forall r c, onGrid r c -> ~ In (r, c) (map position (moveHistory s)) ->
     cellOf (board s) r c = Some NONE).
Proof.
  intros Hrun. destruct (reachable_settled es s Hrun) as (Hs & _ & _ & Hb & _).
  split; [exact Hb|]. split.
  - intros m Hm. rewrite Hb.
    apply cellOf_replay_move; [apply Hs | apply Hs | exact Hm].
  - intros r c Hon Hout. rewrite Hb. apply cellOf_replay_fresh; [apply Hs | exact Hout | exact Hon].
Qed.

(** X7: within one session - from the initial state with nothing stored,
    by clicks, computer moves, undos, resets and mode changes, the page
    not being reloaded - the ledger is always numbered 1, 2, 3, ... in
    order, its sides alternate starting with [BLACK], its cells are on
    the grid and pairwise distinct, and [moveCount] is its length; while
    the game is in progress the side to move is [BLACK] after an even
    number of moves and [WHITE] after an odd one.  (A reload is not among
    these events: it installs the snapshot that [placePiece] stored
    before switching the side.) *)
Theorem ledger_is_numbered (es : list Event) (s : State) :
  run es initialState = Ok s ->
  moveCount s = Z.of_nat (length (moveHistory s)) /\
  (forall (i : nat) (m : Move), moveHistory s !! i = Some m ->
     moveNumber m = Z.of_nat i + 1 /\
     player m = (if Nat.even i then BLACK else WHITE) /\
     onGrid (row m) (col m)) /\
  NoDup (map position (moveHistory s)) /\
  (gameOver s = false ->
   currentPlayer s = if Nat.even (length (moveHistory s)) then BLACK else WHITE).
Proof.
  intros Hrun. destruct (reachable_settled es s Hrun) as (Hs & Hn & Ht & _ & _).
  split; [apply Hn|]. split; [|split; [apply Hs | exact Ht]].
  intros i m Hi. destruct (num_moves s Hn i m Hi) as (Hp & Hnum & _).
  split; [exact Hnum|]. split; [exact Hp|].
  apply (cons_moves s Hs). apply list_elem_of_In. eapply list_elem_of_lookup_2. exact Hi.
Qed.

(** X8: in every reachable state the terminal flag is set exactly when
    some side has five in a row on the board or no cell is empty. *)
Theorem gameOver_iff_five_or_full (es : list Event) (s : State) :
  run es initialState = Ok s ->
  (gameOver s = true <->
   (exists p r c, p <> NONE /\ hasFive (board s) p r c) \/
   (forall r c, onGrid r c -> cellOf (board s) r c <> Some NONE)).
Proof.
  intros Hrun. destruct (reachable_settled es s Hrun) as (_ & _ & _ & _ & Hd). exact Hd.
Qed.

(** X9: on a reachable state in progress with a non-empty ledger, [undo]
    takes back the last two moves in human-vs-computer mode when there
    are at least two, and the last move otherwise: the ledger is cut to
    what was before them, the board is that ledger played out, the game
    stays in progress in the same mode, and the side to move is the one
    whose turn follows the shortened ledger. *)
Theorem undo_takes_back (es : list Event) (s : State) :
  run es initialState = Ok s -> gameOver s = false -> moveHistory s <> [] ->
  exists s', undo s = Ok s' /\
    moveHistory s'
    = firstn (length (moveHistory s)
              - (if bool_decide (gameMode s = PVE) && (2 <=? length (moveHistory s))%nat
                 then 2 else 1))%nat
             (moveHistory s) /\
    board s' = replay (moveHistory s') /\
    moveCount s' = Z.of_nat (length (moveHistory s')) /\
    gameOver s' = false /\ gameMode s' = gameMode s /\
    currentPlayer s' = (if Nat.even (length (moveHistory s')) then BLACK else WHITE).
Proof.
  intros Hrun Hgo Hne. destruct (reachable_settled es s Hrun) as (Hs & Hn & _ & Hb & _).
  destruct (undo_result s Hs Hn Hb Hgo Hne)
    as (s' & Hu & _ & Hn' & Hh & Hb' & Hg & Hm & Hp & _).
  exists s'. split; [exact Hu|]. split; [|split; [exact Hb'|split; [apply Hn'|auto]]].
  rewrite Hh. f_equal. unfold undoSteps.
  assert (Hlen : (1 <= length (moveHistory s))%nat).
  { destruct (moveHistory s); [congruence | cbn; lia]. }
  destruct (gameMode s).
  - rewrite bool_decide_eq_false_2 by discriminate. cbn [andb]. lia.
  - rewrite bool_decide_eq_true_2 by reflexivity. cbn [andb].
    destruct (Nat.leb_spec 2 (length (moveHistory s))); lia.
Qed.

(** X10: [undo] saves last: after an [undo] that takes something back,
    the stored snapshot is the snapshot of the state reached, and
    [loadGame] on it installs exactly the fields of that state, side to
    move and move count included. *)
Theorem undo_snapshot_is_state (es : list Event) (s : State) (f0 : Fields) :
  run es initialState = Ok s -> gameOver s = false -> moveHistory s <> [] ->
  exists s', undo s = Ok s' /\
    saved s' = Some (JsonText (encSnapshot s')) /\
    loadGame f0 (saved s') = (fieldsOf s', saved s').
Proof.
  intros Hrun Hgo Hne. destruct (reachable_settled es s Hrun) as (Hs & Hn & _ & Hb & _).
  destruct (undo_result s Hs Hn Hb Hgo Hne)
    as (s' & Hu & _ & Hn' & _ & _ & Hg & _ & _ & Hsv & _).
  exists s'. split; [exact Hu|]. split; [exact Hsv|]. rewrite Hsv.
  unfold loadGame, parse, restore, encSnapshot, fieldsOf. cbn.
  rewrite length_map, Hg, (num_count s' Hn'). reflexivity.
Qed.

(** X11: a finished game is closed to everything but the two buttons
    that start a new one: from a state with the terminal flag set, any
    sequence of clicks, timer expiries and undos runs through and leaves
    the board, the ledger, the side, the flag, the move count, the mode
    and the stored item as they were; only pending timers are used up. *)
Theorem finished_game_is_closed (es : list Event) (s : State) :
  gameOver s = true -> forallb keepsGame es = true ->
  exists s', run es s = Ok s' /\
    setPendingAI s' (pendingAI s) = s /\ (pendingAI s' <= pendingAI s)%nat.
Proof.
  revert s. induction es as [|e es IH]; intros s Hgo Hes.
  { exists s. split; [reflexivity|]. split; [destruct s; reflexivity | lia]. }
  cbn [forallb] in Hes. apply andb_prop in Hes as [He Hes].
  assert (Hstep : exists s1, step e s = Ok s1 /\ setPendingAI s1 (pendingAI s) = s /\
                             (pendingAI s1 <= pendingAI s)%nat /\ gameOver s1 = true).
  { destruct e as [now r c|now| | |]; cbn [step keepsGame] in *; try discriminate.
    - exists s. split; [unfold handleClick; rewrite Hgo; reflexivity|].
      split; [destruct s; reflexivity|]. split; [lia | exact Hgo].
    - destruct (pendingAI s) as [|n] eqn:Ep.
      + exists s. split; [reflexivity|]. rewrite <- Ep.
        split; [destruct s; reflexivity|]. split; [lia | exact Hgo].
      + exists (setPendingAI s n).
        split; [unfold aiMove; cbn [gameOver setPendingAI]; rewrite Hgo; reflexivity|].
        split; [destruct s; cbn in *; subst; reflexivity|].
        split; [cbn; lia | exact Hgo].
    - exists s. split; [unfold undo; rewrite Hgo; reflexivity|].
      split; [destruct s; reflexivity|]. split; [lia | exact Hgo]. }
  destruct Hstep as (s1 & Hs1 & Heq1 & Hle1 & Hgo1).
  destruct (IH s1 Hgo1 Hes) as (s' & Hrun & Heq & Hle).
  exists s'. cbn [run]. rewrite Hs1. cbn [bindRes]. split; [exact Hrun|].
  split; [|lia]. rewrite <- Heq1 at 2. rewrite <- Heq. destruct s'; reflexivity.
Qed.

(** X12: in a reachable state in progress a timer that runs out always
    places a stone: the ledger grows by exactly one entry, on an empty
    cell of the grid chosen by the three-tier policy for [WHITE], and the
    stone is of the side to move, whichever it is. *)
Theorem timer_places_one_stone (es : list Event) (s : State) (now : Z) (n : nat) :
  run es initialState = Ok s -> gameOver s = false -> pendingAI s = S n ->
  exists s' r c, step (Timer now) s = Ok s' /\
    selectMove (board s) = Some (r, c) /\ onGrid r c /\
    cellOf (board s) r c = Some NONE /\
    moveHistory s' = moveHistory s ++ [mkMove r c (currentPlayer s) now (moveCount s + 1)] /\
    board s' = put (board s) r c (currentPlayer s).
Proof.
  intros Hrun Hgo Hp. destruct (reachable_settled es s Hrun) as (Hs & _ & _ & _ & Hd).
  cbn [step]. rewrite Hp.
  destruct (aiMove_cases now (setPendingAI s n) (cons_board s Hs))
    as [[_ [Hover|Hfull]]|(_ & r & c & Hsel & Hon & Hempty & Heq)].
  - cbn in Hover. congruence.
  - exfalso. assert (gameOver s = true) by (apply Hd; right; exact Hfull). congruence.
  - destruct (placePiece_effect now r c (setPendingAI s n) (cons_board s Hs) Hon)
      as (s' & Hplace & Hb & Hh & _).
    exists s', r, c. rewrite Heq. auto 10.
Qed.

(** ** A timer that outlives its game *)

(** X13: [reset] does not cancel a computer move already scheduled: when
    its timer runs out after the reset, the computer opens the new game
    itself, with a [BLACK] stone on the centre (7,7) as move 1, and the
    turn passes to [WHITE]. *)
Theorem timer_after_reset_opens (s : State) (now : Z) (n : nat) :
  pendingAI s = S n ->
  exists s', step (Timer now) (reset s) = Ok s' /\
    moveHistory s' = [mkMove 7 7 BLACK now 1] /\
    board s' = put createEmptyBoard 7 7 BLACK /\
    gameOver s' = false /\ currentPlayer s' = WHITE.
Proof.
  intros Hp. cbn [step]. change (pendingAI (reset s)) with (pendingAI s). rewrite Hp.
  set (s0 := setPendingAI (reset s) n).
  assert (Hon : onGrid 7 7) by (unfold onGrid, BOARD_SIZE; lia).
  assert (Hai : aiMove now s0 = placePiece now 7 7 s0).
  { unfold aiMove. cbn [gameOver s0 setPendingAI reset setSaved setMoveCount
                          setMoveHistory setGameOver setCurrentPlayer setBoard board].
    rewrite getAIMove_selectMove by exact createEmptyBoard_wf.
    replace (selectMove createEmptyBoard) with (Some (7, 7)) by (vm_compute; reflexivity).
    reflexivity. }
  rewrite Hai.
  destruct (placePiece_outcome now 7 7 s0 createEmptyBoard_wf Hon eq_refl)
    as (s' & Hrun & Hb & Hh & _ & _ & Hcases).
  exists s'. split; [exact Hrun|]. split; [exact Hh|]. split; [exact Hb|].
  destruct Hcases as [(_ & Hwhy & _)|(Ho & _ & _ & Hcp & _)]; [exfalso|auto].
  rewrite Hb in Hwhy. change (board s0) with createEmptyBoard in Hwhy.
  change (currentPlayer s0) with BLACK in Hwhy.
  destruct Hwhy as [H5|Hf].
  - destruct (checkWin_hasFive (put createEmptyBoard 7 7 BLACK) 7 7 BLACK)
      as (won & Hw & Hiff); [vm_compute; reflexivity | exact Hon | vm_compute; reflexivity|].
    apply Hiff in H5. subst won. vm_compute in Hw. discriminate Hw.
  - apply (Hf 0 0); [unfold onGrid, BOARD_SIZE; lia | vm_compute; reflexivity].
Qed.

(** ** Move numbers and the stones drawn *)

Lemma find_position (h : list Move) (m : Move) :
  NoDup (map position h) -> In m h ->
  find (fun m0 => (row m0 =? row m) && (col m0 =? col m)) h = Some m.
Proof.
  induction h as [|a h IH]; intros Hnd Hin; [destruct Hin|].
  cbn [map] in Hnd. apply NoDup_cons in Hnd as [Ha Hnd]. cbn [find].
  destruct ((row a =? row m) && (col a =? col m)) eqn:E.
  - f_equal. destruct Hin as [->|Hin]; [reflexivity|]. exfalso. apply Ha.
    apply list_elem_of_In. apply in_map_iff. exists m. split; [|exact Hin].
    unfold position. f_equal; lia.
  - destruct Hin as [->|Hin]; [|apply IH; assumption].
    rewrite !Z.eqb_refl in E. discriminate.
Qed.

Lemma find_no_position (h : list Move) (r c : Z) :
  ~ In (r, c) (map position h) ->
  find (fun m0 => (row m0 =? r) && (col m0 =? c)) h = None.
Proof.
  induction h as [|a h IH]; intros Hout; [reflexivity|]. cbn [find].
  destruct ((row a =? r) && (col a =? c)) eqn:E.
  - exfalso. apply Hout. left. unfold position. f_equal; lia.
  - apply IH. intros Hin. apply Hout. right. exact Hin.
Qed.

(** X14: in every reachable state [getMoveNumber] of the cell of the
    ledger entry of index [i] is [i + 1], and [getMoveNumber] of an empty
    cell of the grid is 0. *)
Theorem getMoveNumber_of_cell (es : list Event) (s : State) :
  run es initialState = Ok s ->
  (forall (i : nat) (m : Move), moveHistory s !! i = Some m ->
     getMoveNumber s (row m) (col m) = Z.of_nat i + 1) /\
  (forall r c, cellOf (board s) r c = Some NONE -> getMoveNumber s r c = 0).
Proof.
  intros Hrun. destruct (reachable_settled es s Hrun) as (Hs & Hn & _ & _ & _). split.
  - intros i m Hi. unfold getMoveNumber.
    rewrite (find_position (moveHistory s) m (cons_nodup s Hs)).
    + apply (num_moves s Hn i m Hi).
    + apply list_elem_of_In. eapply list_elem_of_lookup_2. exact Hi.
  - intros r c Hempty. unfold getMoveNumber. rewrite find_no_position; [reflexivity|].
    intros Hin. apply in_map_iff in Hin as (m & Hpos & Hm).
    destruct (cons_moves s Hs m Hm) as [_ Hocc].
    unfold position in Hpos. injection Hpos as Hr0 Hc0. rewrite Hr0, Hc0 in Hocc.
    exact (Hocc Hempty).
Qed.

Lemma drawCols_map (s : State) (r : Z) (cols : list Z) :
  wfBoard (board s) -> 0 <= r < BOARD_SIZE -> forall calls,
  drawCols s r cols calls
  = Ok (calls ++ map (drawAt s)
                     (List.filter (fun cell => negb (isEmpty (board s) cell))
                                  (map (pair r) cols))).
Proof.
  intros Hwf Hr. induction cols as [|c rest IH]; intros calls.
  - cbn. rewrite app_nil_r. reflexivity.
  - cbn [drawCols map List.filter]. rewrite boardGet_wf by assumption. cbn [bindRes].
    unfold isEmpty at 1. cbn [fst snd].
    destruct (cellEq (cellOf (board s) r c) (Some NONE)); cbn [negb]; [apply IH|].
    rewrite IH. cbn [map]. rewrite <- app_assoc. reflexivity.
Qed.

Lemma drawRows_map (s : State) (rows : list Z) :
  wfBoard (board s) -> (forall r, In r rows -> 0 <= r < BOARD_SIZE) -> forall calls,
  drawRows s rows calls
  = Ok (calls ++ map (drawAt s)
                     (List.filter (fun cell => negb (isEmpty (board s) cell))
                                  (flat_map (fun r => map (pair r) (range BOARD_SIZE)) rows))).
Proof.
  intros Hwf. induction rows as [|r rest IH]; intros Hrows calls.
  - cbn. rewrite app_nil_r. reflexivity.
  - cbn [drawRows flat_map].
    rewrite drawCols_map by (exact Hwf || apply Hrows; left; reflexivity).
    cbn [bindRes]. rewrite IH by (intros r' H; apply Hrows; right; exact H).
    rewrite List.filter_app, map_app, app_assoc. reflexivity.
Qed.

Lemma cells_NoDup : NoDup cells.
Proof. apply (bool_decide_unpack (NoDup cells)). vm_compute. exact I. Qed.

Lemma NoDup_map_by {A B C : Type} (f : A -> B) (g : A -> C) (l : list A) :
  (forall x y, f x = f y -> g x = g y) -> NoDup (map g l) -> NoDup (map f l).
Proof.
  intros Hfg. induction l as [|a l IH]; intros Hnd; [apply NoDup_nil_2|].
  cbn [map] in *. apply NoDup_cons in Hnd as [Ha Hnd]. apply NoDup_cons. split.
  - intros Hin. apply Ha. apply list_elem_of_In in Hin. apply in_map_iff in Hin as (x & Hx & Hl).
    apply list_elem_of_In. apply in_map_iff. exists x. split; [apply Hfg; exact Hx | exact Hl].
  - apply IH. exact Hnd.
Qed.

(** X15: in every reachable state the loop of [drawBoard] draws the
    stones of the ledger and nothing else: its [drawPiece] calls are, up
    to order, one per ledger entry, with the cell, the side and the move
    number of that entry. *)
Theorem drawBoard_draws_ledger (es : list Event) (s : State) :
  run es initialState = Ok s ->
  exists calls, drawBoardPieces s = Ok calls /\
    Permutation calls (map drawnOf (moveHistory s)).
Proof.
  intros Hrun. destruct (reachable_settled es s Hrun) as (Hs & Hn & _ & Hb & _).
  eexists. split.
  - unfold drawBoardPieces. rewrite drawRows_map by (apply Hs || apply range_onGrid).
    rewrite cells_flat. reflexivity.
  - cbn [app]. apply NoDup_Permutation.
    + apply (NoDup_map_by _ id).
      * intros x y H. unfold id. injection H as H1 H2 _ _. destruct x, y. cbn in *. congruence.
      * rewrite map_id. apply NoDup_ListNoDup. apply List.NoDup_filter.
        apply NoDup_ListNoDup. exact cells_NoDup.
    + apply (NoDup_map_by _ position); [|apply Hs].
      intros x y H. unfold position. injection H as H1 H2 _ _. congruence.
    + intros d. rewrite !list_elem_of_In, !in_map_iff. split.
      * intros ([r c] & <- & Hin). apply List.filter_In in Hin as [Hcell Hne].
        apply cells_onGrid in Hcell.
        destruct (in_dec (fun x y : Z * Z => decide (x = y)) (r, c)
                         (map position (moveHistory s))) as [Hin|Hout].
        -- apply in_map_iff in Hin as (m & Hpos & Hm). exists m. split; [|exact Hm].
           unfold position in Hpos. injection Hpos as <- <-.
           unfold drawnOf, drawAt. cbn [fst snd]. f_equal.
           ++ symmetry. rewrite Hb.
              apply cellOf_replay_move; [apply Hs | apply Hs | exact Hm].
           ++ symmetry. unfold getMoveNumber.
              rewrite (find_position (moveHistory s) m (cons_nodup s Hs) Hm). reflexivity.
        -- exfalso. rewrite Hb in Hne.
           assert (He : isEmpty (replay (moveHistory s)) (r, c) = true).
           { apply isEmpty_iff. apply cellOf_replay_fresh; [apply Hs | exact Hout | exact Hcell]. }
           rewrite He in Hne. discriminate.
      * intros (m & <- & Hm). exists (row m, col m).
        destruct (cons_moves s Hs m Hm) as [Hon Hocc]. split.
        -- unfold drawnOf, drawAt. cbn [fst snd]. f_equal.
           ++ rewrite Hb. apply cellOf_replay_move; [apply Hs | apply Hs | exact Hm].
           ++ unfold getMoveNumber.
              rewrite (find_position (moveHistory s) m (cons_nodup s Hs) Hm). reflexivity.
        -- apply List.filter_In. split; [apply cells_onGrid; exact Hon|].
           destruct (isEmpty (board s) (row m, col m)) eqn:E; [|reflexivity].
           apply isEmpty_iff in E. destruct (Hocc E).
Qed.

(** ** What [loadGame] keeps and what it discards *)

(** X16: [loadGame] checks nothing but what makes it throw.  A stored
    text that parses to [v] is removed exactly when [v] is [null] or its
    [moveHistory] is missing or [null]; any other value stays stored and
    is installed as it is: every field receives the property of that
    name, [undefined] when there is none, and the move count receives
    the [length] of [moveHistory]. *)
Theorem loadGame_discards_iff (f : Fields) (v : JValue) :
  (snd (loadGame f (Some (JsonText v))) = None <->
   v = JNull \/
   getProp (Some v) "moveHistory" = Ok None \/
   getProp (Some v) "moveHistory" = Ok (Some JNull)) /\
  (snd (loadGame f (Some (JsonText v))) <> None ->
   exists vBoard vPlayer vOver vHistory vLength vMode,
     getProp (Some v) "board" = Ok vBoard /\
     getProp (Some v) "currentPlayer" = Ok vPlayer /\
     getProp (Some v) "gameOver" = Ok vOver /\
     getProp (Some v) "moveHistory" = Ok vHistory /\
     getProp vHistory "length" = Ok vLength /\
     getProp (Some v) "gameMode" = Ok vMode /\
     loadGame f (Some (JsonText v))
     = (mkFields vBoard vPlayer vOver vHistory vLength vMode, Some (JsonText v))).
Proof.
  unfold loadGame, parse, restore.
  destruct (getProp (Some v) "board") as [vBoard|e] eqn:Eb.
  2:{ destruct v; try discriminate Eb. cbn. split; [tauto|congruence]. }
  assert (Hnn : v <> JNull) by (intros ->; discriminate Eb).
  assert (Hall : forall key, exists x, getProp (Some v) key = Ok x).
  { intros key. destruct v; try (eexists; reflexivity). congruence. }
  destruct (Hall "currentPlayer"%string) as [vPlayer ->].
  destruct (Hall "gameOver"%string) as [vOver ->].
  destruct (Hall "moveHistory"%string) as [vHistory ->].
  destruct (Hall "gameMode"%string) as [vMode Em].
  cbn [fBoard fCurrentPlayer fGameOver fMoveHistory fMoveCount fGameMode].
  destruct (getProp vHistory "length") as [vLength|e] eqn:El.
  - rewrite Em. cbn [snd]. split.
    + split; [discriminate|]. intros [H|[H|H]]; [contradiction| |];
        injection H as ->; discriminate El.
    + intros _. exists vBoard, vPlayer, vOver, vHistory, vLength, vMode. auto 10.
  - cbn [snd]. split; [|congruence]. split; [|reflexivity]. intros _. right.
    destruct vHistory as [[]|]; try discriminate El; auto.
Qed.

(** ** The further properties on sample games *)

Lemma isBoardFull_iff_no_empty_witness :
  exists full, isBoardFull (board (stateOf blackWins)) = Ok full /\
    (full = true <->
     forall r c, onGrid r c -> cellOf (board (stateOf blackWins)) r c <> Some NONE).
Proof.
  apply (isBoardFull_iff_no_empty (board (stateOf blackWins))). vm_compute. reflexivity.
Defined.

Lemma click_places_one_piece_witness :
  exists s', handleClick 100 7 7 initialState = Ok s' /\
    cellOf (board s') 7 7 = Some (currentPlayer initialState) /\
    (forall r' c', (r', c') <> (7, 7) ->
       cellOf (board s') r' c' = cellOf (board initialState) r' c') /\
    moveHistory s'
    = moveHistory initialState
      ++ [mkMove 7 7 (currentPlayer initialState) 100 (moveCount initialState + 1)] /\
    moveCount s' = moveCount initialState + 1 /\
    gameMode s' = gameMode initialState.
Proof.
  apply (click_places_one_piece 100 7 7 initialState).
  - vm_compute. reflexivity.
  - reflexivity.
  - reflexivity.
  - unfold onGrid, BOARD_SIZE. lia.
  - vm_compute. reflexivity.
Defined.

Lemma click_ends_game_iff_witness :
  exists s', handleClick 9 7 11 (stateOf (firstn 8 blackWins)) = Ok s' /\
    (gameOver s' = true <->
     hasFive (board s') (currentPlayer (stateOf (firstn 8 blackWins))) 7 11 \/
     boardFull (board s')) /\
    (gameOver s' = true ->
     currentPlayer s' = currentPlayer (stateOf (firstn 8 blackWins)) /\
     saved s' = None /\ pendingAI s' = pendingAI (stateOf (firstn 8 blackWins))).
Proof.
  apply (click_ends_game_iff 9 7 11 (stateOf (firstn 8 blackWins))).
  - vm_compute. reflexivity.
  - vm_compute. reflexivity.
  - vm_compute. reflexivity.
  - unfold onGrid, BOARD_SIZE. lia.
  - vm_compute. reflexivity.
Defined.

Lemma click_passes_turn_witness :
  currentPlayer (stateOf oneMove) = other (currentPlayer initialState) /\
  currentPlayer (stateOf oneMove) <> currentPlayer initialState /\
  pendingAI (stateOf oneMove)
  = (if isAITurn (stateOf oneMove) then S (pendingAI initialState)
     else pendingAI initialState).
Proof.
  apply (click_passes_turn 100 7 7 initialState (stateOf oneMove)).
  - vm_compute. reflexivity.
  - reflexivity.
  - reflexivity.
  - unfold onGrid, BOARD_SIZE. lia.
  - vm_compute. reflexivity.
  - vm_compute. reflexivity.
  - vm_compute. reflexivity.
Defined.

Lemma click_saves_before_switch_witness :
  saved (stateOf oneMove)
  = Some (JsonText (encSnapshot (setCurrentPlayer (stateOf oneMove)
                                                  (currentPlayer initialState)))) /\
  fBoard (fst (loadGame freshFields (saved (stateOf oneMove))))
  = Some (encBoard (board (stateOf oneMove))) /\
  fMoveHistory (fst (loadGame freshFields (saved (stateOf oneMove))))
  = Some (encHistory (moveHistory (stateOf oneMove))) /\
  fCurrentPlayer (fst (loadGame freshFields (saved (stateOf oneMove))))
  = Some (encPlayer (currentPlayer initialState)) /\
  currentPlayer initialState <> currentPlayer (stateOf oneMove).
Proof.
  apply (click_saves_before_switch 100 7 7 initialState (stateOf oneMove) freshFields).
  - vm_compute. reflexivity.
  - reflexivity.
  - reflexivity.
  - unfold onGrid, BOARD_SIZE. lia.
  - vm_compute. reflexivity.
  - vm_compute. reflexivity.
  - vm_compute. reflexivity.
Defined.

Lemma board_is_ledger_played_witness :
  board (stateOf blackWins) = replay (moveHistory (stateOf blackWins)) /\
  (forall m, In m (moveHistory (stateOf blackWins)) ->
     cellOf (board (stateOf blackWins)) (row m) (col m) = Some (player m)) /\
  (forall r c, onGrid r c -> ~ In (r, c) (map position (moveHistory (stateOf blackWins))) ->
     cellOf (board (stateOf blackWins)) r c = Some NONE).
Proof.
  apply (board_is_ledger_played blackWins (stateOf blackWins)). vm_compute. reflexivity.
Defined.

Lemma ledger_is_numbered_witness :
  moveCount (stateOf blackWins) = Z.of_nat (length (moveHistory (stateOf blackWins))) /\
  (forall (i : nat) (m : Move), moveHistory (stateOf blackWins) !! i = Some m ->
     moveNumber m = Z.of_nat i + 1 /\
     player m = (if Nat.even i then BLACK else WHITE) /\
     onGrid (row m) (col m)) /\
  NoDup (map position (moveHistory (stateOf blackWins))) /\
  (gameOver (stateOf blackWins) = false ->
   currentPlayer (stateOf blackWins)
   = if Nat.even (length (moveHistory (stateOf blackWins))) then BLACK else WHITE).
Proof.
  apply (ledger_is_numbered blackWins (stateOf blackWins)). vm_compute. reflexivity.
Defined.

Lemma gameOver_iff_five_or_full_witness :
  gameOver (stateOf blackWins) = true <->
  (exists p r c, p <> NONE /\ hasFive (board (stateOf blackWins)) p r c) \/
  (forall r c, onGrid r c -> cellOf (board (stateOf blackWins)) r c <> Some NONE).
Proof.
  apply (gameOver_iff_five_or_full blackWins (stateOf blackWins)). vm_compute. reflexivity.
Defined.

Lemma undo_takes_back_witness :
  exists s', undo (stateOf vsComputer) = Ok s' /\
    moveHistory s'
    = firstn (length (moveHistory (stateOf vsComputer))
              - (if bool_decide (gameMode (stateOf vsComputer) = PVE)
                    && (2 <=? length (moveHistory (stateOf vsComputer)))%nat
                 then 2 else 1))%nat
             (moveHistory (stateOf vsComputer)) /\
    board s' = replay (moveHistory s') /\
    moveCount s' = Z.of_nat (length (moveHistory s')) /\
    gameOver s' = false /\ gameMode s' = gameMode (stateOf vsComputer) /\
    currentPlayer s' = (if Nat.even (length (moveHistory s')) then BLACK else WHITE).
Proof.
  apply (undo_takes_back vsComputer (stateOf vsComputer)).
  - vm_compute. reflexivity.
  - vm_compute. reflexivity.
  - vm_compute. discriminate.
Defined.

Lemma undo_snapshot_is_state_witness :
  exists s', undo (stateOf vsComputer) = Ok s' /\
    saved s' = Some (JsonText (encSnapshot s')) /\
    loadGame freshFields (saved s') = (fieldsOf s', saved s').
Proof.
  apply (undo_snapshot_is_state vsComputer (stateOf vsComputer) freshFields).
  - vm_compute. reflexivity.
  - vm_compute. reflexivity.
  - vm_compute. discriminate.
Defined.

Lemma finished_game_is_closed_witness :
  exists s', run threeEvents (stateOf blackWins) = Ok s' /\
    setPendingAI s' (pendingAI (stateOf blackWins)) = stateOf blackWins /\
    (pendingAI s' <= pendingAI (stateOf blackWins))%nat.
Proof.
  apply (finished_game_is_closed threeEvents (stateOf blackWins)).
  - vm_compute. reflexivity.
  - reflexivity.
Defined.

Lemma timer_places_one_stone_witness :
  exists s' r c, step (Timer 600) (stateOf pveOneMove) = Ok s' /\
    selectMove (board (stateOf pveOneMove)) = Some (r, c) /\ onGrid r c /\
    cellOf (board (stateOf pveOneMove)) r c = Some NONE /\
    moveHistory s'
    = moveHistory (stateOf pveOneMove)
      ++ [mkMove r c (currentPlayer (stateOf pveOneMove)) 600
                 (moveCount (stateOf pveOneMove) + 1)] /\
    board s' = put (board (stateOf pveOneMove)) r c (currentPlayer (stateOf pveOneMove)).
Proof.
  apply (timer_places_one_stone pveOneMove (stateOf pveOneMove) 600 0).
  - vm_compute. reflexivity.
  - vm_compute. reflexivity.
  - vm_compute. reflexivity.
Defined.

Lemma timer_after_reset_opens_witness :
  exists s', step (Timer 600) (reset (stateOf pveOneMove)) = Ok s' /\
    moveHistory s' = [mkMove 7 7 BLACK 600 1] /\
    board s' = put createEmptyBoard 7 7 BLACK /\
    gameOver s' = false /\ currentPlayer s' = WHITE.
Proof.
  apply (timer_after_reset_opens (stateOf pveOneMove) 600 0). vm_compute. reflexivity.
Defined.

Lemma getMoveNumber_of_cell_witness :
  (forall (i : nat) (m : Move), moveHistory (stateOf blackWins) !! i = Some m ->
     getMoveNumber (stateOf blackWins) (row m) (col m) = Z.of_nat i + 1) /\
  (forall r c, cellOf (board (stateOf blackWins)) r c = Some NONE ->
     getMoveNumber (stateOf blackWins) r c = 0).
Proof.
  apply (getMoveNumber_of_cell blackWins (stateOf blackWins)). vm_compute. reflexivity.
Defined.

Lemma drawBoard_draws_ledger_witness :
  exists calls, drawBoardPieces (stateOf blackWins) = Ok calls /\
    Permutation calls (map drawnOf (moveHistory (stateOf blackWins))).
Proof.
  apply (drawBoard_draws_ledger blackWins (stateOf blackWins)). vm_compute. reflexivity.
Defined.

(** The stored text [{"moveHistory": [], "gameOver": true}] loads a
    finished game with no board. *)
Example loadGame_unchecked :
  loadGame freshFields
    (Some (JsonText (JObj [("moveHistory"%string, JArr []); ("gameOver"%string, JBool true)])))
  = (mkFields None None (Some (JBool true)) (Some (JArr [])) (Some (JNum 0)) None,
     Some (JsonText (JObj [("moveHistory"%string, JArr []); ("gameOver"%string, JBool true)]))).
Proof. reflexivity. Qed.

(** A computer move scheduled before an undo is played for [BLACK]: the
    human's opening is taken back within the delay, and the timer then
    puts a black stone on the centre. *)
Example computer_plays_black :
  map (fun m => (position m, player m))
      (moveHistory (stateOf [ModeBtn; Click 100 7 7; UndoBtn; Timer 600]))
  = [((7, 7), BLACK)].
Proof. vm_compute. reflexivity. Qed.
